(** * The TTLV primitive codec of PyKMIP: [kmip/core/primitives.py]

    A shallow embedding of the primitive classes ([Base], [Integer],
    [LongInteger], [BigInteger], [Enumeration], [Boolean], [TextString],
    [ByteString], [DateTime], [Interval]) and of the Python operations they
    rest on ([struct.pack]/[struct.unpack], [str] methods, [int(s, 2)],
    [bytes(x)], the byte stream), followed by the properties of the codec.

    Python objects are mutable and an exception leaves every assignment and
    every stream write made before it in place, so a method is a function
    from the state (the object and the stream it is handed) to an outcome
    and the state it leaves.

    The embedding follows Python 3: the test [sys.version >= '3'] of
    [TextString] holds, [str] is a sequence of code points, [bytes] a
    sequence of octets and [six.integer_types] is [(int,)]. *)

From Stdlib Require Import ZArith NArith List Bool Lia.
From Stdlib.Strings Require Import Byte Ascii String.
Import ListNotations.
Local Open Scope Z_scope.

(** ** Python values *)

(** The exceptions the module raises or lets through. *)
Inductive exn : Set :=
| ReadValueError            (* kmip.core.errors *)
| WriteOverflowError        (* kmip.core.errors *)
| StreamNotEmptyError       (* kmip.core.errors *)
| InvalidPrimitiveLength    (* kmip.core.exceptions *)
| TypeError
| ValueError
| IndexError
| OverflowError
| NotImplementedError
| UnicodeEncodeError
| UnicodeDecodeError
| struct_error.             (* struct.error *)

Inductive result (A : Type) : Type :=
| Ok (a : A)
| Raise (e : exn).
Arguments Ok {A} a.
Arguments Raise {A} e.

Definition rbind {A B} (r : result A) (k : A -> result B) : result B :=
  match r with
  | Ok a => k a
  | Raise e => Raise e
  end.

(** A [str] is a sequence of Unicode code points, each below 0x110000. *)
Definition str := list N.

(** The [str] an ASCII literal writes. *)
Definition text (s : string) : str := map N_of_ascii (list_ascii_of_string s).

(** The values a caller may hand to a constructor.  [PyEnum name value] is a
    member of a subclass of [enum.Enum]. *)
Inductive pyval : Type :=
| PyNone
| PyBool (b : bool)
| PyInt (z : Z)
| PyStr (s : str)
| PyBytes (bs : list byte)
| PyEnum (name : string) (value : Z).

(** [len(x)] *)
Definition len {A} (l : list A) : Z := Z.of_nat (List.length l).

(** [bool(x)]: the truth value an [if] tests. *)
Definition truthy (v : pyval) : bool :=
  match v with
  | PyNone => false
  | PyBool b => b
  | PyInt z => negb (z =? 0)
  | PyStr s => negb (len s =? 0)
  | PyBytes bs => negb (len bs =? 0)
  | PyEnum _ _ => true
  end.

(** [isinstance(x, bool)] *)
Definition isinstance_bool (v : pyval) : bool :=
  match v with PyBool _ => true | _ => false end.

(** [type(x) in six.integer_types]: the exact type [int], so not [bool]. *)
Definition type_in_integer_types (v : pyval) : bool :=
  match v with PyInt _ => true | _ => false end.

(** [isinstance(x, six.integer_types)]: [bool] is a subclass of [int]. *)
Definition isinstance_integer_types (v : pyval) : bool :=
  match v with PyInt _ | PyBool _ => true | _ => false end.

(** [type(x) is str], [type(x) is bytes], [isinstance(x, Enum)] *)
Definition type_is_str (v : pyval) : bool :=
  match v with PyStr _ => true | _ => false end.
Definition type_is_bytes (v : pyval) : bool :=
  match v with PyBytes _ => true | _ => false end.
Definition isinstance_Enum (v : pyval) : bool :=
  match v with PyEnum _ _ => true | _ => false end.

(** [int(b)] of a [bool] *)
Definition Z_of_bool (b : bool) : Z := if b then 1 else 0.

(** The integer a value stands for where Python wants one ([__index__]). *)
Definition index_of (v : pyval) : option Z :=
  match v with
  | PyInt z => Some z
  | PyBool b => Some (Z_of_bool b)
  | _ => None
  end.

(** ** Octets and big-endian numbers *)

Definition Z_of_byte (b : byte) : Z := Z.of_N (Byte.to_N b).

Definition byte_of_Z (z : Z) : byte :=
  match Byte.of_N (Z.to_N (z mod 256)) with
  | Some b => b
  | None => x00
  end.

(** The unsigned number a byte string holds, most significant octet first. *)
Definition be_decode (bs : list byte) : Z :=
  fold_left (fun acc b => acc * 256 + Z_of_byte b) bs 0.

(** The [n] low-order octets of [z], most significant first. *)
Fixpoint be_encode (n : nat) (z : Z) : list byte :=
  match n with
  | O => []
  | S k => be_encode k (z / 256) ++ [byte_of_Z z]
  end.

(** ** [struct] *)

(** The integer formats the module uses, all in network byte order:
    ['!B'], ['!i'], ['!I'], ['!q'], ['!Q']. *)
Inductive format : Set := fmt_B | fmt_i | fmt_I | fmt_q | fmt_Q.

(** [struct.calcsize] *)
Definition calcsize (f : format) : nat :=
  match f with
  | fmt_B => 1
  | fmt_i | fmt_I => 4
  | fmt_q | fmt_Q => 8
  end%nat.

Definition fmt_signed (f : format) : bool :=
  match f with
  | fmt_i | fmt_q => true
  | _ => false
  end.

Definition fmt_min (f : format) : Z :=
  if fmt_signed f then - 2 ^ (8 * Z.of_nat (calcsize f) - 1) else 0.

Definition fmt_max (f : format) : Z :=
  if fmt_signed f then 2 ^ (8 * Z.of_nat (calcsize f) - 1) - 1
  else 2 ^ (8 * Z.of_nat (calcsize f)) - 1.

(** [struct.pack(f, v)]: [struct.error] when [v] is not an integer or does
    not fit the format. *)
Definition pack (f : format) (v : pyval) : result (list byte) :=
  match index_of v with
  | None => Raise struct_error
  | Some z =>
      if (fmt_min f <=? z) && (z <=? fmt_max f)
      then Ok (be_encode (calcsize f) z)
      else Raise struct_error
  end.

(** [struct.unpack(f, buf)[0]]: [struct.error] unless the buffer has exactly
    the size of the format. *)
Definition unpack (f : format) (buf : list byte) : result Z :=
  if (List.length buf =? calcsize f)%nat then
    let u := be_decode buf in
    if fmt_signed f && (2 ^ (8 * Z.of_nat (calcsize f) - 1) <=? u)
    then Ok (u - 2 ^ (8 * Z.of_nat (calcsize f)))
    else Ok u
  else Raise struct_error.

(** [struct.pack('!c', v)]: a [bytes] object of length one. *)
Definition pack_c (v : pyval) : result (list byte) :=
  match v with
  | PyBytes [b] => Ok [b]
  | _ => Raise struct_error
  end.

(** [struct.unpack('!c', buf)[0]] *)
Definition unpack_c (buf : list byte) : result (list byte) :=
  match buf with
  | [b] => Ok [b]
  | _ => Raise struct_error
  end.

(** ** Sequences and [str] *)

(** An index or slice bound brought into [0, n]: a negative one counts from
    the end. *)
Definition clamp_index (n i : Z) : Z :=
  if i <? 0 then Z.max 0 (i + n) else Z.min i n.

(** [s[lo:hi]]; [hi = None] is [s[lo:]]. *)
Definition slice {A} (s : list A) (lo : Z) (hi : option Z) : list A :=
  let n := len s in
  let a := clamp_index n lo in
  let b := match hi with Some h => clamp_index n h | None => n end in
  firstn (Z.to_nat (b - a)) (skipn (Z.to_nat a) s).

(** [s[i]] *)
Definition index {A} (s : list A) (i : Z) : result A :=
  let j := if i <? 0 then i + len s else i in
  if j <? 0 then Raise IndexError
  else match nth_error s (Z.to_nat j) with
       | Some x => Ok x
       | None => Raise IndexError
       end.

(** [c * k] for a one-character string [c] *)
Definition str_mul (c : N) (k : Z) : str := repeat c (Z.to_nat k).

(** [range(start, stop, step)] for a positive step *)
Definition range (start stop step : Z) : list Z :=
  map (fun k => start + step * Z.of_nat k)
      (seq 0 (Z.to_nat ((stop - start + step - 1) / step))).

(** The characters ['0'], ['1'] and ['i']. *)
Definition chr_0 : N := 48.
Definition chr_1 : N := 49.
Definition chr_i : N := 105.
Definition chr_minus : N := 45.

Fixpoint bin_digits (p : positive) : str :=
  match p with
  | xH => [chr_1]
  | xO q => bin_digits q ++ [chr_0]
  | xI q => bin_digits q ++ [chr_1]
  end.

(** ["{0:b}".format(z)] *)
Definition format_b (z : Z) : str :=
  match z with
  | Z0 => [chr_0]
  | Zpos p => bin_digits p
  | Zneg p => chr_minus :: bin_digits p
  end.

(** [s.replace(old, new)] for one-character [old] and [new] *)
Definition replace (old new : N) (s : str) : str :=
  map (fun c => if (c =? old)%N then new else c) s.

Fixpoint rfind_from (c : N) (s : str) (i : Z) : Z :=
  match s with
  | [] => -1
  | x :: r =>
      let j := rfind_from c r (i + 1) in
      if 0 <=? j then j else if (x =? c)%N then i else -1
  end.

(** [s.rfind(c)]: the highest index of [c], or -1. *)
Definition rfind (c : N) (s : str) : Z := rfind_from c s 0.

Definition is_bit (c : N) : bool := (c =? chr_0)%N || (c =? chr_1)%N.

(** The number a string of binary digits writes. *)
Definition bits_value (s : str) : Z :=
  fold_left (fun acc c => 2 * acc + (if (c =? chr_1)%N then 1 else 0)) s 0.

(** [int(s, 2)] on strings of binary digits, the only ones the module hands
    it: the empty string is refused with [ValueError].  (Signs, blanks and
    prefixes, which Python also reads, are refused here; no caller builds
    them.) *)
Definition int_base2 (s : str) : result Z :=
  if (len s =? 0) || negb (forallb is_bit s) then Raise ValueError
  else Ok (bits_value s).

(** [c.encode()] of a one-character string: its UTF-8 octets. *)
Definition encode_char (c : N) : result (list byte) :=
  let z := Z.of_N c in
  if z <? 128 then Ok [byte_of_Z z]
  else if z <? 2048 then
    Ok [byte_of_Z (192 + z / 64); byte_of_Z (128 + z mod 64)]
  else if (55296 <=? z) && (z <=? 57343) then Raise UnicodeEncodeError
  else if z <? 65536 then
    Ok [byte_of_Z (224 + z / 4096); byte_of_Z (128 + (z / 64) mod 64);
        byte_of_Z (128 + z mod 64)]
  else
    Ok [byte_of_Z (240 + z / 262144); byte_of_Z (128 + (z / 4096) mod 64);
        byte_of_Z (128 + (z / 64) mod 64); byte_of_Z (128 + z mod 64)].

(** [s.encode()]: the UTF-8 octets of a string. *)
Fixpoint str_encode (s : str) : result (list byte) :=
  match s with
  | [] => Ok []
  | c :: r =>
      match encode_char c, str_encode r with
      | Ok bs, Ok rest => Ok (bs ++ rest)
      | Raise e, _ => Raise e
      | _, Raise e => Raise e
      end
  end.

(** [c.decode()] of a [bytes] object of length one: an ASCII octet is its
    character, any other octet is no complete UTF-8 sequence. *)
Definition decode_byte (b : byte) : result str :=
  if Z_of_byte b <? 128 then Ok [Byte.to_N b] else Raise UnicodeDecodeError.

(** [bytes(v)] *)
Definition bytes_of (v : pyval) : result (list byte) :=
  match v with
  | PyBytes bs => Ok bs
  | PyInt z => if z <? 0 then Raise ValueError else Ok (repeat x00 (Z.to_nat z))
  | PyBool b => Ok (repeat x00 (if b then 1 else 0)%nat)
  | PyNone | PyStr _ | PyEnum _ _ => Raise TypeError
  end.

(** ** Enumerations *)

(** Modelled from the spec: [kmip.core.enums.Types] is not among the sources.
    Its members and their one-octet codes are those of the spec's table of
    type discriminants.  [DEFAULT], which [Base.__init__] names and the
    table leaves out, is the placeholder a primitive class replaces with its
    own type; it is given the value 0. *)
Inductive Types : Set :=
| DEFAULT | STRUCTURE | INTEGER | LONG_INTEGER | BIG_INTEGER | ENUMERATION
| BOOLEAN | TEXT_STRING | BYTE_STRING | DATE_TIME | INTERVAL.

(** [t.value] *)
Definition Types_value (t : Types) : Z :=
  match t with
  | DEFAULT => 0
  | STRUCTURE => 1
  | INTEGER => 2
  | LONG_INTEGER => 3
  | BIG_INTEGER => 4
  | ENUMERATION => 5
  | BOOLEAN => 6
  | TEXT_STRING => 7
  | BYTE_STRING => 8
  | DATE_TIME => 9
  | INTERVAL => 10
  end.

Definition Types_members : list Types :=
  [DEFAULT; STRUCTURE; INTEGER; LONG_INTEGER; BIG_INTEGER; ENUMERATION;
   BOOLEAN; TEXT_STRING; BYTE_STRING; DATE_TIME; INTERVAL].

(** [Types(typ)]: the member with that value, [ValueError] when none has. *)
Definition Types_of (typ : Z) : result Types :=
  match find (fun t => Types_value t =? typ) Types_members with
  | Some t => Ok t
  | None => Raise ValueError
  end.

Definition Types_eqb (a b : Types) : bool := Types_value a =? Types_value b.

(** The members of an enumeration a subclass of [Enumeration] binds as
    [ENUM_TYPE]: names and values. *)
Definition EnumType := list (string * Z).

(** [E(v)]: the first member with that value, [ValueError] when none has. *)
Definition Enum_of (E : EnumType) (v : pyval) : result pyval :=
  match v with
  | PyInt z =>
      match find (fun m => snd m =? z) E with
      | Some m => Ok (PyEnum (fst m) (snd m))
      | None => Raise ValueError
      end
  | _ => Raise ValueError
  end.

(** ** Objects *)

(** The classes of primitives; the class of an object decides which
    [validate], [read] and [write] a call reaches. *)
Inductive Class : Set :=
| CInteger | CLongInteger | CBigInteger | CEnumeration | CBoolean
| CTextString | CByteString | CDateTime | CInterval.

(** An object: its class, the class attribute [ENUM_TYPE] (of a subclass of
    [Enumeration]) and the instance attributes the module assigns.  A tag is
    held as the value of its [Tags] member. *)
Record Primitive : Type := mkPrimitive {
  cls : Class;
  ENUM_TYPE : option EnumType;
  tag : Z;
  type : Types;
  length : option Z;
  value : pyval;
  padding_length : option Z;
  pack_string : option format;
  enum : pyval
}.

Definition set_tag (o : Primitive) (x : Z) : Primitive :=
  mkPrimitive (cls o) (ENUM_TYPE o) x (type o) (length o) (value o)
    (padding_length o) (pack_string o) (enum o).
Definition set_type (o : Primitive) (x : Types) : Primitive :=
  mkPrimitive (cls o) (ENUM_TYPE o) (tag o) x (length o) (value o)
    (padding_length o) (pack_string o) (enum o).
Definition set_length (o : Primitive) (x : option Z) : Primitive :=
  mkPrimitive (cls o) (ENUM_TYPE o) (tag o) (type o) x (value o)
    (padding_length o) (pack_string o) (enum o).
Definition set_value (o : Primitive) (x : pyval) : Primitive :=
  mkPrimitive (cls o) (ENUM_TYPE o) (tag o) (type o) (length o) x
    (padding_length o) (pack_string o) (enum o).
Definition set_padding_length (o : Primitive) (x : option Z) : Primitive :=
  mkPrimitive (cls o) (ENUM_TYPE o) (tag o) (type o) (length o) (value o)
    x (pack_string o) (enum o).
Definition set_pack_string (o : Primitive) (x : option format) : Primitive :=
  mkPrimitive (cls o) (ENUM_TYPE o) (tag o) (type o) (length o) (value o)
    (padding_length o) x (enum o).
Definition set_enum (o : Primitive) (x : pyval) : Primitive :=
  mkPrimitive (cls o) (ENUM_TYPE o) (tag o) (type o) (length o) (value o)
    (padding_length o) (pack_string o) x.

(** A new object of a class, before [__init__] runs: no instance attribute
    is assigned yet.  Every [__init__] assigns [tag], [type] and [length]
    through [Base.__init__] before anything reads them. *)
Definition new (c : Class) (E : option EnumType) : Primitive :=
  mkPrimitive c E 0 DEFAULT None PyNone None None PyNone.

Definition is_None (v : pyval) : bool :=
  match v with PyNone => true | _ => false end.

(** ** Methods: state and exceptions *)

(** What a method works on: the object and the stream it is handed, the
    octets still to be read of an input stream or the octets written so far
    of an output stream. *)
Record state : Type := mkState {
  self : Primitive;
  stream : list byte
}.

Definition M (A : Type) : Type := state -> result A * state.

Definition ret {A} (a : A) : M A := fun st => (Ok a, st).

Definition raise {A} (e : exn) : M A := fun st => (Raise e, st).

Definition bind {A B} (m : M A) (k : A -> M B) : M B :=
  fun st =>
    match m st with
    | (Ok a, st') => k a st'
    | (Raise e, st') => (Raise e, st')
    end.

Definition lift {A} (r : result A) : M A := fun st => (r, st).

Definition get_self : M Primitive := fun st => (Ok (self st), st).

Definition update_self (f : Primitive -> Primitive) : M unit :=
  fun st => (Ok tt, mkState (f (self st)) (stream st)).

Declare Scope py_scope.
Delimit Scope py_scope with py.
Notation "x <- m ;; k" := (bind m (fun x => k))
  (at level 61, m at next level, right associativity) : py_scope.
Notation "m ;; k" := (bind m (fun _ => k))
  (at level 61, right associativity) : py_scope.
Notation "x <~ r ;; k" := (rbind r (fun x => k))
  (at level 61, r at next level, right associativity) : py_scope.
Local Open Scope py_scope.

(** [for x in xs: body(x)] *)
Fixpoint for_each {A} (xs : list A) (body : A -> M unit) : M unit :=
  match xs with
  | [] => ret tt
  | x :: r => body x ;; for_each r body
  end.

(** [for _ in range(n): body] *)
Fixpoint for_times (n : nat) (body : M unit) : M unit :=
  match n with
  | O => ret tt
  | S k => body ;; for_times k body
  end.

Definition for_range (n : Z) (body : M unit) : M unit :=
  for_times (Z.to_nat n) body.

(** [for _ in range(n): acc = body(acc)], for a loop that builds a local. *)
Fixpoint fold_times {A} (n : nat) (body : A -> M A) (acc : A) : M A :=
  match n with
  | O => ret acc
  | S k => acc' <- body acc ;; fold_times k body acc'
  end.

(** Modelled from the spec: the stream class
    ([kmip.core.utils.BytearrayStream]) is not among the sources.  By the
    spec's byte-stream contract [istream.read(n)] returns up to [n] octets
    and advances past them; a short read is no error of the stream. *)
Definition istream_read (n : Z) : M (list byte) :=
  fun st =>
    (Ok (firstn (Z.to_nat n) (stream st)),
     mkState (self st) (skipn (Z.to_nat n) (stream st))).

(** Modelled from the spec: [ostream.write(bs)] of the same stream class
    appends the octets. *)
Definition ostream_write (bs : list byte) : M unit :=
  fun st => (Ok tt, mkState (self st) (stream st ++ bs)).

(** An attribute that must hold a number where it is used: arithmetic on
    [None] is a [TypeError]. *)
Definition number (x : option Z) : M Z :=
  match x with
  | Some z => ret z
  | None => raise TypeError
  end.

(** [self.pack_string], which [Integer.__init__] assigns and only the
    methods of [Integer] read. *)
Definition the_format (x : option format) : M format :=
  match x with
  | Some f => ret f
  | None => raise TypeError
  end.

(** Modelled from the spec: [kmip.core.utils.count_bytes] is not among the
    sources.  By the spec the header write fails with [WriteOverflowError] if
    the length exceeds 2^32 - 1: the count is the number of octets the
    unsigned value needs. *)
Definition count_bytes (value : Z) : Z := Z.log2 value / 8 + 1.

(** Two tags the spec's text uses, 0x420020 and 0x42007B, as a [Tags]
    enumeration to evaluate the codec with. *)
Definition Tags_sample : list Z := [4325408; 4325499].

(** ** The classes *)

Section Codec.

(** The values of the members of [kmip.core.enums.Tags], which is not among
    the sources: the codec is stated for any such enumeration. *)
Variable Tags : list Z.

(** [Tags(tag)]: the member with that value, [ValueError] when none has. *)
Definition Tags_of (tag : Z) : result Z :=
  if existsb (Z.eqb tag) Tags then Ok tag else Raise ValueError.

(** *** [Base] *)

Definition TAG_SIZE : Z := 3.
Definition TYPE_SIZE : Z := 1.
Definition LENGTH_SIZE : Z := 4.

Definition Base___init__ (self : Primitive) (tag' : Z) (type' : Types)
  : Primitive :=
  let self := set_tag self tag' in
  let self := set_type self type' in
  set_length self None.

Definition read_tag : M unit :=
  tts <- istream_read TAG_SIZE ;;
  tag' <- lift (unpack fmt_I (x00 :: slice tts 0 (Some TAG_SIZE))) ;;
  enum_tag <- lift (Tags_of tag') ;;
  self <- get_self ;;
  if negb (enum_tag =? tag self) then raise ReadValueError
  else ret tt.

Definition read_type : M unit :=
  tts <- istream_read TYPE_SIZE ;;
  let num_bytes := len tts in
  if negb (num_bytes =? TYPE_SIZE) then raise ReadValueError
  else
    typ <- lift (unpack fmt_B tts) ;;
    enum_typ <- lift (Types_of typ) ;;
    self <- get_self ;;
    if negb (Types_eqb enum_typ (type self)) then raise ReadValueError
    else ret tt.

Definition read_length : M unit :=
  lst <- istream_read LENGTH_SIZE ;;
  let num_bytes := len lst in
  if negb (num_bytes =? LENGTH_SIZE) then raise ReadValueError
  else
    l <- lift (unpack fmt_I lst) ;;
    update_self (fun o => set_length o (Some l)).

Definition Base_read : M unit :=
  read_tag ;; read_type ;; read_length.

Definition write_tag : M unit :=
  self <- get_self ;;
  bs <- lift (pack fmt_I (PyInt (tag self))) ;;
  ostream_write (slice bs 1 None).

(** [type(self.type) is not Types] cannot hold of a [Types] member. *)
Definition write_type : M unit :=
  self <- get_self ;;
  bs <- lift (pack fmt_B (PyInt (Types_value (type self)))) ;;
  ostream_write bs.

Definition write_length : M unit :=
  self <- get_self ;;
  match length self with
  | None => raise TypeError
  | Some l =>
      let num_bytes := count_bytes l in
      if num_bytes >? LENGTH_SIZE then raise WriteOverflowError
      else bs <- lift (pack fmt_I (PyInt l)) ;; ostream_write bs
  end.

Definition Base_write : M unit :=
  write_tag ;; write_type ;; write_length.

(** *** [validate] of each class *)

Definition Integer_LENGTH : Z := 4.
Definition Integer_MIN : Z := -2147483648.
Definition Integer_MAX : Z := 2147483647.

Definition Integer_validate (self : Primitive) : result unit :=
  if negb (is_None (value self)) then
    if negb (type_in_integer_types (value self)) then Raise TypeError
    else
      match index_of (value self) with
      | Some v =>
          if v >? Integer_MAX then Raise ValueError
          else if v <? Integer_MIN then Raise ValueError
          else Ok tt
      | None => Ok tt
      end
  else Ok tt.

Definition LongInteger_LENGTH : Z := 8.
Definition LongInteger_MIN : Z := -9223372036854775808.
Definition LongInteger_MAX : Z := 9223372036854775807.

Definition LongInteger_validate (self : Primitive) : result unit :=
  if negb (is_None (value self)) then
    if negb (isinstance_integer_types (value self)) then Raise TypeError
    else
      match index_of (value self) with
      | Some v =>
          if v >? LongInteger_MAX then Raise ValueError
          else if v <? LongInteger_MIN then Raise ValueError
          else Ok tt
      | None => Ok tt
      end
  else Ok tt.

Definition BigInteger_validate (self : Primitive) : result unit :=
  if negb (is_None (value self)) then
    if negb (isinstance_integer_types (value self)) then Raise TypeError
    else Ok tt
  else Ok tt.

Definition Enumeration_validate (self : Primitive) : result unit :=
  if negb (is_None (enum self)) then
    if negb (isinstance_Enum (enum self)) then Raise TypeError
    else Ok tt
  else Ok tt.

Definition Boolean_validate (self : Primitive) : result unit :=
  if truthy (value self) then
    if negb (isinstance_bool (value self)) then Raise TypeError
    else Ok tt
  else Ok tt.

Definition TextString_validate (self : Primitive) : result unit :=
  if negb (is_None (value self)) then
    if negb (type_is_str (value self)) then Raise TypeError
    else Ok tt
  else Ok tt.

Definition ByteString_validate (self : Primitive) : result unit :=
  if negb (is_None (value self)) then
    if negb (type_is_bytes (value self)) then Raise TypeError
    else Ok tt
  else Ok tt.

(** [self.validate()]: the method of the object's class.  [Enumeration]
    overrides the one of [Integer]; [Interval] and [DateTime] inherit. *)
Definition validate (self : Primitive) : result unit :=
  match cls self with
  | CInteger | CInterval => Integer_validate self
  | CLongInteger | CDateTime => LongInteger_validate self
  | CBigInteger => BigInteger_validate self
  | CEnumeration => Enumeration_validate self
  | CBoolean => Boolean_validate self
  | CTextString => TextString_validate self
  | CByteString => ByteString_validate self
  end.

Definition do_validate : M unit :=
  self <- get_self ;; lift (validate self).

(** *** [Integer], [Interval] *)

Definition Integer___init__ (self : Primitive) (value' : pyval) (tag' : Z)
  (signed : bool) : result Primitive :=
  let self := Base___init__ self tag' INTEGER in
  let self := set_value self value' in
  let self :=
    if is_None (value self) then set_value self (PyInt 0) else self in
  let self := set_length self (Some Integer_LENGTH) in
  let self := set_padding_length self (Some Integer_LENGTH) in
  let self :=
    if signed then set_pack_string self (Some fmt_i)
    else set_pack_string self (Some fmt_I) in
  _ <~ validate self ;;
  Ok self.

(** [self.length is not self.LENGTH]: the two are the same object when the
    length read is the small integer [LENGTH], and only then. *)
Definition is_not (x : option Z) (y : Z) : bool :=
  match x with
  | Some z => negb (z =? y)
  | None => true
  end.

Definition Integer_read_value : M unit :=
  self <- get_self ;;
  if is_not (length self) Integer_LENGTH then raise ReadValueError
  else
    fmt <- the_format (pack_string self) ;;
    n <- number (length self) ;;
    bs <- istream_read n ;;
    v <- lift (unpack fmt bs) ;;
    update_self (fun o => set_value o (PyInt v)) ;;
    p <- number (padding_length self) ;;
    bs <- istream_read p ;;
    pad <- lift (unpack fmt bs) ;;
    if negb (pad =? 0) then raise ReadValueError
    else do_validate.

Definition Integer_read : M unit :=
  Base_read ;; Integer_read_value.

Definition Integer_write_value : M unit :=
  self <- get_self ;;
  fmt <- the_format (pack_string self) ;;
  bs <- lift (pack fmt (value self)) ;;
  ostream_write bs ;;
  bs <- lift (pack fmt (PyInt 0)) ;;
  ostream_write bs.

Definition Integer_write : M unit :=
  Base_write ;; Integer_write_value.

(** [Integer(value, tag, signed)] *)
Definition Integer (value' : pyval) (tag' : Z) (signed : bool)
  : result Primitive :=
  Integer___init__ (new CInteger None) value' tag' signed.

(** [Interval(value, tag)]: [Integer.__init__] is called without [signed],
    which defaults to [True]. *)
Definition Interval (value' : pyval) (tag' : Z) : result Primitive :=
  self <~ Integer___init__ (new CInterval None) value' tag' true ;;
  Ok (set_type self INTERVAL).

(** *** [LongInteger], [DateTime] *)

Definition LongInteger___init__ (self : Primitive) (value' : pyval) (tag' : Z)
  : result Primitive :=
  let self := Base___init__ self tag' LONG_INTEGER in
  let self := set_value self value' in
  let self := set_length self (Some LongInteger_LENGTH) in
  _ <~ validate self ;;
  Ok self.

Definition LongInteger_read_value : M unit :=
  self <- get_self ;;
  if is_not (length self) LongInteger_LENGTH then raise InvalidPrimitiveLength
  else
    n <- number (length self) ;;
    bs <- istream_read n ;;
    v <- lift (unpack fmt_q bs) ;;
    update_self (fun o => set_value o (PyInt v)) ;;
    do_validate.

Definition LongInteger_read : M unit :=
  Base_read ;; LongInteger_read_value.

Definition LongInteger_write_value : M unit :=
  self <- get_self ;;
  bs <- lift (pack fmt_q (value self)) ;;
  ostream_write bs.

Definition LongInteger_write : M unit :=
  Base_write ;; LongInteger_write_value.

(** [LongInteger(value, tag)] *)
Definition LongInteger (value' : pyval) (tag' : Z) : result Primitive :=
  LongInteger___init__ (new CLongInteger None) value' tag'.

(** [DateTime(value, tag)] *)
Definition DateTime (value' : pyval) (tag' : Z) : result Primitive :=
  self <~ LongInteger___init__ (new CDateTime None) value' tag' ;;
  Ok (set_type self DATE_TIME).

(** *** [BigInteger] *)

Definition BigInteger___init__ (self : Primitive) (value' : pyval) (tag' : Z)
  : result Primitive :=
  let self := Base___init__ self tag' BIG_INTEGER in
  let self := set_value self value' in
  _ <~ validate self ;;
  Ok self.

(** The conversion via two's complement that [read] and [write] both spell
    out: exchange the digits through the spare character ['i'], then add one
    at the last ['0']. *)
Definition twos_complement (binary : str) : str :=
  let binary := replace chr_1 chr_i binary in
  let binary := replace chr_0 chr_1 binary in
  let binary := replace chr_i chr_0 binary in
  let pivot := rfind chr_0 binary in
  slice binary 0 (Some pivot) ++ [chr_1]
    ++ str_mul chr_0 (len (slice binary (pivot + 1) None)).

(** One octet of [read]'s loop, as eight binary digits. *)
Definition byte_bits (byte : Z) : str :=
  let bits := format_b byte in
  let pad := len bits mod 8 in
  if negb (pad =? 0) then str_mul chr_0 (8 - pad) ++ bits else bits.

(** The body of [read]'s loop: one octet read and appended as digits. *)
Definition BigInteger_read_byte (binary : str) : M str :=
  bs <- istream_read 1 ;;
  byte <- lift (unpack fmt_B bs) ;;
  ret (binary ++ byte_bits byte).

Definition BigInteger_read : M unit :=
  Base_read ;;
  self <- get_self ;;
  n <- number (length self) ;;
  if negb (n mod 8 =? 0) then raise InvalidPrimitiveLength
  else
    let sign := 1 in
    binary <- fold_times (Z.to_nat n) BigInteger_read_byte [] ;;
    c <- lift (index binary 0) ;;
    let '(sign, binary) :=
      if (c =? chr_1)%N then (-1, twos_complement binary)
      else (sign, binary) in
    m <- lift (int_base2 binary) ;;
    update_self (fun o => set_value o (PyInt (m * sign))).

(** The loop of [write] over [range(0, len(binary), 8)]. *)
Fixpoint pack_bits (binary : str) (indices : list Z)
  (hexadecimal : list byte) : result (list byte) :=
  match indices with
  | [] => Ok hexadecimal
  | i :: r =>
      byte <~ int_base2 (slice binary i (Some (i + 8))) ;;
      b <~ pack fmt_B (PyInt byte) ;;
      pack_bits binary r (hexadecimal ++ b)
  end.

(** The octets [write] builds for the value [v]. *)
Definition BigInteger_hexadecimal (v : Z) : result (list byte) :=
  let binary := format_b (Z.abs v) in
  let binary := str_mul chr_0 (64 - len binary mod 64) ++ binary in
  let binary := if v <? 0 then twos_complement binary else binary in
  pack_bits binary (range 0 (len binary) 8) [].

Definition BigInteger_write : M unit :=
  self <- get_self ;;
  match index_of (value self) with
  | None => raise TypeError
  | Some v =>
      hexadecimal <- lift (BigInteger_hexadecimal v) ;;
      update_self (fun o => set_length o (Some (len hexadecimal))) ;;
      Base_write ;;
      ostream_write hexadecimal
  end.

(** [BigInteger(value, tag)] *)
Definition BigInteger (value' : pyval) (tag' : Z) : result Primitive :=
  BigInteger___init__ (new CBigInteger None) value' tag'.

(** *** [Enumeration] *)

(** [self.enum.value] *)
Definition enum_value (e : pyval) : pyval :=
  match e with
  | PyEnum _ v => PyInt v
  | _ => PyNone
  end.

(** [validate] is called, and rejects an [enum] that is no member of an
    [Enum], before [self.enum.value] is read. *)
Definition Enumeration___init__ (self : Primitive) (value' : pyval) (tag' : Z)
  : result Primitive :=
  let self := set_enum self value' in
  _ <~ validate self ;;
  self <~ (if is_None (enum self)
           then Integer___init__ self PyNone tag' false
           else Integer___init__ self (enum_value (enum self)) tag' false) ;;
  Ok (set_type self ENUMERATION).

(** [self.ENUM_TYPE(self.value)]; calling the [None] of the base class is a
    [TypeError]. *)
Definition Enumeration_read : M unit :=
  Integer_read ;;
  self <- get_self ;;
  match ENUM_TYPE self with
  | None => raise TypeError
  | Some E =>
      e <- lift (Enum_of E (value self)) ;;
      update_self (fun o => set_enum o e) ;;
      do_validate
  end.

Definition Enumeration_write : M unit := Integer_write.

(** [C(value, tag)] for a subclass [C] of [Enumeration] whose [ENUM_TYPE] is
    [E]; [E = None] is [Enumeration] itself. *)
Definition Enumeration (E : option EnumType) (value' : pyval) (tag' : Z)
  : result Primitive :=
  Enumeration___init__ (new CEnumeration E) value' tag'.

(** *** [Boolean] *)

Definition Boolean_LENGTH : Z := 8.

Definition Boolean___init__ (self : Primitive) (value' : pyval) (tag' : Z)
  : result Primitive :=
  let self := Base___init__ self tag' BOOLEAN in
  let self := set_value self value' in
  let self := set_length self (Some Boolean_LENGTH) in
  _ <~ validate self ;;
  Ok self.

(** The [try] only logs and raises the exception again. *)
Definition Boolean_read_value : M unit :=
  bs <- istream_read Boolean_LENGTH ;;
  v <- lift (unpack fmt_Q bs) ;;
  (if v =? 1 then update_self (fun o => set_value o (PyBool true))
   else if v =? 0 then update_self (fun o => set_value o (PyBool false))
   else raise ValueError) ;;
  do_validate.

Definition Boolean_read : M unit :=
  Base_read ;; Boolean_read_value.

Definition Boolean_write_value : M unit :=
  self <- get_self ;;
  bs <- lift (pack fmt_Q (value self)) ;;
  ostream_write bs.

Definition Boolean_write : M unit :=
  Base_write ;; Boolean_write_value.

(** [Boolean(value, tag)] *)
Definition Boolean (value' : pyval) (tag' : Z) : result Primitive :=
  Boolean___init__ (new CBoolean None) value' tag'.

(** *** [TextString] *)

Definition PADDING_SIZE : Z := 8.

(** [len(self.value)] of a value that passed [validate]. *)
Definition value_len (v : pyval) : option Z :=
  match v with
  | PyStr s => Some (len s)
  | PyBytes bs => Some (len bs)
  | _ => None
  end.

(** The length and padding both string classes derive in [__init__]. *)
Definition derive_length (self : Primitive) : Primitive :=
  if negb (is_None (value self)) then
    let self := set_length self (value_len (value self)) in
    let self :=
      set_padding_length self
        (option_map (fun l => PADDING_SIZE - l mod PADDING_SIZE)
           (length self)) in
    if match padding_length self with
       | Some p => p =? PADDING_SIZE
       | None => false
       end
    then set_padding_length self (Some 0)
    else self
  else
    let self := set_length self None in
    set_padding_length self None.

Definition TextString___init__ (self : Primitive) (value' : pyval) (tag' : Z)
  : result Primitive :=
  let self := Base___init__ self tag' TEXT_STRING in
  let self :=
    if is_None value' then set_value self (PyStr [])
    else set_value self value' in
  _ <~ validate self ;;
  Ok (derive_length self).

(** [self.value += c] *)
Definition value_iadd (c : str) (o : Primitive) : Primitive :=
  match value o with
  | PyStr s => set_value o (PyStr (s ++ c))
  | _ => o
  end.

(** The padding check shared by the two string classes: one octet read and
    compared with zero, [p] times when [p] is below [PADDING_SIZE]. *)
Definition read_pad : M unit :=
  bs <- istream_read 1 ;;
  pad <- lift (unpack fmt_B bs) ;;
  if negb (pad =? 0) then raise ReadValueError else ret tt.

Definition read_padding (p : Z) : M unit :=
  if p <? PADDING_SIZE then for_range p read_pad else ret tt.

(** The padding both string classes write: [p] zero octets. *)
Definition write_pad : M unit :=
  bs <- lift (pack fmt_B (PyInt 0)) ;; ostream_write bs.

Definition write_padding (p : Z) : M unit := for_range p write_pad.

(** The body of the loop that reads the text: one octet read, decoded and
    appended. *)
Definition TextString_read_char : M unit :=
  bs <- istream_read 1 ;;
  c <- lift (unpack_c bs) ;;
  c <- lift (match c with
             | [b] => decode_byte b
             | _ => Raise UnicodeDecodeError
             end) ;;
  update_self (value_iadd c).

Definition TextString_read_value : M unit :=
  update_self (fun o => set_value o (PyStr [])) ;;
  self <- get_self ;;
  n <- number (length self) ;;
  for_range n TextString_read_char ;;
  update_self
    (fun o => set_padding_length o (Some (PADDING_SIZE - n mod PADDING_SIZE))) ;;
  self <- get_self ;;
  p <- number (padding_length self) ;;
  read_padding p.

Definition TextString_read : M unit :=
  Base_read ;; TextString_read_value ;; do_validate.

(** The body of the loop that writes the text: one character encoded and
    packed as one octet. *)
Definition TextString_write_char (char : N) : M unit :=
  c <- lift (encode_char char) ;;
  bs <- lift (pack_c (PyBytes c)) ;;
  ostream_write bs.

Definition TextString_write_value : M unit :=
  self <- get_self ;;
  match value self with
  | PyStr s =>
      for_each s TextString_write_char ;;
      p <- number (padding_length self) ;;
      write_padding p
  | _ => raise TypeError
  end.

Definition TextString_write : M unit :=
  Base_write ;; TextString_write_value.

(** [TextString(value, tag)] *)
Definition TextString (value' : pyval) (tag' : Z) : result Primitive :=
  TextString___init__ (new CTextString None) value' tag'.

(** *** [ByteString] *)

Definition ByteString___init__ (self : Primitive) (value' : pyval) (tag' : Z)
  : result Primitive :=
  let self := Base___init__ self tag' BYTE_STRING in
  self <~ (if is_None value' then Ok (set_value self (PyBytes []))
           else bs <~ bytes_of value' ;; Ok (set_value self (PyBytes bs))) ;;
  _ <~ validate self ;;
  Ok (derive_length self).

(** The body of the loop that reads the octets. *)
Definition ByteString_read_byte (data : list byte) : M (list byte) :=
  bs <- istream_read 1 ;;
  b <- lift (index bs 0) ;;
  ret (data ++ [b]).

Definition ByteString_read_value : M unit :=
  self <- get_self ;;
  n <- number (length self) ;;
  data <- fold_times (Z.to_nat n) ByteString_read_byte [] ;;
  update_self (fun o => set_value o (PyBytes data)) ;;
  update_self
    (fun o => set_padding_length o (Some (PADDING_SIZE - n mod PADDING_SIZE))) ;;
  self <- get_self ;;
  (if match padding_length self with
      | Some p => p =? PADDING_SIZE
      | None => false
      end
   then update_self (fun o => set_padding_length o (Some 0))
   else ret tt) ;;
  self <- get_self ;;
  p <- number (padding_length self) ;;
  read_padding p.

Definition ByteString_read : M unit :=
  Base_read ;; ByteString_read_value.

(** The body of the loop that writes the octets. *)
Definition ByteString_write_byte (byte : byte) : M unit :=
  bs <- lift (pack fmt_B (PyInt (Z_of_byte byte))) ;;
  ostream_write bs.

Definition ByteString_write_value : M unit :=
  self <- get_self ;;
  match value self with
  | PyBytes data =>
      for_each data ByteString_write_byte ;;
      p <- number (padding_length self) ;;
      write_padding p
  | _ => raise TypeError
  end.

Definition ByteString_write : M unit :=
  Base_write ;; ByteString_write_value.

(** [ByteString(value, tag)] *)
Definition ByteString (value' : pyval) (tag' : Z) : result Primitive :=
  ByteString___init__ (new CByteString None) value' tag'.

(** *** Encoding and decoding an object *)

(** [self.read(istream)] and [self.write(ostream)]: the methods of the
    object's class. *)
Definition read : M unit :=
  self <- get_self ;;
  match cls self with
  | CInteger | CInterval => Integer_read
  | CLongInteger | CDateTime => LongInteger_read
  | CBigInteger => BigInteger_read
  | CEnumeration => Enumeration_read
  | CBoolean => Boolean_read
  | CTextString => TextString_read
  | CByteString => ByteString_read
  end.

Definition write : M unit :=
  self <- get_self ;;
  match cls self with
  | CInteger | CInterval => Integer_write
  | CLongInteger | CDateTime => LongInteger_write
  | CBigInteger => BigInteger_write
  | CEnumeration => Enumeration_write
  | CBoolean => Boolean_write
  | CTextString => TextString_write
  | CByteString => ByteString_write
  end.

(** The octets an object writes to an empty stream. *)
Definition encode (o : Primitive) : result (list byte) :=
  match write (mkState o []) with
  | (Ok _, st) => Ok (stream st)
  | (Raise e, _) => Raise e
  end.

(** The object left by [o.read] on a stream holding [bs], with the octets
    left unread. *)
Definition decode (o : Primitive) (bs : list byte)
  : result (Primitive * list byte) :=
  match read (mkState o bs) with
  | (Ok _, st) => Ok (self st, stream st)
  | (Raise e, _) => Raise e
  end.

(** ** The wire format in the spec's words *)

(** The header: three octets of tag, one of type, four of length, all
    big-endian. *)
Definition header (tag' : Z) (type' : Types) (length' : Z) : list byte :=
  be_encode 3 tag' ++ be_encode 1 (Types_value type') ++ be_encode 4 length'.

(** [pad = (8 - length mod 8) mod 8] zero octets. *)
Definition padding (length' : Z) : list byte :=
  repeat x00 (Z.to_nat ((8 - length' mod 8) mod 8)).

(** [int.bit_length] of a magnitude. *)
Definition bit_length (z : Z) : Z :=
  if z =? 0 then 0 else Z.log2 (Z.abs z) + 1.

(** The least number of octets whose two's-complement range holds [v]. *)
Definition min_octets (v : Z) : Z :=
  (bit_length (if v <? 0 then - v - 1 else v) + 8) / 8.

(** The octet that extends the sign of [v]. *)
Definition sign_octet (v : Z) : byte := if v <? 0 then xff else x00.

(** The minimal two's-complement big-endian representation of [v],
    left-padded with sign-extension octets to [w] octets. *)
Definition sign_extended (w : Z) (v : Z) : list byte :=
  repeat (sign_octet v) (Z.to_nat (w - min_octets v))
    ++ be_encode (Z.to_nat (min_octets v)) v.

(** The nearest 8-octet boundary at or above [n]. *)
Definition boundary8 (n : Z) : Z := 8 * ((n + 7) / 8).

(** The spec's BigInteger value field: the minimal representation padded to
    the nearest 8-octet boundary. *)
Definition spec_BigInteger (v : Z) : list byte :=
  sign_extended (boundary8 (min_octets v)) v.

(** The number of octets [BigInteger.write] produces: the binary digits of
    the magnitude are padded by [64 - len % 64] zeros, at least one. *)
Definition BigInteger_width (v : Z) : Z := 8 * (bit_length v / 64 + 1).

(** The values for which [BigInteger.write] emits one word more than the
    nearest boundary: the negative powers of two [- 2 ^ (64 k - 1)], whose
    magnitude fills its last word although the number itself fits below. *)
Definition extra_word (v : Z) : Prop :=
  exists k, 0 < k /\ v = - 2 ^ (64 * k - 1).

(** The signed number a byte string holds in two's complement. *)
Definition be_signed (bs : list byte) : Z :=
  let u := be_decode bs in
  if 2 ^ (8 * len bs - 1) <=? u then u - 2 ^ (8 * len bs) else u.

(** [decode(encode(v)) == v]: the primitive [mk] encodes, and a new
    primitive [blank] of the same class and tag decodes these octets, uses
    them all and ends with the property [P]. *)
Definition round_trips (mk blank : result Primitive) (P : Primitive -> Prop)
  : Prop :=
  exists o bs o0 o',
    mk = Ok o /\ encode o = Ok bs /\ blank = Ok o0 /\
    decode o0 bs = Ok (o', []) /\ P o'.

(** [encode(decode(b)) == b]: a new primitive [blank] decodes [b], uses all
    of it, and then encodes to [b] again. *)
Definition reencodes (blank : result Primitive) (b : list byte) : Prop :=
  exists o0 o',
    blank = Ok o0 /\ decode o0 b = Ok (o', []) /\ encode o' = Ok b.

(** A string of ASCII characters, and its octets. *)
Definition is_ascii (s : str) : bool := forallb (fun c => (c <? 128)%N) s.
Definition ascii_octets (s : str) : list byte :=
  map (fun c => byte_of_Z (Z.of_N c)) s.

(** The binary digits [BigInteger.read] collects from a byte string. *)
Definition bits_of_bytes (bs : list byte) : str :=
  flat_map (fun b => byte_bits (Z_of_byte b)) bs.

(** The digit a character of a binary string stands for, and the other
    digit. *)
Definition bit_of (c : N) : Z := if (c =? chr_1)%N then 1 else 0.
Definition flip (c : N) : N := if (c =? chr_1)%N then chr_0 else chr_1.

(** One step of a method: the pending redexes of [bind] and the accesses to
    the state. *)
Ltac mstep := cbv beta iota zeta; cbn [self stream].

(** Comparisons the hypotheses decide. *)
Ltac zbool :=
  repeat match goal with
         | |- context [Z.ltb ?a ?b] => destruct (Z.ltb_spec a b); try lia
         | |- context [Z.leb ?a ?b] => destruct (Z.leb_spec a b); try lia
         | |- context [Z.gtb ?a ?b] => destruct (Z.gtb_spec a b); try lia
         | |- context [Z.eqb ?a ?b] => destruct (Z.eqb_spec a b); try lia
         end.

(** ** The rest of [Base]: lookahead, [is_oversized], [Struct] *)

(** Modelled from the spec: [stream.peek(n)] of the stream class returns up
    to [n] octets without advancing; [stream.peek()] returns all that is
    left. *)
Definition stream_peek (n : option Z) : M (list byte) :=
  fun st =>
    (Ok (match n with
         | Some k => firstn (Z.to_nat k) (stream st)
         | None => stream st
         end),
     st).

Definition is_oversized : M unit :=
  bs <- stream_peek None ;;
  let extra := len bs in
  if extra >? 0 then raise StreamNotEmptyError else ret tt.

(** [Base.is_tag_next(tag, stream)], a static method: [tag'] is [tag.value]. *)
Definition is_tag_next (tag' : Z) : M bool :=
  next_tag <- stream_peek (Some TAG_SIZE) ;;
  if negb (len next_tag =? TAG_SIZE) then ret false
  else
    next_tag <- lift (unpack fmt_I (x00 :: next_tag)) ;;
    if next_tag =? tag' then ret true else ret false.

(** [Base.is_type_next(kmip_type, stream)], a static method. *)
Definition is_type_next (kmip_type : Types) : M bool :=
  let tag_type_size := TAG_SIZE + TYPE_SIZE in
  tt' <- stream_peek (Some tag_type_size) ;;
  if negb (len tt' =? tag_type_size) then ret false
  else
    typ <- lift (unpack fmt_B (slice tt' TAG_SIZE None)) ;;
    if typ =? Types_value kmip_type then ret true else ret false.

(** [Struct.__init__(self, tag)].  [Struct] inherits [read] and [write] of
    [Base], which call no method of the object's class: a [Struct] is read
    with [Base_read] and written with [Base_write]. *)
Definition Struct___init__ (self : Primitive) (tag' : Z) : Primitive :=
  Base___init__ self tag' STRUCTURE.

(** Encoding and decoding within a longer stream: the primitive [mk]
    appends the octets [bs] to whatever the output stream holds, and a new
    primitive [blank] of the same class and tag reads exactly these octets
    from any stream that begins with them, leaves what follows and ends
    with the property [P]. *)
Definition frames (mk blank : result Primitive) (P : Primitive -> Prop)
  : Prop :=
  exists o o1 bs o0 o',
    mk = Ok o /\ blank = Ok o0 /\ P o' /\
    (forall out : list byte,
       write (mkState o out) = (Ok tt, mkState o1 (out ++ bs))) /\
    (forall rest : list byte,
       read (mkState o0 (bs ++ rest)) = (Ok tt, mkState o' rest)).

(** ** What a method may do to the state *)

(** [m] takes every state to one that [R] relates to it, whether it returns
    or raises. *)
Definition keeps {A} (R : state -> state -> Prop) (m : M A) : Prop :=
  forall st : state, R st (snd (m st)).

(** Reading: the class, [ENUM_TYPE], the tag, the type and the format of
    the object stay, and the stream loses a prefix. *)
Definition reads_on (st st' : state) : Prop :=
  cls (self st') = cls (self st) /\
  ENUM_TYPE (self st') = ENUM_TYPE (self st) /\
  tag (self st') = tag (self st) /\
  type (self st') = type (self st) /\
  pack_string (self st') = pack_string (self st) /\
  exists used : list byte, stream st = used ++ stream st'.

(** Writing: the object stays but for its length, and the stream gains a
    suffix. *)
Definition writes_on (st st' : state) : Prop :=
  set_length (self st') None = set_length (self st) None /\
  exists added : list byte, stream st' = stream st ++ added.

(** ** The size of an encoding *)

(** [m], run on an object that satisfies [P], appends [n] octets and
    leaves an object that satisfies [P], whenever it returns. *)
Definition adds {A} (P : Primitive -> Prop) (n : Z) (m : M A) : Prop :=
  forall (st : state) (a : A) (st' : state),
    P (self st) -> m st = (Ok a, st') ->
    P (self st') /\ len (stream st') = len (stream st) + n.

(** The objects the constructors of the nine classes return. *)
Definition constructed (o : Primitive) : Prop :=
  exists (v : pyval) (t : Z),
    (exists signed : bool, Integer v t signed = Ok o) \/
    LongInteger v t = Ok o \/
    BigInteger v t = Ok o \/
    (exists E : option EnumType, Enumeration E v t = Ok o) \/
    Boolean v t = Ok o \/
    TextString v t = Ok o \/
    ByteString v t = Ok o \/
    DateTime v t = Ok o \/
    Interval v t = Ok o.

(** * Properties *)

(** ** Octets and big-endian numbers *)

Lemma Z_of_byte_range (b : byte) : 0 <= Z_of_byte b < 256.
Proof.
  unfold Z_of_byte. pose proof (Byte.to_N_bounded b). lia.
Qed.

Lemma byte_of_Z_of_byte (b : byte) : byte_of_Z (Z_of_byte b) = b.
Proof.
  unfold byte_of_Z. pose proof (Z_of_byte_range b) as H.
  rewrite Z.mod_small by lia. unfold Z_of_byte. rewrite N2Z.id.
  now rewrite Byte.of_to_N.
Qed.

Lemma Z_of_byte_of_Z (z : Z) : Z_of_byte (byte_of_Z z) = z mod 256.
Proof.
  unfold byte_of_Z, Z_of_byte.
  pose proof (Z.mod_pos_bound z 256 ltac:(lia)) as H.
  destruct (Byte.of_N (Z.to_N (z mod 256))) as [b|] eqn:E.
  - apply Byte.to_of_N in E. rewrite E. lia.
  - apply Byte.of_N_None_iff in E. lia.
Qed.

Lemma be_decode_snoc (bs : list byte) (b : byte) :
  be_decode (bs ++ [b]) = be_decode bs * 256 + Z_of_byte b.
Proof. unfold be_decode. now rewrite fold_left_app. Qed.

Lemma be_decode_app (xs ys : list byte) :
  be_decode (xs ++ ys) = be_decode xs * 256 ^ len ys + be_decode ys.
Proof.
  induction ys as [|y ys IH] using rev_ind.
  - rewrite app_nil_r. change (be_decode []) with 0.
    change (len (@nil byte)) with 0. lia.
  - rewrite app_assoc, !be_decode_snoc, IH. unfold len.
    rewrite length_app. cbn [List.length].
    replace (Z.of_nat (List.length ys + 1)) with (Z.of_nat (List.length ys) + 1)
      by lia.
    rewrite Z.pow_add_r by lia. lia.
Qed.

Lemma be_decode_range (bs : list byte) : 0 <= be_decode bs < 256 ^ len bs.
Proof.
  induction bs as [|b bs IH] using rev_ind.
  - cbn. lia.
  - rewrite be_decode_snoc. unfold len in *. rewrite length_app. cbn [List.length].
    replace (Z.of_nat (List.length bs + 1)) with (Z.of_nat (List.length bs) + 1)
      by lia.
    rewrite Z.pow_add_r by lia. pose proof (Z_of_byte_range b). lia.
Qed.

Lemma length_be_encode (n : nat) (z : Z) : List.length (be_encode n z) = n.
Proof.
  revert z. induction n as [|n IH]; intros z; cbn; [reflexivity|].
  rewrite length_app, IH. cbn. lia.
Qed.

Lemma be_decode_encode (n : nat) (z : Z) :
  be_decode (be_encode n z) = z mod 256 ^ Z.of_nat n.
Proof.
  revert z. induction n as [|n IH]; intros z.
  - cbn. now rewrite Z.mod_1_r.
  - cbn [be_encode]. rewrite be_decode_snoc, IH, Z_of_byte_of_Z.
    rewrite Nat2Z.inj_succ, Z.pow_succ_r by lia.
    assert (0 < 256 ^ Z.of_nat n) by (apply Z.pow_pos_nonneg; lia).
    rewrite Z.rem_mul_r by lia. lia.
Qed.

Lemma be_encode_decode (bs : list byte) :
  be_encode (List.length bs) (be_decode bs) = bs.
Proof.
  induction bs as [|b bs IH] using rev_ind; [reflexivity|].
  rewrite length_app. cbn [List.length]. rewrite Nat.add_1_r. cbn [be_encode].
  rewrite be_decode_snoc. pose proof (Z_of_byte_range b) as Hb.
  replace ((be_decode bs * 256 + Z_of_byte b) / 256) with (be_decode bs).
  - rewrite IH. f_equal. f_equal.
    rewrite <- (byte_of_Z_of_byte b) at 2. unfold byte_of_Z.
    replace ((be_decode bs * 256 + Z_of_byte b) mod 256)
      with (Z_of_byte b mod 256); [reflexivity|].
    rewrite Z.add_comm, Z.mod_add by lia. reflexivity.
  - rewrite Z.add_comm, Z.div_add by lia. rewrite Z.div_small by lia. lia.
Qed.

Lemma be_encode_mod (n : nat) (z : Z) :
  be_encode n (z mod 256 ^ Z.of_nat n) = be_encode n z.
Proof.
  rewrite <- be_decode_encode.
  rewrite <- (length_be_encode n z) at 1. apply be_encode_decode.
Qed.

Lemma be_encode_app (k n : nat) (z : Z) :
  be_encode (k + n) z = be_encode k (z / 256 ^ Z.of_nat n) ++ be_encode n z.
Proof.
  revert z. induction n as [|n IH]; intros z.
  - rewrite Nat.add_0_r, app_nil_r. cbn. now rewrite Z.div_1_r.
  - rewrite Nat.add_succ_r. cbn [be_encode]. rewrite IH, app_assoc.
    do 3 f_equal. rewrite Nat2Z.inj_succ, Z.pow_succ_r by lia.
    rewrite Z.div_div by lia. reflexivity.
Qed.

(** ** [struct], slices and the stream *)

Lemma pow256 (n : nat) : 256 ^ Z.of_nat n = 2 ^ (8 * Z.of_nat n).
Proof.
  change 256 with (2 ^ 8). rewrite <- Z.pow_mul_r by lia. reflexivity.
Qed.

Lemma pack_PyInt (f : format) (z : Z) :
  fmt_min f <= z <= fmt_max f ->
  pack f (PyInt z) = Ok (be_encode (calcsize f) z).
Proof.
  intros H. unfold pack. cbn [index_of].
  destruct (Z.leb_spec (fmt_min f) z), (Z.leb_spec z (fmt_max f));
    cbn; try reflexivity; lia.
Qed.

Lemma unpack_length (f : format) (bs : list byte) :
  List.length bs <> calcsize f -> unpack f bs = Raise struct_error.
Proof.
  intros H. unfold unpack. now apply Nat.eqb_neq in H as ->.
Qed.

(** What [unpack] returns lies in the range of the format, and packing it
    gives the octets back. *)
Lemma unpack_range (f : format) (bs : list byte) (v : Z) :
  unpack f bs = Ok v -> fmt_min f <= v <= fmt_max f.
Proof.
  unfold unpack. destruct (Nat.eqb_spec (List.length bs) (calcsize f)) as [E|];
    [|discriminate].
  pose proof (be_decode_range bs) as R. unfold len in R. rewrite E, pow256 in R.
  unfold fmt_min, fmt_max.
  destruct f; cbn in *;
    repeat match goal with
           | |- context [Z.leb ?a ?b] => destruct (Z.leb_spec a b)
           end;
    intros [= <-]; lia.
Qed.

Lemma be_encode_wrap (n : nat) (z : Z) :
  be_encode n (z - 2 ^ (8 * Z.of_nat n)) = be_encode n z.
Proof.
  rewrite <- (be_encode_mod n (z - _)), <- (be_encode_mod n z). f_equal.
  rewrite pow256.
  replace (z - 2 ^ (8 * Z.of_nat n)) with (z + (-1) * 2 ^ (8 * Z.of_nat n))
    by lia.
  apply Z.mod_add. apply Z.pow_nonzero; lia.
Qed.

Lemma pack_unpack (f : format) (bs : list byte) (v : Z) :
  unpack f bs = Ok v -> pack f (PyInt v) = Ok bs.
Proof.
  intros H. rewrite pack_PyInt by (eapply unpack_range; eauto).
  f_equal. revert H. unfold unpack.
  destruct (Nat.eqb_spec (List.length bs) (calcsize f)) as [E|]; [|discriminate].
  rewrite <- E.
  destruct (fmt_signed f && _); intros [= <-].
  - rewrite be_encode_wrap. apply be_encode_decode.
  - apply be_encode_decode.
Qed.

Lemma unpack_pack (f : format) (z : Z) :
  fmt_min f <= z <= fmt_max f ->
  unpack f (be_encode (calcsize f) z) = Ok z.
Proof.
  intros H. unfold unpack. rewrite length_be_encode, Nat.eqb_refl.
  rewrite be_decode_encode, pow256. revert H. unfold fmt_min, fmt_max.
  destruct f; cbn; intros H;
    repeat match goal with
           | |- context [Z.leb ?a ?b] => destruct (Z.leb_spec a b)
           end;
    f_equal; Z.div_mod_to_equations; lia.
Qed.

Lemma len_app {A} (xs ys : list A) : len (xs ++ ys) = len xs + len ys.
Proof. unfold len. rewrite length_app. lia. Qed.

Lemma len_nonneg {A} (xs : list A) : 0 <= len xs.
Proof. unfold len. lia. Qed.

Lemma len_repeat {A} (x : A) (n : nat) : len (repeat x n) = Z.of_nat n.
Proof. unfold len. now rewrite repeat_length. Qed.

Lemma len_be_encode (n : nat) (z : Z) : len (be_encode n z) = Z.of_nat n.
Proof. unfold len. now rewrite length_be_encode. Qed.

(** A slice within bounds. *)
Lemma slice_within {A} (s : list A) (a b : Z) :
  0 <= a <= b -> b <= len s ->
  slice s a (Some b) = firstn (Z.to_nat (b - a)) (skipn (Z.to_nat a) s).
Proof.
  intros Ha Hb. unfold slice, clamp_index.
  destruct (Z.ltb_spec a 0), (Z.ltb_spec b 0); try lia.
  now rewrite !Z.min_l by lia.
Qed.

Lemma slice_from {A} (s : list A) (a : Z) :
  0 <= a <= len s -> slice s a None = skipn (Z.to_nat a) s.
Proof.
  intros Ha. unfold slice, clamp_index.
  destruct (Z.ltb_spec a 0); try lia.
  rewrite Z.min_l by lia. apply firstn_all2. rewrite length_skipn.
  unfold len. lia.
Qed.

Lemma slice_prefix {A} (s : list A) (n : Z) :
  len s <= n -> slice s 0 (Some n) = s.
Proof.
  intros H. unfold slice, clamp_index. pose proof (len_nonneg s).
  destruct (Z.ltb_spec n 0); try lia.
  rewrite Z.min_r by lia. cbn [Z.ltb Z.compare Z.min Z.to_nat skipn].
  rewrite Z.min_l by lia. cbn. apply firstn_all2. unfold len. lia.
Qed.

(** Reading from a stream that begins with the octets wanted. *)
Lemma istream_read_app (o : Primitive) (bs r : list byte) (n : Z) :
  len bs = n ->
  istream_read n (mkState o (bs ++ r)) = (Ok bs, mkState o r).
Proof.
  intros <-. unfold istream_read, len. cbn [stream self]. rewrite Nat2Z.id.
  rewrite firstn_app, Nat.sub_diag, firstn_all, skipn_app, Nat.sub_diag.
  cbn [firstn skipn]. rewrite app_nil_r, skipn_all. reflexivity.
Qed.

Lemma count_bytes_small (l : Z) :
  0 <= l < 2 ^ 32 -> (count_bytes l >? LENGTH_SIZE) = false.
Proof.
  intros H. unfold count_bytes, LENGTH_SIZE.
  assert (Z.log2 l < 32).
  { destruct (Z.eq_dec l 0) as [->|]; [cbn; lia|].
    apply Z.log2_lt_pow2; lia. }
  pose proof (Z.log2_nonneg l).
  destruct (Z.gtb_spec (Z.log2 l / 8 + 1) 4); [|reflexivity].
  Z.div_mod_to_equations. lia.
Qed.

Lemma count_bytes_large (l : Z) :
  2 ^ 32 <= l -> (count_bytes l >? LENGTH_SIZE) = true.
Proof.
  intros H. unfold count_bytes, LENGTH_SIZE.
  assert (32 <= Z.log2 l) by (apply Z.log2_le_pow2; lia).
  destruct (Z.gtb_spec (Z.log2 l / 8 + 1) 4); [reflexivity|].
  Z.div_mod_to_equations. lia.
Qed.

(** ** The header *)

Lemma Types_of_value (ty : Types) : Types_of (Types_value ty) = Ok ty.
Proof. destruct ty; reflexivity. Qed.

Lemma Types_eqb_eq (a b : Types) : Types_eqb a b = true <-> a = b.
Proof. destruct a, b; cbn; split; intros H; congruence. Qed.

Lemma Types_value_range (ty : Types) : 0 <= Types_value ty <= 255.
Proof. destruct ty; cbn; lia. Qed.

Lemma Tags_of_member (t : Z) : In t Tags -> Tags_of t = Ok t.
Proof.
  intros H. unfold Tags_of.
  replace (existsb (Z.eqb t) Tags) with true; [reflexivity|].
  symmetry. apply existsb_exists. exists t. split; [assumption|apply Z.eqb_refl].
Qed.

Lemma Tags_of_other (t : Z) : ~ In t Tags -> Tags_of t = Raise ValueError.
Proof.
  intros H. unfold Tags_of.
  destruct (existsb (Z.eqb t) Tags) eqn:E; [|reflexivity].
  apply existsb_exists in E as (x & Hx & E). apply Z.eqb_eq in E. now subst.
Qed.

Lemma be_encode_tag (t : Z) :
  0 <= t < 2 ^ 24 -> x00 :: be_encode 3 t = be_encode 4 t.
Proof.
  intros H. change 4%nat with (1 + 3)%nat. rewrite be_encode_app.
  change (256 ^ Z.of_nat 3) with (2 ^ 24). rewrite Z.div_small by lia.
  reflexivity.
Qed.

Lemma Base_write_ok (o : Primitive) (s : list byte) (l : Z) :
  0 <= tag o < 2 ^ 32 -> length o = Some l -> 0 <= l < 2 ^ 32 ->
  Base_write (mkState o s)
  = (Ok tt, mkState o (s ++ header (tag o) (type o) l)).
Proof.
  intros Ht Hl Hr.
  unfold Base_write, write_tag, write_type, write_length, bind, get_self, lift,
    ostream_write.
  mstep. rewrite pack_PyInt by (cbn; lia).
  mstep. rewrite pack_PyInt by (pose proof (Types_value_range (type o)); cbn; lia).
  mstep. rewrite Hl, count_bytes_small by assumption.
  rewrite pack_PyInt by (cbn; lia). mstep.
  change (calcsize fmt_I) with (1 + 3)%nat. rewrite be_encode_app.
  change (be_encode 1 (tag o / 256 ^ Z.of_nat 3))
    with ([byte_of_Z (tag o / 256 ^ Z.of_nat 3)]).
  cbn [app]. rewrite slice_from by (unfold len; cbn [List.length]; lia).
  cbn [Z.to_nat Pos.to_nat Pos.iter_op Nat.add skipn].
  unfold header. rewrite <- !app_assoc. reflexivity.
Qed.

Lemma Base_read_ok (o : Primitive) (ty : Types) (l : Z) (rest : list byte) :
  In (tag o) Tags -> 0 <= tag o < 2 ^ 24 -> type o = ty -> 0 <= l < 2 ^ 32 ->
  Base_read (mkState o (header (tag o) ty l ++ rest))
  = (Ok tt, mkState (set_length o (Some l)) rest).
Proof.
  intros Hin Ht Hty Hl.
  unfold Base_read, read_tag, read_type, read_length, bind, header, lift,
    get_self, ret, update_self, raise.
  rewrite <- !app_assoc.
  rewrite istream_read_app by apply len_be_encode. mstep.
  rewrite slice_prefix by (rewrite len_be_encode; unfold TAG_SIZE; lia).
  rewrite be_encode_tag by assumption.
  rewrite (unpack_pack fmt_I) by (cbn; lia). mstep.
  rewrite Tags_of_member by assumption. mstep.
  rewrite Z.eqb_refl. cbn [negb]. mstep.
  rewrite istream_read_app by apply len_be_encode. mstep.
  rewrite len_be_encode.
  change (Z.of_nat 1 =? TYPE_SIZE) with true. cbn [negb]. mstep.
  rewrite (unpack_pack fmt_B)
    by (pose proof (Types_value_range ty); cbn; lia).
  mstep. rewrite Types_of_value. mstep. rewrite Hty.
  replace (Types_eqb ty ty) with true by (symmetry; now apply Types_eqb_eq).
  cbn [negb]. mstep.
  rewrite istream_read_app by apply len_be_encode. mstep.
  rewrite len_be_encode.
  change (Z.of_nat 4 =? LENGTH_SIZE) with true. cbn [negb]. mstep.
  rewrite (unpack_pack fmt_I) by (cbn; lia).
  reflexivity.
Qed.

(** ** Strings of binary digits *)

Lemma bits_value_snoc (s : str) (c : N) :
  bits_value (s ++ [c]) = 2 * bits_value s + bit_of c.
Proof. unfold bits_value. now rewrite fold_left_app. Qed.

Lemma bits_value_app (xs ys : str) :
  bits_value (xs ++ ys) = bits_value xs * 2 ^ len ys + bits_value ys.
Proof.
  induction ys as [|y ys IH] using rev_ind.
  - rewrite app_nil_r. change (bits_value []) with 0.
    change (len (@nil N)) with 0. lia.
  - rewrite app_assoc, !bits_value_snoc, IH, len_app.
    change (len [y]) with 1. pose proof (len_nonneg ys).
    rewrite Z.pow_add_r by lia. lia.
Qed.

Lemma bits_value_range (s : str) : 0 <= bits_value s < 2 ^ len s.
Proof.
  induction s as [|c s IH] using rev_ind.
  - cbn. lia.
  - rewrite bits_value_snoc, len_app. change (len [c]) with 1.
    pose proof (len_nonneg s). rewrite Z.pow_add_r by lia.
    unfold bit_of. destruct (c =? chr_1)%N; lia.
Qed.

Lemma forallb_is_bit_app (xs ys : str) :
  forallb is_bit (xs ++ ys) = forallb is_bit xs && forallb is_bit ys.
Proof. apply forallb_app. Qed.

Lemma bin_digits_bits (p : positive) : forallb is_bit (bin_digits p) = true.
Proof.
  induction p; cbn [bin_digits]; rewrite ?forallb_is_bit_app, ?IHp; reflexivity.
Qed.

Lemma bin_digits_value (p : positive) : bits_value (bin_digits p) = Z.pos p.
Proof.
  induction p; cbn [bin_digits]; rewrite ?bits_value_snoc, ?IHp; cbn; lia.
Qed.

Lemma bin_digits_len (p : positive) : len (bin_digits p) = Z.pos (Pos.size p).
Proof.
  induction p; cbn [bin_digits Pos.size]; rewrite ?len_app, ?IHp;
    change (len [chr_0]) with 1; change (len [chr_1]) with 1; lia.
Qed.

Lemma bit_length_pos (p : positive) : bit_length (Z.pos p) = Z.pos (Pos.size p).
Proof.
  unfold bit_length. cbn [Z.eqb Z.abs]. destruct p; cbn [Z.log2 Pos.size]; lia.
Qed.

Lemma bit_length_nonneg (z : Z) : 0 <= bit_length z.
Proof.
  unfold bit_length. pose proof (Z.log2_nonneg (Z.abs z)).
  destruct (z =? 0); lia.
Qed.

(** A magnitude is below two to its bit length, and not below half of it. *)
Lemma bit_length_bound (z : Z) : Z.abs z < 2 ^ bit_length z.
Proof.
  unfold bit_length. destruct (Z.eqb_spec z 0) as [->|Hz]; [cbn; lia|].
  pose proof (Z.log2_spec (Z.abs z) ltac:(lia)) as [_ H].
  now rewrite <- Z.add_1_r in H.
Qed.

Lemma bit_length_low (z : Z) : z <> 0 -> 2 ^ (bit_length z - 1) <= Z.abs z.
Proof.
  intros Hz. unfold bit_length. destruct (Z.eqb_spec z 0); [contradiction|].
  pose proof (Z.log2_spec (Z.abs z) ltac:(lia)) as [H _].
  now replace (Z.log2 (Z.abs z) + 1 - 1) with (Z.log2 (Z.abs z)) by lia.
Qed.

Lemma bit_length_abs (z : Z) : bit_length (Z.abs z) = bit_length z.
Proof.
  unfold bit_length. rewrite Z.abs_idemp.
  destruct (Z.eqb_spec z 0), (Z.eqb_spec (Z.abs z) 0); lia.
Qed.

Lemma format_b_bits (z : Z) : 0 <= z -> forallb is_bit (format_b z) = true.
Proof.
  destruct z as [|p|p]; intros H; [reflexivity|apply bin_digits_bits|lia].
Qed.

Lemma format_b_value (z : Z) : 0 <= z -> bits_value (format_b z) = z.
Proof.
  destruct z as [|p|p]; intros H; [reflexivity|apply bin_digits_value|lia].
Qed.

Lemma format_b_len (z : Z) : 0 <= z -> len (format_b z) = Z.max 1 (bit_length z).
Proof.
  destruct z as [|p|p]; intros H; [reflexivity| |lia].
  cbn [format_b]. rewrite bin_digits_len, bit_length_pos. lia.
Qed.

Lemma str_mul_len (c : N) (k : Z) : len (str_mul c k) = Z.max 0 k.
Proof. unfold str_mul. rewrite len_repeat. lia. Qed.

Lemma zeros_bits (k : Z) : forallb is_bit (str_mul chr_0 k) = true.
Proof.
  unfold str_mul. induction (Z.to_nat k); cbn; [reflexivity|assumption].
Qed.

Lemma zeros_value (k : Z) : bits_value (str_mul chr_0 k) = 0.
Proof.
  unfold str_mul. induction (Z.to_nat k) as [|n IH]; [reflexivity|].
  change (repeat chr_0 (S n)) with ([chr_0] ++ repeat chr_0 n).
  rewrite bits_value_app, IH. cbn. lia.
Qed.

(** The three replacements exchange the digits of a binary string. *)
Lemma replace_flip (s : str) :
  forallb is_bit s = true ->
  replace chr_i chr_0 (replace chr_0 chr_1 (replace chr_1 chr_i s))
  = map flip s.
Proof.
  intros H. unfold replace. rewrite !map_map. apply map_ext_in.
  intros c Hc. rewrite forallb_forall in H. specialize (H c Hc).
  unfold is_bit in H. apply orb_true_iff in H as [E|E];
    apply N.eqb_eq in E; subst c; reflexivity.
Qed.

Lemma flip_bits (s : str) : forallb is_bit (map flip s) = true.
Proof.
  induction s as [|c s IH]; [reflexivity|]. cbn [map forallb]. rewrite IH.
  unfold flip. destruct (c =? chr_1)%N; reflexivity.
Qed.

Lemma flip_len (s : str) : len (map flip s) = len s.
Proof. unfold len. now rewrite length_map. Qed.

Lemma flip_value (s : str) :
  bits_value (map flip s) = 2 ^ len s - 1 - bits_value s.
Proof.
  induction s as [|c s IH] using rev_ind; [reflexivity|].
  rewrite map_app. cbn [map]. rewrite !bits_value_snoc, IH, len_app.
  change (len [c]) with 1. pose proof (len_nonneg s).
  rewrite Z.pow_add_r by lia. unfold bit_of, flip.
  destruct (c =? chr_1)%N eqn:E;
    [change ((chr_0 =? chr_1)%N) with false
    |change ((chr_1 =? chr_1)%N) with true]; lia.
Qed.

(** [rfind] finds the last occurrence. *)
Lemma rfind_from_absent (c : N) (s : str) (i : Z) :
  ~ In c s -> rfind_from c s i = -1.
Proof.
  revert i. induction s as [|x s IH]; intros i H; [reflexivity|].
  cbn [rfind_from]. rewrite IH by (intros ?; apply H; now right).
  cbn. destruct (N.eqb_spec x c) as [->|]; [|reflexivity].
  exfalso. apply H. now left.
Qed.

Lemma rfind_from_last (c : N) (pre post : str) (i : Z) :
  0 <= i -> ~ In c post -> rfind_from c (pre ++ c :: post) i = i + len pre.
Proof.
  revert i. induction pre as [|x pre IH]; intros i Hi H.
  - cbn [app rfind_from]. rewrite rfind_from_absent by assumption.
    cbn. rewrite N.eqb_refl. change (len (@nil N)) with 0. lia.
  - cbn [app rfind_from]. rewrite IH by (assumption || lia).
    pose proof (len_nonneg pre).
    destruct (Z.leb_spec 0 (i + 1 + len pre)); [|lia].
    unfold len. cbn [List.length]. lia.
Qed.

Lemma last_occurrence (c : N) (s : str) :
  In c s -> exists pre post, s = pre ++ c :: post /\ ~ In c post.
Proof.
  induction s as [|x s IH]; intros H; [destruct H|].
  destruct (in_dec N.eq_dec c s) as [Hin|Hout].
  - destruct (IH Hin) as (pre & post & -> & Hp).
    exists (x :: pre), post. split; [reflexivity|assumption].
  - destruct H as [->|H]; [|contradiction].
    exists [], s. split; [reflexivity|assumption].
Qed.

Lemma ones_value (s : str) :
  forallb is_bit s = true -> ~ In chr_0 s -> bits_value s = 2 ^ len s - 1.
Proof.
  induction s as [|c s IH] using rev_ind; intros Hb H0; [reflexivity|].
  rewrite forallb_is_bit_app in Hb. apply andb_true_iff in Hb as [Hs Hc].
  rewrite bits_value_snoc, IH, len_app; try assumption.
  - change (len [c]) with 1. pose proof (len_nonneg s).
    rewrite Z.pow_add_r by lia. cbn [forallb] in Hc. unfold is_bit in Hc.
    rewrite andb_true_r in Hc. apply orb_true_iff in Hc as [E|E];
      apply N.eqb_eq in E; subst c.
    + exfalso. apply H0. apply in_or_app. right. now left.
    + change (bit_of chr_1) with 1. lia.
  - intros Hin. apply H0. apply in_or_app. now left.
Qed.

(** Adding one at the last ['0']. *)
Lemma increment_at_pivot (pre post : str) :
  ~ In chr_0 post ->
  let t := pre ++ chr_0 :: post in
  let pivot := rfind chr_0 t in
  slice t 0 (Some pivot) ++ [chr_1]
    ++ str_mul chr_0 (len (slice t (pivot + 1) None))
  = pre ++ chr_1 :: str_mul chr_0 (len post).
Proof.
  intros Hpost t pivot. subst pivot t. unfold rfind.
  rewrite rfind_from_last by (assumption || lia).
  pose proof (len_nonneg pre). pose proof (len_nonneg post).
  assert (len (pre ++ chr_0 :: post) = len pre + 1 + len post) as Hlen.
  { rewrite len_app. unfold len. cbn [List.length]. lia. }
  rewrite slice_within by lia. rewrite slice_from by lia.
  replace (Z.to_nat (0 + len pre - 0)) with (List.length pre)
    by (unfold len; lia).
  replace (Z.to_nat (0 + len pre + 1)) with (List.length pre + 1)%nat
    by (unfold len; lia).
  cbn [Z.to_nat skipn].
  rewrite firstn_app, Nat.sub_diag, firstn_all. cbn [firstn]. rewrite app_nil_r.
  rewrite skipn_app, skipn_all2 by lia.
  replace (List.length pre + 1 - List.length pre)%nat with 1%nat by lia.
  reflexivity.
Qed.

(** The conversion keeps the width and yields [2 ^ width - value], provided
    the string holds a ['1']. *)
Lemma twos_complement_spec (s : str) :
  forallb is_bit s = true -> 0 < bits_value s ->
  forallb is_bit (twos_complement s) = true /\
  len (twos_complement s) = len s /\
  bits_value (twos_complement s) = 2 ^ len s - bits_value s.
Proof.
  intros Hb Hv. unfold twos_complement. rewrite replace_flip by assumption.
  assert (In chr_0 (map flip s)) as Hin.
  { destruct (in_dec N.eq_dec chr_0 (map flip s)) as [|Hout]; [assumption|].
    pose proof (ones_value (map flip s) (flip_bits s) Hout) as E.
    rewrite flip_value, flip_len in E. lia. }
  destruct (last_occurrence _ _ Hin) as (pre & post & E & Hpost).
  pose proof (flip_bits s) as Hfb. pose proof (flip_value s) as Hfv.
  pose proof (flip_len s) as Hfl. rewrite E in *.
  cbv zeta. rewrite (increment_at_pivot pre post Hpost).
  rewrite forallb_is_bit_app in Hfb. apply andb_true_iff in Hfb as [Hpre Hpo].
  cbn [forallb] in Hpo. apply andb_true_iff in Hpo as [_ Hpo].
  pose proof (len_nonneg pre). pose proof (len_nonneg post).
  change (chr_1 :: str_mul chr_0 (len post))
    with ([chr_1] ++ str_mul chr_0 (len post)).
  change (chr_0 :: post) with ([chr_0] ++ post) in *.
  rewrite !bits_value_app in *. rewrite !len_app in *.
  rewrite !forallb_is_bit_app, zeros_bits, zeros_value, str_mul_len, Hpre.
  rewrite (ones_value post) in Hfv by assumption.
  change (len [chr_1]) with 1. change (len [chr_0]) with 1 in *.
  change (bits_value [chr_1]) with 1. change (bits_value [chr_0]) with 0 in *.
  rewrite Z.max_r by lia.
  repeat split; [lia|].
  rewrite <- Hfl in *. rewrite !Z.pow_add_r in * by lia.
  change (2 ^ 1) with 2 in *. lia.
Qed.

(** ** [BigInteger]: digits and octets *)

Lemma int_base2_bits (s : str) :
  forallb is_bit s = true -> 0 < len s -> int_base2 s = Ok (bits_value s).
Proof.
  intros Hb Hl. unfold int_base2. rewrite Hb.
  destruct (Z.eqb_spec (len s) 0); [lia|reflexivity].
Qed.

Lemma firstn_bits (n : nat) (s : str) :
  forallb is_bit s = true -> forallb is_bit (firstn n s) = true.
Proof.
  intros H. rewrite <- (firstn_skipn n s), forallb_is_bit_app in H.
  now apply andb_true_iff in H as [H _].
Qed.

Lemma skipn_bits (n : nat) (s : str) :
  forallb is_bit s = true -> forallb is_bit (skipn n s) = true.
Proof.
  intros H. rewrite <- (firstn_skipn n s), forallb_is_bit_app in H.
  now apply andb_true_iff in H as [_ H].
Qed.

(** The loop of [write] packs a binary string of [8 * n] digits into the
    [n] octets of its value. *)
Lemma pack_bits_from (n : nat) :
  forall (a : nat) (done todo : str) (acc : list byte),
    forallb is_bit todo = true ->
    List.length done = (8 * a)%nat -> List.length todo = (8 * n)%nat ->
    pack_bits (done ++ todo) (map (fun k => 0 + 8 * Z.of_nat k) (seq a n)) acc
    = Ok (acc ++ be_encode n (bits_value todo)).
Proof.
  induction n as [|n IH]; intros a done todo acc Hb Hd Ht.
  - cbn. now rewrite app_nil_r.
  - cbn [seq map pack_bits].
    assert (len (done ++ todo) = 8 * Z.of_nat a + 8 * Z.of_nat (S n)) as Hlen
      by (rewrite len_app; unfold len; lia).
    rewrite slice_within by lia.
    replace (Z.to_nat (0 + 8 * Z.of_nat a + 8 - (0 + 8 * Z.of_nat a))) with 8%nat
      by lia.
    replace (Z.to_nat (0 + 8 * Z.of_nat a)) with (List.length done) by lia.
    rewrite skipn_app, skipn_all, Nat.sub_diag. cbn [app skipn].
    set (chunk := firstn 8 todo). set (rest := skipn 8 todo).
    assert (todo = chunk ++ rest) as E by (symmetry; apply firstn_skipn).
    assert (List.length chunk = 8%nat) as Hc
      by (subst chunk; rewrite length_firstn; lia).
    assert (List.length rest = (8 * n)%nat) as Hr
      by (subst rest; rewrite length_skipn; lia).
    assert (forallb is_bit chunk = true) as Hbc by now apply firstn_bits.
    assert (forallb is_bit rest = true) as Hbr by now apply skipn_bits.
    rewrite int_base2_bits by (assumption || unfold len; lia).
    unfold rbind at 1.
    pose proof (bits_value_range chunk) as Rc. unfold len in Rc. rewrite Hc in Rc.
    pose proof (bits_value_range rest) as Rr. unfold len in Rr. rewrite Hr in Rr.
    rewrite pack_PyInt by (cbn in *; lia). unfold rbind.
    rewrite E at 1. rewrite app_assoc.
    rewrite (IH (S a) (done ++ chunk) rest) by
      (assumption || rewrite length_app; lia).
    f_equal. rewrite <- app_assoc. f_equal.
    change (S n) with (1 + n)%nat. rewrite be_encode_app.
    rewrite E, bits_value_app. unfold len. rewrite Hr.
    replace (Z.of_nat (8 * n)) with (8 * Z.of_nat n) in * by lia.
    rewrite <- (be_encode_mod n (_ + _)), pow256.
    set (C := bits_value chunk) in *. set (R := bits_value rest) in *.
    set (P := 2 ^ (8 * Z.of_nat n)) in *.
    assert (0 < P) by (apply Z.pow_pos_nonneg; lia).
    assert ((C * P + R) / P = C) as ->
      by (rewrite Z.div_add_l by lia; rewrite Z.div_small by lia; lia).
    assert ((C * P + R) mod P = R) as ->
      by (rewrite Z.add_comm, Z.mod_add by lia; apply Z.mod_small; lia).
    reflexivity.
Qed.

Lemma pack_bits_spec (s : str) (n : nat) :
  forallb is_bit s = true -> List.length s = (8 * n)%nat ->
  pack_bits s (range 0 (len s) 8) [] = Ok (be_encode n (bits_value s)).
Proof.
  intros Hb Hl. unfold range.
  replace (Z.to_nat ((len s - 0 + 8 - 1) / 8)) with n.
  - apply (pack_bits_from n 0 [] s []); auto.
  - unfold len. rewrite Hl.
    replace (Z.of_nat (8 * n) - 0 + 8 - 1) with (7 + Z.of_nat n * 8) by lia.
    rewrite Z.div_add by lia. cbn. lia.
Qed.

(** An octet as eight binary digits. *)
Lemma byte_bits_spec (b : byte) :
  forallb is_bit (byte_bits (Z_of_byte b)) = true /\
  List.length (byte_bits (Z_of_byte b)) = 8%nat /\
  bits_value (byte_bits (Z_of_byte b)) = Z_of_byte b.
Proof. destruct b; vm_compute; auto. Qed.

Lemma BigInteger_width_bounds (v : Z) :
  8 <= BigInteger_width v /\ BigInteger_width v mod 8 = 0 /\
  bit_length v < 8 * BigInteger_width v.
Proof.
  unfold BigInteger_width. pose proof (bit_length_nonneg v).
  repeat split; Z.div_mod_to_equations; lia.
Qed.

(** The binary string [write] starts from: the digits of the magnitude,
    padded on the left by [64 - len % 64] zeros. *)
Lemma padded_magnitude (v : Z) :
  let binary := format_b (Z.abs v) in
  let binary := str_mul chr_0 (64 - len binary mod 64) ++ binary in
  forallb is_bit binary = true /\
  List.length binary = (8 * Z.to_nat (BigInteger_width v))%nat /\
  bits_value binary = Z.abs v.
Proof.
  cbv zeta. pose proof (Z.abs_nonneg v) as Ha.
  pose proof (format_b_len _ Ha) as Hl. rewrite bit_length_abs in Hl.
  pose proof (bit_length_nonneg v) as Hn.
  repeat split.
  - now rewrite forallb_is_bit_app, zeros_bits, format_b_bits.
  - apply Nat2Z.inj. change (Z.of_nat (List.length ?l)) with (len l).
    rewrite len_app, str_mul_len, Hl. unfold BigInteger_width.
    Z.div_mod_to_equations. lia.
  - rewrite bits_value_app, zeros_value, format_b_value by assumption. lia.
Qed.

(** What [write] builds: the [BigInteger_width v] low-order octets of [v],
    which in two's complement is [v] itself. *)
Lemma BigInteger_hexadecimal_spec (v : Z) :
  BigInteger_hexadecimal v
  = Ok (be_encode (Z.to_nat (BigInteger_width v)) v).
Proof.
  unfold BigInteger_hexadecimal.
  destruct (padded_magnitude v) as (Hb & Hl & Hv). cbv zeta in Hb, Hl, Hv.
  set (binary := str_mul chr_0 _ ++ format_b (Z.abs v)) in *.
  destruct (Z.ltb_spec v 0) as [Hneg|Hpos].
  - destruct (twos_complement_spec binary Hb ltac:(lia)) as (Hb' & Hl' & Hv').
    rewrite Hl'.
    assert (len binary = len (twos_complement binary)) as -> by lia.
    rewrite (pack_bits_spec _ (Z.to_nat (BigInteger_width v))); try assumption.
    + f_equal. rewrite Hv', Hv. unfold len. rewrite Hl.
      replace (2 ^ Z.of_nat (8 * Z.to_nat (BigInteger_width v)) - Z.abs v)
        with (v + 2 ^ (8 * Z.of_nat (Z.to_nat (BigInteger_width v)))).
      * rewrite <- (be_encode_wrap _ (v + _)). f_equal. lia.
      * rewrite Nat2Z.inj_mul. change (Z.of_nat 8) with 8. lia.
    + unfold len in Hl'. lia.
  - rewrite (pack_bits_spec _ (Z.to_nat (BigInteger_width v))); try assumption.
    f_equal. rewrite Hv. f_equal. lia.
Qed.

Lemma BigInteger_hexadecimal_len (v : Z) (bs : list byte) :
  BigInteger_hexadecimal v = Ok bs -> len bs = BigInteger_width v.
Proof.
  rewrite BigInteger_hexadecimal_spec. intros [= <-].
  rewrite len_be_encode. pose proof (BigInteger_width_bounds v). lia.
Qed.

(** The signed reading inverts the two's-complement octets of a number in
    range. *)
Lemma be_signed_encode (n : nat) (v : Z) :
  (0 < n)%nat -> - 2 ^ (8 * Z.of_nat n - 1) <= v < 2 ^ (8 * Z.of_nat n - 1) ->
  be_signed (be_encode n v) = v.
Proof.
  intros Hn Hv. unfold be_signed. rewrite len_be_encode, be_decode_encode, pow256.
  assert (2 ^ (8 * Z.of_nat n) = 2 * 2 ^ (8 * Z.of_nat n - 1)) as E.
  { rewrite <- Z.pow_succ_r by lia. f_equal. lia. }
  assert (0 < 2 ^ (8 * Z.of_nat n - 1)) by (apply Z.pow_pos_nonneg; lia).
  rewrite E. set (P := 2 ^ (8 * Z.of_nat n - 1)) in *.
  destruct (Z.ltb_spec v 0).
  - replace (v mod (2 * P)) with (v + 2 * P)
      by (apply Z.mod_unique with (-1); lia).
    destruct (Z.leb_spec P (v + 2 * P)); lia.
  - rewrite Z.mod_small by lia. destruct (Z.leb_spec P v); lia.
Qed.

Lemma BigInteger_in_range (v : Z) :
  - 2 ^ (8 * BigInteger_width v - 1) <= v < 2 ^ (8 * BigInteger_width v - 1).
Proof.
  pose proof (BigInteger_width_bounds v) as (H8 & _ & Hb).
  pose proof (bit_length_bound v) as Hv. pose proof (bit_length_nonneg v).
  assert (2 ^ bit_length v <= 2 ^ (8 * BigInteger_width v - 1))
    by (apply Z.pow_le_mono_r; lia).
  lia.
Qed.

Lemma bits_of_bytes_spec (bs : list byte) :
  forallb is_bit (bits_of_bytes bs) = true /\
  List.length (bits_of_bytes bs) = (8 * List.length bs)%nat /\
  bits_value (bits_of_bytes bs) = be_decode bs.
Proof.
  induction bs as [|b bs (Hb & Hl & Hv)] using rev_ind.
  - repeat split.
  - unfold bits_of_bytes in *. rewrite flat_map_app. cbn [flat_map].
    rewrite app_nil_r. destruct (byte_bits_spec b) as (Hb' & Hl' & Hv').
    repeat split.
    + now rewrite forallb_is_bit_app, Hb, Hb'.
    + rewrite !length_app, Hl, Hl'. cbn [List.length]. lia.
    + rewrite bits_value_app, be_decode_snoc, Hv, Hv'. unfold len. rewrite Hl'.
      change (2 ^ Z.of_nat 8) with 256. lia.
Qed.

Lemma unpack_B_byte (b : byte) : unpack fmt_B [b] = Ok (Z_of_byte b).
Proof. unfold unpack. cbn. reflexivity. Qed.

(** The loop of [read] turns the octets it reads into their digits. *)
Lemma BigInteger_read_loop (bs rest : list byte) (o : Primitive) (acc : str) :
  fold_times (List.length bs) BigInteger_read_byte acc (mkState o (bs ++ rest))
  = (Ok (acc ++ bits_of_bytes bs), mkState o rest).
Proof.
  revert acc. induction bs as [|b bs IH]; intros acc.
  - cbn. now rewrite app_nil_r.
  - cbn [List.length fold_times]. unfold bind at 1.
    unfold BigInteger_read_byte at 1, bind.
    change ((b :: bs) ++ rest) with ([b] ++ bs ++ rest).
    rewrite istream_read_app by reflexivity. mstep.
    unfold lift, ret. rewrite unpack_B_byte. mstep. rewrite IH.
    unfold bits_of_bytes. cbn [flat_map]. now rewrite <- app_assoc.
Qed.

(** The first digit of a binary string is its sign bit. *)
Lemma sign_digit (s : str) :
  forallb is_bit s = true -> 0 < len s ->
  exists c, index s 0 = Ok c /\
            (c =? chr_1)%N = (2 ^ (len s - 1) <=? bits_value s).
Proof.
  destruct s as [|c s]; intros Hb Hl; [cbn in Hl; lia|].
  exists c. split; [reflexivity|].
  change (c :: s) with ([c] ++ s) in *. rewrite bits_value_app, len_app.
  change (len [c]) with 1. replace (1 + len s - 1) with (len s) by lia.
  pose proof (bits_value_range s). change (bits_value [c]) with (bit_of c).
  unfold bit_of. destruct (c =? chr_1)%N; symmetry;
    [apply Z.leb_le|apply Z.leb_gt]; lia.
Qed.

Lemma BigInteger_read_ok (o : Primitive) (vb rest : list byte) :
  In (tag o) Tags -> 0 <= tag o < 2 ^ 24 -> type o = BIG_INTEGER ->
  0 < len vb < 2 ^ 32 -> len vb mod 8 = 0 ->
  BigInteger_read (mkState o (header (tag o) BIG_INTEGER (len vb) ++ vb ++ rest))
  = (Ok tt,
     mkState (set_value (set_length o (Some (len vb))) (PyInt (be_signed vb)))
       rest).
Proof.
  intros Hin Ht Hty Hl Hm. unfold BigInteger_read, bind.
  rewrite Base_read_ok by (assumption || lia). mstep.
  unfold get_self at 1. mstep. cbn [length set_length number]. unfold ret at 1.
  rewrite Hm. cbn [Z.eqb negb].
  replace (Z.to_nat (len vb)) with (List.length vb) by (unfold len; lia).
  rewrite BigInteger_read_loop. mstep. cbn [app].
  destruct (bits_of_bytes_spec vb) as (Hb & Hlb & Hv).
  assert (len (bits_of_bytes vb) = 8 * len vb) as Hlen by (unfold len; lia).
  destruct (sign_digit (bits_of_bytes vb) Hb ltac:(lia)) as (c & Hc & Hs).
  unfold lift at 1. rewrite Hc. mstep. rewrite Hs, Hlen, Hv.
  unfold be_signed, update_self.
  destruct (Z.leb_spec (2 ^ (8 * len vb - 1)) (be_decode vb)) as [Hneg|Hpos].
  - assert (0 < 2 ^ (8 * len vb - 1)) by (apply Z.pow_pos_nonneg; lia).
    destruct (twos_complement_spec _ Hb ltac:(lia)) as (Hb' & Hl' & Hv').
    unfold lift. rewrite int_base2_bits by (assumption || lia). mstep.
    rewrite Hv', Hlen, Hv. do 4 f_equal. lia.
  - unfold lift. rewrite int_base2_bits by (assumption || lia). mstep.
    rewrite Hv. do 4 f_equal. lia.
Qed.

(** ** [Integer], [Interval], [Enumeration] *)

Lemma Integer_write_ok (o : Primitive) (s : list byte) (f : format) (v : Z) :
  0 <= tag o < 2 ^ 32 -> length o = Some Integer_LENGTH ->
  pack_string o = Some f -> calcsize f = 4%nat ->
  value o = PyInt v -> fmt_min f <= v <= fmt_max f ->
  Integer_write (mkState o s)
  = (Ok tt,
     mkState o
       (s ++ header (tag o) (type o) 4 ++ be_encode 4 v ++ be_encode 4 0)).
Proof.
  intros Ht Hl Hf Hc Hv Hr. unfold Integer_write, bind.
  rewrite (Base_write_ok o s 4) by (assumption || cbn; lia). mstep.
  unfold Integer_write_value, bind, get_self, the_format, lift, ostream_write.
  mstep. rewrite Hf. unfold ret. mstep. rewrite Hv.
  rewrite pack_PyInt by assumption. mstep.
  rewrite pack_PyInt by (destruct f; cbn in *; lia || discriminate). mstep.
  rewrite Hc, <- !app_assoc. reflexivity.
Qed.

Lemma Integer_read_ok (o : Primitive) (f : format) (v4 rest : list byte) (v : Z) :
  In (tag o) Tags -> 0 <= tag o < 2 ^ 24 ->
  pack_string o = Some f -> calcsize f = 4%nat ->
  padding_length o = Some Integer_LENGTH ->
  unpack f v4 = Ok v ->
  validate (set_value (set_length o (Some 4)) (PyInt v)) = Ok tt ->
  Integer_read
    (mkState o (header (tag o) (type o) 4 ++ v4 ++ be_encode 4 0 ++ rest))
  = (Ok tt, mkState (set_value (set_length o (Some 4)) (PyInt v)) rest).
Proof.
  intros Hin Ht Hf Hc Hp Hu Hval. unfold Integer_read, bind.
  rewrite Base_read_ok by (reflexivity || assumption || cbn; lia). mstep.
  unfold Integer_read_value, bind, get_self at 1. mstep.
  cbn [length set_length is_not Integer_LENGTH Z.eqb Pos.eqb negb].
  cbn [pack_string set_length padding_length]. rewrite Hf, Hp.
  unfold the_format, number, ret. mstep.
  assert (List.length v4 = 4%nat) as Hl4.
  { destruct (Nat.eq_dec (List.length v4) (calcsize f)) as [E|E]; [lia|].
    rewrite unpack_length in Hu by assumption. discriminate. }
  rewrite istream_read_app by (unfold len; rewrite Hl4; reflexivity). mstep.
  unfold lift at 1. rewrite Hu. mstep. unfold update_self at 1. mstep.
  rewrite istream_read_app by (rewrite len_be_encode; reflexivity). mstep.
  unfold lift at 1. rewrite <- Hc.
  rewrite unpack_pack by (destruct f; cbn in *; lia || discriminate). mstep.
  cbn [Z.eqb negb]. unfold do_validate, bind, get_self, lift. mstep.
  rewrite Hval. reflexivity.
Qed.

Lemma Integer_init_ok (o : Primitive) (v t : Z) (signed : bool) :
  cls o = CInteger \/ cls o = CInterval ->
  Integer___init__ o (PyInt v) t signed
  = if (Integer_MIN <=? v) && (v <=? Integer_MAX)
    then Ok (mkPrimitive (cls o) (ENUM_TYPE o) t INTEGER (Some 4) (PyInt v)
               (Some 4) (Some (if signed then fmt_i else fmt_I)) (enum o))
    else Raise ValueError.
Proof.
  intros Hc. destruct o as [c E t0 ty l va p ps en]. cbn [cls] in Hc.
  unfold Integer___init__, validate, Integer_validate, Integer_MIN, Integer_MAX.
  destruct signed, Hc as [-> | ->]; cbn; zbool; reflexivity.
Qed.

Lemma round_trips_intro (mk blank : result Primitive) (P : Primitive -> Prop)
  (o o1 o0 o' : Primitive) (bs : list byte) :
  mk = Ok o -> write (mkState o []) = (Ok tt, mkState o1 bs) ->
  blank = Ok o0 -> read (mkState o0 bs) = (Ok tt, mkState o' []) -> P o' ->
  round_trips mk blank P.
Proof.
  intros Hmk Hw Hb Hr HP. exists o, bs, o0, o'. unfold encode, decode.
  rewrite Hw, Hr. cbn [stream self]. auto.
Qed.

Lemma Integer_round_trips (t v : Z) :
  In t Tags -> 0 <= t < 2 ^ 24 -> Integer_MIN <= v <= Integer_MAX ->
  round_trips (Integer (PyInt v) t true) (Integer PyNone t true)
    (fun o' => value o' = PyInt v).
Proof.
  intros Hin Ht Hv. unfold Integer_MIN, Integer_MAX in Hv.
  eapply round_trips_intro.
  - unfold Integer. rewrite Integer_init_ok by (now left).
    unfold Integer_MIN, Integer_MAX. zbool. cbn [andb]. reflexivity.
  - unfold write, bind, get_self. mstep. cbn [cls new].
    rewrite (Integer_write_ok _ _ fmt_i v) by (reflexivity || (cbn; lia)).
    cbn [app]. reflexivity.
  - vm_compute. reflexivity.
  - unfold read, bind, get_self. mstep. cbn [cls new].
    rewrite <- (app_nil_r (be_encode 4 0)).
    match goal with
    | |- Integer_read (mkState ?o0 _) = _ =>
        apply (Integer_read_ok o0 fmt_i (be_encode 4 v) [] v)
    end; try reflexivity; try assumption.
    + apply (unpack_pack fmt_i). cbn. lia.
    + cbn. unfold Integer_MIN, Integer_MAX. zbool. reflexivity.
  - reflexivity.
Qed.

Lemma Interval_init (v t : Z) :
  Interval (PyInt v) t
  = if (Integer_MIN <=? v) && (v <=? Integer_MAX)
    then Ok (mkPrimitive CInterval None t INTERVAL (Some 4) (PyInt v)
               (Some 4) (Some fmt_i) PyNone)
    else Raise ValueError.
Proof.
  unfold Interval. rewrite Integer_init_ok by (now right).
  destruct ((Integer_MIN <=? v) && (v <=? Integer_MAX)); reflexivity.
Qed.

Lemma Interval_round_trips (t v : Z) :
  In t Tags -> 0 <= t < 2 ^ 24 -> Integer_MIN <= v <= Integer_MAX ->
  round_trips (Interval (PyInt v) t) (Interval PyNone t)
    (fun o' => value o' = PyInt v).
Proof.
  intros Hin Ht Hv. unfold Integer_MIN, Integer_MAX in Hv.
  eapply round_trips_intro.
  - rewrite Interval_init. unfold Integer_MIN, Integer_MAX. zbool.
    cbn [andb]. reflexivity.
  - unfold write, bind, get_self. mstep. cbn [cls].
    rewrite (Integer_write_ok _ _ fmt_i v) by (reflexivity || (cbn; lia)).
    cbn [app]. reflexivity.
  - vm_compute. reflexivity.
  - unfold read, bind, get_self. mstep. cbn [cls].
    rewrite <- (app_nil_r (be_encode 4 0)).
    match goal with
    | |- Integer_read (mkState ?o0 _) = _ =>
        apply (Integer_read_ok o0 fmt_i (be_encode 4 v) [] v)
    end; try reflexivity; try assumption.
    + apply (unpack_pack fmt_i). cbn. lia.
    + cbn. unfold Integer_MIN, Integer_MAX. zbool. reflexivity.
  - reflexivity.
Qed.

Lemma Enumeration_init (E : EnumType) (name : string) (code t : Z) :
  Enumeration (Some E) (PyEnum name code) t
  = Ok (mkPrimitive CEnumeration (Some E) t ENUMERATION (Some 4) (PyInt code)
          (Some 4) (Some fmt_I) (PyEnum name code)).
Proof. reflexivity. Qed.

Lemma Enumeration_read_ok (o : Primitive) (E : EnumType) (v4 rest : list byte)
  (name : string) (code : Z) :
  In (tag o) Tags -> 0 <= tag o < 2 ^ 24 ->
  cls o = CEnumeration -> ENUM_TYPE o = Some E ->
  pack_string o = Some fmt_I -> padding_length o = Some Integer_LENGTH ->
  isinstance_Enum (enum o) = true \/ enum o = PyNone ->
  unpack fmt_I v4 = Ok code ->
  find (fun m => snd m =? code) E = Some (name, code) ->
  Enumeration_read
    (mkState o (header (tag o) (type o) 4 ++ v4 ++ be_encode 4 0 ++ rest))
  = (Ok tt,
     mkState (set_enum (set_value (set_length o (Some 4)) (PyInt code))
                (PyEnum name code)) rest).
Proof.
  intros Hin Ht Hc HE Hf Hp He Hu Hfind. unfold Enumeration_read, bind.
  rewrite (Integer_read_ok o fmt_I v4 rest code); try assumption; try reflexivity.
  - mstep. unfold get_self at 1. mstep.
    cbn [ENUM_TYPE set_value set_length value]. rewrite HE.
    unfold lift at 1, Enum_of. rewrite Hfind. mstep. cbn [fst snd].
    unfold update_self at 1. mstep. unfold do_validate, bind, get_self, lift.
    mstep. unfold validate. cbn [cls set_enum set_value set_length]. rewrite Hc.
    reflexivity.
  - unfold validate. cbn [cls set_value set_length]. rewrite Hc.
    unfold Enumeration_validate. cbn [enum set_value set_length].
    destruct He as [He | ->]; [|reflexivity].
    destruct (enum o); try discriminate. reflexivity.
Qed.

Lemma Enumeration_round_trips (E : EnumType) (name : string) (code t : Z) :
  In t Tags -> 0 <= t < 2 ^ 24 -> 0 <= code <= 2 ^ 32 - 1 ->
  find (fun m => snd m =? code) E = Some (name, code) ->
  round_trips (Enumeration (Some E) (PyEnum name code) t)
    (Enumeration (Some E) PyNone t)
    (fun o' => enum o' = PyEnum name code /\ value o' = PyInt code).
Proof.
  intros Hin Ht Hv Hfind.
  eapply round_trips_intro.
  - apply Enumeration_init.
  - unfold write, bind, get_self. mstep. cbn [cls]. unfold Enumeration_write.
    rewrite (Integer_write_ok _ _ fmt_I code) by (reflexivity || (cbn; lia)).
    cbn [app]. reflexivity.
  - vm_compute. reflexivity.
  - unfold read, bind, get_self. mstep. cbn [cls].
    rewrite <- (app_nil_r (be_encode 4 0)).
    match goal with
    | |- Enumeration_read (mkState ?o0 _) = _ =>
        apply (Enumeration_read_ok o0 E (be_encode 4 code) [] name code)
    end; try reflexivity; try assumption.
    + now right.
    + apply (unpack_pack fmt_I). cbn. lia.
  - split; reflexivity.
Qed.

(** ** [LongInteger], [DateTime], [Boolean] *)

Lemma LongInteger_write_ok (o : Primitive) (s : list byte) (v : Z) :
  0 <= tag o < 2 ^ 32 -> length o = Some LongInteger_LENGTH ->
  value o = PyInt v -> LongInteger_MIN <= v <= LongInteger_MAX ->
  LongInteger_write (mkState o s)
  = (Ok tt, mkState o (s ++ header (tag o) (type o) 8 ++ be_encode 8 v)).
Proof.
  intros Ht Hl Hv Hr. unfold LongInteger_write, bind.
  rewrite (Base_write_ok o s 8) by (assumption || cbn; lia). mstep.
  unfold LongInteger_write_value, bind, get_self, lift, ostream_write.
  mstep. rewrite Hv. rewrite pack_PyInt by assumption. mstep.
  rewrite <- !app_assoc. reflexivity.
Qed.

Lemma LongInteger_read_ok (o : Primitive) (v8 rest : list byte) (v : Z) :
  In (tag o) Tags -> 0 <= tag o < 2 ^ 24 ->
  unpack fmt_q v8 = Ok v ->
  validate (set_value (set_length o (Some 8)) (PyInt v)) = Ok tt ->
  LongInteger_read (mkState o (header (tag o) (type o) 8 ++ v8 ++ rest))
  = (Ok tt, mkState (set_value (set_length o (Some 8)) (PyInt v)) rest).
Proof.
  intros Hin Ht Hu Hval. unfold LongInteger_read, bind.
  rewrite Base_read_ok by (reflexivity || assumption || cbn; lia). mstep.
  unfold LongInteger_read_value, bind, get_self at 1. mstep.
  cbn [length set_length is_not LongInteger_LENGTH Z.eqb Pos.eqb negb].
  unfold number, ret. mstep.
  assert (List.length v8 = 8%nat) as Hl8.
  { destruct (Nat.eq_dec (List.length v8) (calcsize fmt_q)) as [E|E];
      [exact E|].
    rewrite unpack_length in Hu by assumption. discriminate. }
  rewrite istream_read_app by (unfold len; rewrite Hl8; reflexivity). mstep.
  unfold lift at 1. rewrite Hu. mstep. unfold update_self at 1. mstep.
  unfold do_validate, bind, get_self, lift. mstep.
  rewrite Hval. reflexivity.
Qed.

Lemma LongInteger_init_ok (o : Primitive) (v t : Z) :
  cls o = CLongInteger \/ cls o = CDateTime ->
  LongInteger___init__ o (PyInt v) t
  = if (LongInteger_MIN <=? v) && (v <=? LongInteger_MAX)
    then Ok (mkPrimitive (cls o) (ENUM_TYPE o) t LONG_INTEGER (Some 8)
               (PyInt v) (padding_length o) (pack_string o) (enum o))
    else Raise ValueError.
Proof.
  intros Hc. destruct o as [c E t0 ty l va p ps en]. cbn [cls] in Hc.
  unfold LongInteger___init__, validate, LongInteger_validate,
    LongInteger_MIN, LongInteger_MAX.
  destruct Hc as [-> | ->]; cbn; zbool; reflexivity.
Qed.

Lemma LongInteger_round_trips (t v : Z) :
  In t Tags -> 0 <= t < 2 ^ 24 -> LongInteger_MIN <= v <= LongInteger_MAX ->
  round_trips (LongInteger (PyInt v) t) (LongInteger (PyInt 0) t)
    (fun o' => value o' = PyInt v).
Proof.
  intros Hin Ht Hv. unfold LongInteger_MIN, LongInteger_MAX in Hv.
  eapply round_trips_intro.
  - unfold LongInteger. rewrite LongInteger_init_ok by (now left).
    unfold LongInteger_MIN, LongInteger_MAX. zbool. cbn [andb]. reflexivity.
  - unfold write, bind, get_self. mstep. cbn [cls new].
    rewrite (LongInteger_write_ok _ _ v)
      by (reflexivity || (unfold LongInteger_MIN, LongInteger_MAX; cbn; lia)).
    cbn [app]. reflexivity.
  - vm_compute. reflexivity.
  - unfold read, bind, get_self. mstep. cbn [cls].
    rewrite <- (app_nil_r (be_encode 8 v)).
    match goal with
    | |- LongInteger_read (mkState ?o0 _) = _ =>
        apply (LongInteger_read_ok o0 (be_encode 8 v) [] v)
    end; try reflexivity; try assumption.
    + apply (unpack_pack fmt_q). cbn. lia.
    + cbn. unfold LongInteger_MIN, LongInteger_MAX. zbool. reflexivity.
  - reflexivity.
Qed.

Lemma DateTime_init (v t : Z) :
  DateTime (PyInt v) t
  = if (LongInteger_MIN <=? v) && (v <=? LongInteger_MAX)
    then Ok (mkPrimitive CDateTime None t DATE_TIME (Some 8) (PyInt v)
               None None PyNone)
    else Raise ValueError.
Proof.
  unfold DateTime. rewrite LongInteger_init_ok by (now right).
  destruct ((LongInteger_MIN <=? v) && (v <=? LongInteger_MAX)); reflexivity.
Qed.

Lemma DateTime_round_trips (t v : Z) :
  In t Tags -> 0 <= t < 2 ^ 24 -> LongInteger_MIN <= v <= LongInteger_MAX ->
  round_trips (DateTime (PyInt v) t) (DateTime PyNone t)
    (fun o' => value o' = PyInt v).
Proof.
  intros Hin Ht Hv. unfold LongInteger_MIN, LongInteger_MAX in Hv.
  eapply round_trips_intro.
  - rewrite DateTime_init. unfold LongInteger_MIN, LongInteger_MAX. zbool.
    cbn [andb]. reflexivity.
  - unfold write, bind, get_self. mstep. cbn [cls].
    rewrite (LongInteger_write_ok _ _ v)
      by (reflexivity || (unfold LongInteger_MIN, LongInteger_MAX; cbn; lia)).
    cbn [app]. reflexivity.
  - vm_compute. reflexivity.
  - unfold read, bind, get_self. mstep. cbn [cls].
    rewrite <- (app_nil_r (be_encode 8 v)).
    match goal with
    | |- LongInteger_read (mkState ?o0 _) = _ =>
        apply (LongInteger_read_ok o0 (be_encode 8 v) [] v)
    end; try reflexivity; try assumption.
    + apply (unpack_pack fmt_q). cbn. lia.
    + cbn. unfold LongInteger_MIN, LongInteger_MAX. zbool. reflexivity.
  - reflexivity.
Qed.

Lemma pack_PyBool (f : format) (b : bool) :
  pack f (PyBool b) = pack f (PyInt (Z_of_bool b)).
Proof. reflexivity. Qed.

Lemma Boolean_write_ok (o : Primitive) (s : list byte) (b : bool) :
  0 <= tag o < 2 ^ 32 -> length o = Some Boolean_LENGTH ->
  value o = PyBool b ->
  Boolean_write (mkState o s)
  = (Ok tt,
     mkState o (s ++ header (tag o) (type o) 8 ++ be_encode 8 (Z_of_bool b))).
Proof.
  intros Ht Hl Hv. unfold Boolean_write, bind.
  rewrite (Base_write_ok o s 8) by (assumption || cbn; lia). mstep.
  unfold Boolean_write_value, bind, get_self, lift, ostream_write.
  mstep. rewrite Hv, pack_PyBool.
  rewrite pack_PyInt by (destruct b; cbn; lia). mstep.
  rewrite <- !app_assoc. reflexivity.
Qed.

Lemma Boolean_read_ok (o : Primitive) (rest : list byte) (b : bool) :
  In (tag o) Tags -> 0 <= tag o < 2 ^ 24 -> cls o = CBoolean ->
  Boolean_read
    (mkState o (header (tag o) (type o) 8 ++ be_encode 8 (Z_of_bool b) ++ rest))
  = (Ok tt, mkState (set_value (set_length o (Some 8)) (PyBool b)) rest).
Proof.
  intros Hin Ht Hc. unfold Boolean_read, bind.
  rewrite Base_read_ok by (reflexivity || assumption || cbn; lia). mstep.
  unfold Boolean_read_value, bind.
  rewrite istream_read_app by (rewrite len_be_encode; reflexivity). mstep.
  unfold lift at 1.
  rewrite (unpack_pack fmt_Q) by (destruct b; cbn; lia). mstep.
  unfold do_validate, bind, get_self, lift, validate.
  destruct b; cbn [Z_of_bool Z.eqb Pos.eqb]; unfold update_self; mstep;
    cbn [cls set_value set_length]; rewrite Hc; reflexivity.
Qed.

Lemma Boolean_round_trips (t : Z) (b : bool) :
  In t Tags -> 0 <= t < 2 ^ 24 ->
  round_trips (Boolean (PyBool b) t) (Boolean (PyBool true) t)
    (fun o' => value o' = PyBool b).
Proof.
  intros Hin Ht.
  eapply round_trips_intro.
  - destruct b; vm_compute; reflexivity.
  - unfold write, bind, get_self. mstep.
    match goal with
    | |- context [cls ?o] =>
        replace (cls o) with CBoolean by (destruct b; reflexivity)
    end.
    rewrite (Boolean_write_ok _ _ b)
      by (destruct b; reflexivity || (cbn; lia)).
    cbn [app]. reflexivity.
  - vm_compute. reflexivity.
  - unfold read, bind, get_self. mstep. cbn [cls].
    rewrite <- (app_nil_r (be_encode 8 _)).
    match goal with
    | |- Boolean_read (mkState ?o0 _) = _ =>
        apply (Boolean_read_ok o0 [] b)
    end; try reflexivity; try assumption.
  - reflexivity.
Qed.

(** ** [BigInteger] *)

Lemma BigInteger_write_ok (o : Primitive) (s : list byte) (v : Z) :
  0 <= tag o < 2 ^ 32 -> value o = PyInt v -> BigInteger_width v < 2 ^ 32 ->
  BigInteger_write (mkState o s)
  = (Ok tt,
     mkState (set_length o (Some (BigInteger_width v)))
       (s ++ header (tag o) (type o) (BigInteger_width v)
          ++ be_encode (Z.to_nat (BigInteger_width v)) v)).
Proof.
  intros Ht Hv Hw. pose proof (BigInteger_width_bounds v) as (H8 & _ & _).
  unfold BigInteger_write, bind, get_self at 1. mstep. rewrite Hv.
  cbn [index_of]. unfold lift at 1. rewrite BigInteger_hexadecimal_spec. mstep.
  unfold update_self at 1. mstep. rewrite len_be_encode, Z2Nat.id by lia.
  rewrite (Base_write_ok _ s (BigInteger_width v)) by (assumption || reflexivity || lia).
  mstep. unfold ostream_write. mstep. rewrite <- !app_assoc. reflexivity.
Qed.

Lemma BigInteger_round_trips (t v : Z) :
  In t Tags -> 0 <= t < 2 ^ 24 -> BigInteger_width v < 2 ^ 32 ->
  round_trips (BigInteger (PyInt v) t) (BigInteger (PyInt 0) t)
    (fun o' => value o' = PyInt v).
Proof.
  intros Hin Ht Hw. pose proof (BigInteger_width_bounds v) as (H8 & Hm & _).
  pose proof (BigInteger_in_range v) as Hr.
  eapply round_trips_intro.
  - reflexivity.
  - unfold write, bind, get_self. mstep. cbn [cls].
    rewrite (BigInteger_write_ok _ _ v) by (reflexivity || assumption || (cbn; lia)).
    cbn [app]. reflexivity.
  - vm_compute. reflexivity.
  - unfold read, bind, get_self. mstep. cbn [cls].
    set (vb := be_encode (Z.to_nat (BigInteger_width v)) v).
    assert (len vb = BigInteger_width v) as Hl
      by (subst vb; rewrite len_be_encode; lia).
    rewrite <- (app_nil_r vb), <- Hl.
    match goal with
    | |- BigInteger_read (mkState ?o0 _) = _ =>
        apply (BigInteger_read_ok o0 vb [])
    end; try reflexivity; try assumption; rewrite Hl; assumption || lia.
  - cbn [value set_value]. f_equal. apply be_signed_encode; [lia|].
    rewrite Z2Nat.id by lia. assumption.
Qed.

(** ** [TextString], [ByteString] *)

Lemma encode_char_ascii (c : N) :
  (c < 128)%N -> encode_char c = Ok [byte_of_Z (Z.of_N c)].
Proof.
  intros H. unfold encode_char. cbv zeta.
  destruct (Z.ltb_spec (Z.of_N c) 128); [reflexivity|lia].
Qed.

Lemma str_encode_ascii (s : str) :
  is_ascii s = true -> str_encode s = Ok (ascii_octets s).
Proof.
  induction s as [|c s IH]; intros H; [reflexivity|].
  cbn [is_ascii forallb] in H. apply andb_true_iff in H as [Hc Hs].
  apply N.ltb_lt in Hc. cbn [str_encode]. rewrite encode_char_ascii by assumption.
  rewrite IH by assumption. reflexivity.
Qed.

Lemma ascii_octets_decode (s : str) :
  is_ascii s = true -> map Byte.to_N (ascii_octets s) = s.
Proof.
  induction s as [|c s IH]; intros H; [reflexivity|].
  cbn [is_ascii forallb] in H. apply andb_true_iff in H as [Hc Hs].
  apply N.ltb_lt in Hc. cbn [ascii_octets map]. f_equal; [|now apply IH].
  pose proof (Z_of_byte_of_Z (Z.of_N c)) as E. unfold Z_of_byte in E.
  rewrite Z.mod_small in E by lia. lia.
Qed.

Lemma ascii_octets_small (s : str) :
  is_ascii s = true ->
  Forall (fun b => Z_of_byte b < 128) (ascii_octets s).
Proof.
  induction s as [|c s IH]; intros H; [constructor|].
  cbn [is_ascii forallb] in H. apply andb_true_iff in H as [Hc Hs].
  apply N.ltb_lt in Hc. constructor; [|now apply IH].
  rewrite Z_of_byte_of_Z, Z.mod_small by lia. lia.
Qed.

Lemma len_ascii_octets (s : str) : len (ascii_octets s) = len s.
Proof. unfold len, ascii_octets. now rewrite length_map. Qed.

Lemma TextString_write_chars (s : str) (o : Primitive) (out : list byte) :
  is_ascii s = true ->
  for_each s TextString_write_char (mkState o out)
  = (Ok tt, mkState o (out ++ ascii_octets s)).
Proof.
  revert out. induction s as [|c s IH]; intros out H.
  - cbn. now rewrite app_nil_r.
  - cbn [is_ascii forallb] in H. apply andb_true_iff in H as [Hc Hs].
    apply N.ltb_lt in Hc. cbn [for_each]. unfold bind at 1.
    unfold TextString_write_char, bind, lift, ostream_write.
    rewrite encode_char_ascii by assumption. mstep. cbn [pack_c]. mstep.
    rewrite IH by assumption. cbn [ascii_octets map].
    rewrite <- app_assoc. reflexivity.
Qed.

Lemma write_padding_ok (p : Z) (o : Primitive) (out : list byte) :
  write_padding p (mkState o out)
  = (Ok tt, mkState o (out ++ repeat x00 (Z.to_nat p))).
Proof.
  unfold write_padding, for_range. revert out.
  induction (Z.to_nat p) as [|n IH]; intros out.
  - cbn. now rewrite app_nil_r.
  - cbn [for_times repeat]. unfold bind at 1.
    unfold write_pad, bind, lift, ostream_write. cbn [pack index_of]. mstep.
    cbn [fmt_min fmt_max fmt_signed calcsize Z.leb Z.compare andb Z.of_nat
         Z.mul Pos.mul Z.pow Z.pow_pos Pos.iter Z.sub Z.add Z.opp Z.pos_sub
         Pos.of_succ_nat Pos.pred_double].
    mstep. rewrite IH. rewrite <- app_assoc. reflexivity.
Qed.

Lemma read_padding_ok (p : Z) (o : Primitive) (rest : list byte) :
  0 <= p < PADDING_SIZE ->
  read_padding p (mkState o (repeat x00 (Z.to_nat p) ++ rest))
  = (Ok tt, mkState o rest).
Proof.
  intros Hp. unfold read_padding. destruct (Z.ltb_spec p PADDING_SIZE); [|lia].
  unfold for_range. induction (Z.to_nat p) as [|n IH]; [reflexivity|].
  cbn [for_times repeat]. unfold bind at 1. unfold read_pad, bind.
  change ((x00 :: repeat x00 n) ++ rest) with ([x00] ++ repeat x00 n ++ rest).
  rewrite istream_read_app by reflexivity. mstep.
  unfold lift. rewrite unpack_B_byte. mstep.
  change (Z_of_byte x00 =? 0) with true. cbn [negb]. unfold ret. apply IH.
Qed.

Lemma read_padding_none (o : Primitive) (rest : list byte) :
  read_padding PADDING_SIZE (mkState o rest) = (Ok tt, mkState o rest).
Proof. reflexivity. Qed.

(** The padding [__init__] derives is the spec's [(8 - length mod 8) mod 8]. *)
Lemma derive_length_str (o : Primitive) (s : str) :
  value o = PyStr s ->
  derive_length o
  = set_padding_length (set_length o (Some (len s)))
      (Some ((8 - len s mod 8) mod 8)).
Proof.
  intros Hv. destruct o as [c E t0 ty l va p ps en]. cbn [value] in Hv. subst va.
  cbv beta iota zeta delta
    [derive_length set_length set_padding_length value is_None negb value_len
     option_map length padding_length cls ENUM_TYPE tag type pack_string enum
     PADDING_SIZE].
  destruct (Z.eqb_spec (8 - len s mod 8) 8) as [E8|E8];
    do 2 f_equal; Z.div_mod_to_equations; lia.
Qed.

Lemma derive_length_bytes (o : Primitive) (bs : list byte) :
  value o = PyBytes bs ->
  derive_length o
  = set_padding_length (set_length o (Some (len bs)))
      (Some ((8 - len bs mod 8) mod 8)).
Proof.
  intros Hv. destruct o as [c E t0 ty l va p ps en]. cbn [value] in Hv. subst va.
  cbv beta iota zeta delta
    [derive_length set_length set_padding_length value is_None negb value_len
     option_map length padding_length cls ENUM_TYPE tag type pack_string enum
     PADDING_SIZE].
  destruct (Z.eqb_spec (8 - len bs mod 8) 8) as [E8|E8];
    do 2 f_equal; Z.div_mod_to_equations; lia.
Qed.

Lemma TextString_init (s : str) (t : Z) :
  TextString (PyStr s) t
  = Ok (mkPrimitive CTextString None t TEXT_STRING (Some (len s)) (PyStr s)
          (Some ((8 - len s mod 8) mod 8)) None PyNone).
Proof.
  unfold TextString, TextString___init__. cbn [is_None].
  unfold validate. cbn [cls new Base___init__ set_tag set_type set_length set_value].
  unfold TextString_validate. cbn [value is_None negb type_is_str rbind].
  now rewrite (derive_length_str _ s).
Qed.

Lemma ByteString_init (bs : list byte) (t : Z) :
  ByteString (PyBytes bs) t
  = Ok (mkPrimitive CByteString None t BYTE_STRING (Some (len bs)) (PyBytes bs)
          (Some ((8 - len bs mod 8) mod 8)) None PyNone).
Proof.
  unfold ByteString, ByteString___init__. cbn [is_None bytes_of rbind].
  unfold validate. cbn [cls new Base___init__ set_tag set_type set_length set_value].
  unfold ByteString_validate. cbn [value is_None negb type_is_bytes rbind].
  now rewrite (derive_length_bytes _ bs).
Qed.

Lemma TextString_write_ok (o : Primitive) (out : list byte) (s : str) (p : Z) :
  0 <= tag o < 2 ^ 32 -> value o = PyStr s -> is_ascii s = true ->
  length o = Some (len s) -> len s < 2 ^ 32 -> padding_length o = Some p ->
  TextString_write (mkState o out)
  = (Ok tt,
     mkState o
       (out ++ header (tag o) (type o) (len s) ++ ascii_octets s
          ++ repeat x00 (Z.to_nat p))).
Proof.
  intros Ht Hv Ha Hl Hs Hp. unfold TextString_write, bind.
  rewrite (Base_write_ok o out (len s))
    by (assumption || (pose proof (len_nonneg s); lia)).
  mstep. unfold TextString_write_value, bind, get_self at 1. mstep. rewrite Hv.
  rewrite TextString_write_chars by assumption. mstep. rewrite Hp.
  unfold number, ret. rewrite write_padding_ok. rewrite <- !app_assoc.
  reflexivity.
Qed.

(** The loop that reads the text appends the characters of the ASCII octets
    it reads. *)
Lemma TextString_read_chars (bs rest : list byte) (o : Primitive) (acc : str) :
  Forall (fun b => Z_of_byte b < 128) bs -> value o = PyStr acc ->
  for_times (List.length bs) TextString_read_char (mkState o (bs ++ rest))
  = (Ok tt, mkState (set_value o (PyStr (acc ++ map Byte.to_N bs))) rest).
Proof.
  revert o acc. induction bs as [|b bs IH]; intros o acc Hs Hv.
  - cbn. rewrite app_nil_r. destruct o. cbn in Hv. subst. reflexivity.
  - inversion Hs as [|? ? Hb Hbs]; subst. cbn [List.length for_times].
    unfold bind at 1. unfold TextString_read_char at 1, bind.
    change ((b :: bs) ++ rest) with ([b] ++ bs ++ rest).
    rewrite istream_read_app by reflexivity. mstep.
    unfold lift. cbn [unpack_c]. mstep. unfold decode_byte.
    destruct (Z.ltb_spec (Z_of_byte b) 128); [|lia]. mstep.
    unfold update_self, value_iadd. mstep. rewrite Hv.
    rewrite (IH _ (acc ++ [Byte.to_N b])) by (assumption || reflexivity).
    cbn [map]. rewrite <- app_assoc. destruct o; reflexivity.
Qed.

Lemma TextString_read_ok (o : Primitive) (bs rest : list byte) :
  In (tag o) Tags -> 0 <= tag o < 2 ^ 24 -> cls o = CTextString ->
  len bs < 2 ^ 32 -> Forall (fun b => Z_of_byte b < 128) bs ->
  TextString_read
    (mkState o (header (tag o) (type o) (len bs) ++ bs ++ padding (len bs)
                  ++ rest))
  = (Ok tt,
     mkState
       (set_padding_length
          (set_value (set_length o (Some (len bs))) (PyStr (map Byte.to_N bs)))
          (Some (8 - len bs mod 8)))
       rest).
Proof.
  intros Hin Ht Hc Hl Ha. pose proof (len_nonneg bs) as Hn.
  unfold TextString_read, bind.
  rewrite Base_read_ok by (reflexivity || assumption || lia). mstep.
  unfold TextString_read_value, bind, update_self at 1. mstep.
  unfold get_self at 1. mstep. cbn [length set_value set_length number].
  unfold ret at 1, for_range.
  replace (Z.to_nat (len bs)) with (List.length bs) by (unfold len; lia).
  rewrite (TextString_read_chars bs _ _ []) by (assumption || reflexivity).
  mstep. unfold update_self at 1. mstep. unfold get_self at 1. mstep.
  cbn [padding_length set_padding_length number]. unfold ret at 1.
  unfold PADDING_SIZE.
  assert (read_padding (8 - len bs mod 8)
            (mkState
               (set_padding_length
                  (set_value (set_value (set_length o (Some (len bs))) (PyStr []))
                     (PyStr ([] ++ map Byte.to_N bs)))
                  (Some (8 - len bs mod 8)))
               (padding (len bs) ++ rest))
          = (Ok tt,
             mkState
               (set_padding_length
                  (set_value (set_value (set_length o (Some (len bs))) (PyStr []))
                     (PyStr ([] ++ map Byte.to_N bs)))
                  (Some (8 - len bs mod 8)))
               rest)) as ->.
  { unfold padding. destruct (Z.eq_dec (len bs mod 8) 0) as [E|E].
    - rewrite E. reflexivity.
    - replace ((8 - len bs mod 8) mod 8) with (8 - len bs mod 8)
        by (Z.div_mod_to_equations; lia).
      apply read_padding_ok. unfold PADDING_SIZE.
      Z.div_mod_to_equations; lia. }
  mstep. unfold do_validate, bind, get_self, lift. mstep. unfold validate.
  cbn [cls set_padding_length set_value set_length]. rewrite Hc.
  reflexivity.
Qed.

Lemma TextString_round_trips (t : Z) (s : str) :
  In t Tags -> 0 <= t < 2 ^ 24 -> is_ascii s = true -> len s < 2 ^ 32 ->
  round_trips (TextString (PyStr s) t) (TextString PyNone t)
    (fun o' => value o' = PyStr s).
Proof.
  intros Hin Ht Ha Hl.
  eapply round_trips_intro.
  - apply TextString_init.
  - unfold write, bind, get_self. mstep. cbn [cls].
    rewrite (TextString_write_ok _ _ s ((8 - len s mod 8) mod 8))
      by (reflexivity || assumption || (cbn; lia)).
    cbn [app]. reflexivity.
  - vm_compute. reflexivity.
  - unfold read, bind, get_self. mstep. cbn [cls tag type].
    rewrite <- (len_ascii_octets s).
    change (repeat x00 (Z.to_nat ((8 - len (ascii_octets s) mod 8) mod 8)))
      with (padding (len (ascii_octets s))).
    rewrite <- (app_nil_r (padding _)).
    match goal with
    | |- TextString_read (mkState ?o0 _) = _ =>
        apply (TextString_read_ok o0 (ascii_octets s) [])
    end; try reflexivity; try assumption.
    + now rewrite len_ascii_octets.
    + now apply ascii_octets_small.
  - cbn [value set_padding_length set_value]. f_equal.
    now apply ascii_octets_decode.
Qed.

Lemma ByteString_write_bytes (data : list byte) (o : Primitive)
  (out : list byte) :
  for_each data ByteString_write_byte (mkState o out)
  = (Ok tt, mkState o (out ++ data)).
Proof.
  revert out. induction data as [|b data IH]; intros out.
  - cbn. now rewrite app_nil_r.
  - cbn [for_each]. unfold bind at 1.
    unfold ByteString_write_byte, bind, lift, ostream_write.
    rewrite pack_PyInt by (pose proof (Z_of_byte_range b); cbn; lia). mstep.
    cbn [calcsize be_encode app]. rewrite byte_of_Z_of_byte, IH.
    rewrite <- app_assoc. reflexivity.
Qed.

Lemma ByteString_write_ok (o : Primitive) (out bs : list byte) (p : Z) :
  0 <= tag o < 2 ^ 32 -> value o = PyBytes bs ->
  length o = Some (len bs) -> len bs < 2 ^ 32 -> padding_length o = Some p ->
  ByteString_write (mkState o out)
  = (Ok tt,
     mkState o
       (out ++ header (tag o) (type o) (len bs) ++ bs
          ++ repeat x00 (Z.to_nat p))).
Proof.
  intros Ht Hv Hl Hs Hp. unfold ByteString_write, bind.
  rewrite (Base_write_ok o out (len bs))
    by (assumption || (pose proof (len_nonneg bs); lia)).
  mstep. unfold ByteString_write_value, bind, get_self at 1. mstep. rewrite Hv.
  rewrite ByteString_write_bytes. mstep. rewrite Hp.
  unfold number, ret. rewrite write_padding_ok. rewrite <- !app_assoc.
  reflexivity.
Qed.

Lemma ByteString_read_bytes (bs rest : list byte) (o : Primitive)
  (acc : list byte) :
  fold_times (List.length bs) ByteString_read_byte acc (mkState o (bs ++ rest))
  = (Ok (acc ++ bs), mkState o rest).
Proof.
  revert acc. induction bs as [|b bs IH]; intros acc.
  - cbn. now rewrite app_nil_r.
  - cbn [List.length fold_times]. unfold bind at 1.
    unfold ByteString_read_byte at 1, bind.
    change ((b :: bs) ++ rest) with ([b] ++ bs ++ rest).
    rewrite istream_read_app by reflexivity. mstep.
    unfold lift, ret. cbn [index Z.ltb Z.compare Z.to_nat nth_error]. mstep.
    rewrite IH. now rewrite <- app_assoc.
Qed.

Lemma ByteString_read_ok (o : Primitive) (bs rest : list byte) :
  In (tag o) Tags -> 0 <= tag o < 2 ^ 24 -> len bs < 2 ^ 32 ->
  ByteString_read
    (mkState o (header (tag o) (type o) (len bs) ++ bs ++ padding (len bs)
                  ++ rest))
  = (Ok tt,
     mkState
       (set_padding_length
          (set_value (set_length o (Some (len bs))) (PyBytes bs))
          (Some ((8 - len bs mod 8) mod 8)))
       rest).
Proof.
  intros Hin Ht Hl. pose proof (len_nonneg bs) as Hn.
  unfold ByteString_read, bind.
  rewrite Base_read_ok by (reflexivity || assumption || lia). mstep.
  unfold ByteString_read_value, bind, get_self at 1. mstep.
  cbn [length set_length number]. unfold ret at 1.
  replace (Z.to_nat (len bs)) with (List.length bs) by (unfold len; lia).
  rewrite ByteString_read_bytes. mstep. cbn [app].
  unfold update_self at 1. mstep. unfold update_self at 1. mstep.
  unfold get_self at 1. mstep. cbn [padding_length set_padding_length].
  unfold PADDING_SIZE.
  destruct (Z.eqb_spec (8 - len bs mod 8) 8) as [E|E].
  - unfold update_self at 1. mstep. unfold get_self at 1. mstep.
    cbn [padding_length set_padding_length number]. unfold ret at 1.
    assert (len bs mod 8 = 0) as E0 by lia.
    unfold padding. rewrite E0. cbn [Z.sub Z.add Z.opp Z.modulo Z.div_eucl
      Z.pos_div_eucl Z.leb Z.compare Z.ltb Z.mul Pos.compare Pos.compare_cont
      Z.pos_sub Z.to_nat repeat app snd Pos.mul Pos.add Z.succ_double
      Z.double Pos.pred_double Z.pred_double].
    reflexivity.
  - unfold ret at 1. mstep. unfold get_self at 1. mstep.
    cbn [padding_length set_padding_length number]. unfold ret at 1.
    unfold padding.
    replace ((8 - len bs mod 8) mod 8) with (8 - len bs mod 8)
      by (Z.div_mod_to_equations; lia).
    apply read_padding_ok. unfold PADDING_SIZE.
    Z.div_mod_to_equations; lia.
Qed.

Lemma ByteString_round_trips (t : Z) (bs : list byte) :
  In t Tags -> 0 <= t < 2 ^ 24 -> len bs < 2 ^ 32 ->
  round_trips (ByteString (PyBytes bs) t) (ByteString PyNone t)
    (fun o' => value o' = PyBytes bs).
Proof.
  intros Hin Ht Hl.
  eapply round_trips_intro.
  - apply ByteString_init.
  - unfold write, bind, get_self. mstep. cbn [cls].
    rewrite (ByteString_write_ok _ _ bs ((8 - len bs mod 8) mod 8))
      by (reflexivity || assumption || (cbn; lia)).
    cbn [app]. reflexivity.
  - vm_compute. reflexivity.
  - unfold read, bind, get_self. mstep. cbn [cls tag type].
    change (repeat x00 (Z.to_nat ((8 - len bs mod 8) mod 8)))
      with (padding (len bs)).
    rewrite <- (app_nil_r (padding _)).
    match goal with
    | |- ByteString_read (mkState ?o0 _) = _ =>
        apply (ByteString_read_ok o0 bs [])
    end; try reflexivity; try assumption.
  - reflexivity.
Qed.

(** ** The BigInteger value field and the minimal representation *)

Lemma be_encode_zero (k : nat) : be_encode k 0 = repeat x00 k.
Proof.
  induction k as [|k IH]; [reflexivity|]. cbn [be_encode].
  change (0 / 256) with 0. rewrite IH. change (byte_of_Z 0) with x00.
  change [x00] with (repeat x00 1). rewrite <- repeat_app. f_equal. lia.
Qed.

Lemma be_encode_minus_one (k : nat) : be_encode k (-1) = repeat xff k.
Proof.
  induction k as [|k IH]; [reflexivity|]. cbn [be_encode].
  change (-1 / 256) with (-1). rewrite IH. change (byte_of_Z (-1)) with xff.
  change [xff] with (repeat xff 1). rewrite <- repeat_app. f_equal. lia.
Qed.

(** Octets beyond the range of a number repeat its sign. *)
Lemma be_encode_sign_extend (k n : nat) (v : Z) :
  - 2 ^ (8 * Z.of_nat n - 1) <= v < 2 ^ (8 * Z.of_nat n - 1) -> (0 < n)%nat ->
  be_encode (k + n) v = repeat (sign_octet v) k ++ be_encode n v.
Proof.
  intros Hv Hn. rewrite be_encode_app, pow256. f_equal.
  assert (2 ^ (8 * Z.of_nat n) = 2 * 2 ^ (8 * Z.of_nat n - 1)) as E.
  { rewrite <- Z.pow_succ_r by lia. f_equal. lia. }
  assert (0 < 2 ^ (8 * Z.of_nat n - 1)) by (apply Z.pow_pos_nonneg; lia).
  unfold sign_octet. destruct (Z.ltb_spec v 0).
  - replace (v / 2 ^ (8 * Z.of_nat n)) with (-1).
    + apply be_encode_minus_one.
    + apply Z.div_unique with (v + 2 ^ (8 * Z.of_nat n)); lia.
  - rewrite Z.div_small by lia. apply be_encode_zero.
Qed.

Lemma bit_length_unique (a n : Z) :
  0 < a -> 2 ^ (n - 1) <= a < 2 ^ n -> bit_length a = n.
Proof.
  intros Ha H. unfold bit_length. destruct (Z.eqb_spec a 0); [lia|].
  rewrite Z.abs_eq by lia.
  assert (0 <= n - 1).
  { destruct (Z.ltb_spec (n - 1) 0); [|lia].
    destruct (Z.ltb_spec n 0).
    - rewrite (Z.pow_neg_r 2 n) in H by lia. lia.
    - replace n with 0 in H by lia. cbn in H. lia. }
  rewrite (Z.log2_unique a (n - 1)); [lia|lia|].
  now replace (Z.succ (n - 1)) with n by lia.
Qed.

(** The bit length of the predecessor drops exactly at a power of two. *)
Lemma bit_length_pred (a : Z) :
  0 < a ->
  (a = 2 ^ (bit_length a - 1) /\ bit_length (a - 1) = bit_length a - 1) \/
  (a <> 2 ^ (bit_length a - 1) /\ bit_length (a - 1) = bit_length a).
Proof.
  intros Ha. pose proof (bit_length_bound a) as Hu.
  pose proof (bit_length_low a ltac:(lia)) as Hl.
  rewrite Z.abs_eq in Hu, Hl by lia.
  assert (1 <= bit_length a) as H1.
  { unfold bit_length. destruct (Z.eqb_spec a 0); [lia|].
    pose proof (Z.log2_nonneg (Z.abs a)). lia. }
  destruct (Z.eq_dec a (2 ^ (bit_length a - 1))) as [E|E]; [left|right];
    split; try assumption.
  - destruct (Z.eq_dec (bit_length a) 1) as [E1|E1].
    + rewrite E1 in *. cbn in E. subst a. reflexivity.
    + apply bit_length_unique.
      * assert (2 ^ 1 <= 2 ^ (bit_length a - 1))
          by (apply Z.pow_le_mono_r; lia).
        cbn in *. lia.
      * replace (bit_length a - 1) with (Z.succ (bit_length a - 1 - 1)) in E
          by lia.
        rewrite Z.pow_succ_r in E by lia.
        assert (0 < 2 ^ (bit_length a - 1 - 1))
          by (apply Z.pow_pos_nonneg; lia).
        split; [lia|].
        replace (bit_length a - 1) with (Z.succ (bit_length a - 1 - 1)) by lia.
        rewrite Z.pow_succ_r by lia. lia.
  - apply bit_length_unique; [|lia].
    assert (0 < 2 ^ (bit_length a - 1)) by (apply Z.pow_pos_nonneg; lia). lia.
Qed.

Lemma min_octets_pos (v : Z) : 1 <= min_octets v.
Proof.
  unfold min_octets.
  pose proof (bit_length_nonneg (if v <? 0 then - v - 1 else v)).
  Z.div_mod_to_equations. lia.
Qed.

(** A number lies in the two's-complement range of [min_octets] octets. *)
Lemma min_octets_range (v : Z) :
  - 2 ^ (8 * min_octets v - 1) <= v < 2 ^ (8 * min_octets v - 1).
Proof.
  unfold min_octets. set (m := if v <? 0 then - v - 1 else v).
  pose proof (bit_length_bound m) as Hb. pose proof (bit_length_nonneg m) as Hn.
  assert (2 ^ bit_length m <= 2 ^ (8 * ((bit_length m + 8) / 8) - 1)).
  { apply Z.pow_le_mono_r; [lia|]. Z.div_mod_to_equations. lia. }
  subst m. destruct (Z.ltb_spec v 0); rewrite Z.abs_eq in Hb by lia; lia.
Qed.

(** The boundary of the minimal representation, by bit lengths. *)
Lemma boundary8_min_octets (v : Z) :
  boundary8 (min_octets v)
  = 8 * (bit_length (if v <? 0 then - v - 1 else v) / 64 + 1).
Proof.
  unfold boundary8, min_octets.
  pose proof (bit_length_nonneg (if v <? 0 then - v - 1 else v)).
  Z.div_mod_to_equations. lia.
Qed.

Lemma BigInteger_width_boundary (v : Z) :
  (extra_word v /\ BigInteger_width v = boundary8 (min_octets v) + 8) \/
  (~ extra_word v /\ BigInteger_width v = boundary8 (min_octets v)).
Proof.
  rewrite boundary8_min_octets. unfold BigInteger_width.
  destruct (Z.ltb_spec v 0) as [Hneg|Hpos].
  - rewrite <- (bit_length_abs v). rewrite Z.abs_neq by lia.
    replace (- v - 1) with (- v - 1 + 0) by lia.
    replace (- v - 1 + 0) with ((- v) - 1) by lia.
    set (a := - v) in *. assert (0 < a) as Ha by lia.
    assert (1 <= bit_length a) as H1.
    { unfold bit_length. destruct (Z.eqb_spec a 0); [lia|].
      pose proof (Z.log2_nonneg (Z.abs a)). lia. }
    destruct (bit_length_pred a Ha) as [[E Hp]|[E Hp]]; rewrite Hp.
    + destruct (Z.eq_dec (bit_length a mod 64) 0) as [Hm|Hm].
      * left. split.
        -- exists (bit_length a / 64). split.
           ++ Z.div_mod_to_equations. lia.
           ++ replace (64 * (bit_length a / 64)) with (bit_length a)
                by (Z.div_mod_to_equations; lia).
              lia.
        -- Z.div_mod_to_equations. lia.
      * right. split.
        -- intros (k & Hk & Ev).
           assert (bit_length a = 64 * k) as Ek.
           { apply bit_length_unique; [lia|].
             replace a with (2 ^ (64 * k - 1)) by lia.
             split; [lia|]. apply Z.pow_lt_mono_r; lia. }
           rewrite Ek in Hm. rewrite Z.mul_comm, Z.mod_mul in Hm by lia. lia.
        -- Z.div_mod_to_equations. lia.
    + right. split; [|reflexivity].
      intros (k & Hk & Ev).
      assert (bit_length a = 64 * k) as Ek.
      { apply bit_length_unique; [lia|].
        replace a with (2 ^ (64 * k - 1)) by lia.
        split; [lia|]. apply Z.pow_lt_mono_r; lia. }
      apply E. rewrite Ek. lia.
  - right. split; [|reflexivity].
    intros (k & Hk & Ev).
    assert (0 < 2 ^ (64 * k - 1)) by (apply Z.pow_pos_nonneg; lia). lia.
Qed.

(** The octets [write] builds are the minimal representation extended by
    sign octets to [BigInteger_width] octets. *)
Lemma BigInteger_hexadecimal_sign_extended (v : Z) :
  BigInteger_hexadecimal v = Ok (sign_extended (BigInteger_width v) v).
Proof.
  rewrite BigInteger_hexadecimal_spec. f_equal. unfold sign_extended.
  pose proof (min_octets_pos v) as Hp. pose proof (min_octets_range v) as Hr.
  assert (min_octets v <= BigInteger_width v) as Hle.
  { destruct (BigInteger_width_boundary v) as [[_ ->]|[_ ->]];
      unfold boundary8; Z.div_mod_to_equations; lia. }
  replace (Z.to_nat (BigInteger_width v))
    with (Z.to_nat (BigInteger_width v - min_octets v)
          + Z.to_nat (min_octets v))%nat by lia.
  apply be_encode_sign_extend; [|lia].
  rewrite Z2Nat.id by lia. assumption.
Qed.

(** ** The claims *)

(** C3 (amended).  For every integer [v], [BigInteger] encoding writes the
    minimal two's-complement big-endian representation of [v] left-padded
    with sign-extension octets (0x00 for a non-negative, 0xFF for a negative
    number) to [8 * (bit_length |v| / 64 + 1)] octets.  That is the nearest
    8-octet boundary, except for [v = - 2 ^ (64 k - 1)], where eight 0xFF
    octets more are written.  The value is always at least 8 octets long, a
    multiple of 8 and never empty, and [v = 0] encodes as exactly 8 zero
    octets. *)
Theorem BigInteger_encoding_sign_extended (t v : Z) :
  0 <= t < 2 ^ 32 -> BigInteger_width v < 2 ^ 32 ->
  exists o w,
    BigInteger (PyInt v) t = Ok o /\
    encode o = Ok (header t BIG_INTEGER w ++ sign_extended w v) /\
    w = 8 * (bit_length v / 64 + 1) /\ 8 <= w /\ w mod 8 = 0 /\
    (~ extra_word v -> sign_extended w v = spec_BigInteger v) /\
    (extra_word v -> sign_extended w v = repeat xff 8 ++ spec_BigInteger v) /\
    (v = 0 -> sign_extended w v = repeat x00 8).
Proof.
  intros Ht Hw. pose proof (BigInteger_width_bounds v) as (H8 & Hm & _).
  eexists. exists (BigInteger_width v). split; [reflexivity|].
  split; [|split; [reflexivity|split; [assumption|split; [assumption|]]]].
  - unfold encode, write, bind, get_self. mstep. cbn [cls].
    rewrite (BigInteger_write_ok _ _ v) by (reflexivity || assumption).
    mstep. cbn [app tag type]. f_equal. f_equal.
    pose proof (BigInteger_hexadecimal_sign_extended v) as E.
    rewrite BigInteger_hexadecimal_spec in E. now injection E.
  - destruct (BigInteger_width_boundary v) as [[He Hb]|[He Hb]].
    + split; [intros Hn; contradiction|]. split.
      * intros _. unfold spec_BigInteger, sign_extended. rewrite Hb.
        destruct He as (k & Hk & ->).
        assert (0 < 2 ^ (64 * k - 1)) by (apply Z.pow_pos_nonneg; lia).
        unfold sign_octet. destruct (Z.ltb_spec (- 2 ^ (64 * k - 1)) 0); [|lia].
        rewrite app_assoc, <- repeat_app. do 2 f_equal.
        pose proof (min_octets_pos (- 2 ^ (64 * k - 1))).
        assert (min_octets (- 2 ^ (64 * k - 1))
                <= boundary8 (min_octets (- 2 ^ (64 * k - 1))))
          by (unfold boundary8; Z.div_mod_to_equations; lia).
        lia.
      * intros ->. exfalso. destruct He as (k & Hk & Ev).
        assert (0 < 2 ^ (64 * k - 1)) by (apply Z.pow_pos_nonneg; lia). lia.
    + split; [intros _; unfold spec_BigInteger; now rewrite Hb|].
      split; [intros Hn; contradiction|]. intros ->. reflexivity.
Qed.

(** The integers [Integer.__init__] accepts, whatever the mode. *)
Lemma Integer_construction (v t : Z) (signed : bool) :
  Integer (PyInt v) t signed
  = if (Integer_MIN <=? v) && (v <=? Integer_MAX)
    then Ok (mkPrimitive CInteger None t INTEGER (Some 4) (PyInt v) (Some 4)
               (Some (if signed then fmt_i else fmt_I)) PyNone)
    else Raise ValueError.
Proof. unfold Integer. now rewrite Integer_init_ok by (now left). Qed.

(** C5 (amended).  For an [Integer] constructed in unsigned mode,
    construction succeeds exactly for the integer values in
    [-2^31, 2^31 - 1], the bounds [Integer.MIN] and [Integer.MAX] that
    [validate] applies whatever the mode, and fails with a range error
    ([ValueError]) for every integer value outside that range. *)
Theorem Integer_unsigned_construction (v t : Z) :
  Integer (PyInt v) t false
  = if (- 2 ^ 31 <=? v) && (v <=? 2 ^ 31 - 1)
    then Ok (mkPrimitive CInteger None t INTEGER (Some 4) (PyInt v) (Some 4)
               (Some fmt_I) PyNone)
    else Raise ValueError.
Proof. apply Integer_construction. Qed.

Lemma be_signed_unpack_i (v4 : list byte) :
  List.length v4 = 4%nat -> unpack fmt_i v4 = Ok (be_signed v4).
Proof.
  intros H. unfold unpack, be_signed, len. rewrite H. cbn [calcsize Nat.eqb].
  cbn [fmt_signed andb].
  destruct (2 ^ (8 * Z.of_nat 4 - 1) <=? be_decode v4); reflexivity.
Qed.

(** C4 (amended).  [Interval] has the wire encoding of a signed 32-bit
    [Integer] and differs only in the type octet (0x0A): for every value in
    [-2^31, 2^31 - 1], so for every value in [0, 2^31 - 1], constructing
    an [Interval] succeeds and encoding writes the value as 4 big-endian
    octets (in two's complement) followed by 4 zero pad octets, which is the
    encoding of the [Integer] of that value but for the type octet; decoding
    reads the 4 value octets as a signed number. *)
Theorem Interval_wire_encoding (t v : Z) :
  In t Tags -> 0 <= t < 2 ^ 24 -> - 2 ^ 31 <= v <= 2 ^ 31 - 1 ->
  (exists o i,
     Interval (PyInt v) t = Ok o /\ Integer (PyInt v) t true = Ok i /\
     encode o = Ok (header t INTERVAL 4 ++ be_encode 4 v ++ repeat x00 4) /\
     encode i = Ok (header t INTEGER 4 ++ be_encode 4 v ++ repeat x00 4)) /\
  (forall v4 : list byte,
     List.length v4 = 4%nat ->
     exists o0 o',
       Interval PyNone t = Ok o0 /\
       decode o0 (header t INTERVAL 4 ++ v4 ++ repeat x00 4) = Ok (o', []) /\
       value o' = PyInt (be_signed v4)).
Proof.
  intros Hin Ht Hv. change (- 2 ^ 31) with Integer_MIN in Hv.
  change (2 ^ 31 - 1) with Integer_MAX in Hv.
  split.
  - eexists. eexists. split; [|split; [|split]].
    + rewrite Interval_init. unfold Integer_MIN, Integer_MAX in *. zbool.
      cbn [andb]. reflexivity.
    + rewrite Integer_construction. unfold Integer_MIN, Integer_MAX in *. zbool.
      cbn [andb]. reflexivity.
    + unfold encode, write, bind, get_self. mstep. cbn [cls].
      rewrite (Integer_write_ok _ _ fmt_i v)
        by (reflexivity || (unfold Integer_MIN, Integer_MAX in *; cbn; lia)).
      reflexivity.
    + unfold encode, write, bind, get_self. mstep. cbn [cls].
      rewrite (Integer_write_ok _ _ fmt_i v)
        by (reflexivity || (unfold Integer_MIN, Integer_MAX in *; cbn; lia)).
      reflexivity.
  - intros v4 Hl. eexists. eexists. split; [vm_compute; reflexivity|].
    unfold decode, read, bind, get_self. mstep. cbn [cls].
    change (repeat x00 4) with (be_encode 4 0).
    rewrite <- (app_nil_r (be_encode 4 0)).
    match goal with
    | |- context [Integer_read (mkState ?o0 _)] =>
        pose proof (Integer_read_ok o0 fmt_i v4 [] (be_signed v4)) as E
    end.
    cbn [tag type] in E. rewrite E; try reflexivity; try assumption.
    + split; reflexivity.
    + now apply be_signed_unpack_i.
    + pose proof (unpack_range fmt_i v4 _ (be_signed_unpack_i v4 Hl)) as R.
      cbn in R. unfold validate, Integer_validate. cbn.
      unfold Integer_MIN, Integer_MAX. zbool. reflexivity.
Qed.

(** C6 (amended).  For every [TextString] constructed from a string of
    ASCII characters (each of which UTF-8 encodes as one octet), the length
    written in the header equals the number of UTF-8 encoded octets of the
    value, and the value octets on the wire are followed by
    [(8 - length mod 8) mod 8] zero pad octets, none when the length is a
    multiple of 8. *)
Theorem TextString_length_and_padding (t : Z) (s : str) :
  0 <= t < 2 ^ 32 -> is_ascii s = true -> len s < 2 ^ 32 ->
  exists o bs,
    TextString (PyStr s) t = Ok o /\ str_encode s = Ok bs /\
    length o = Some (len bs) /\
    encode o = Ok (header t TEXT_STRING (len bs) ++ bs ++ padding (len bs)).
Proof.
  intros Ht Ha Hl. eexists. exists (ascii_octets s).
  split; [apply TextString_init|]. split; [now apply str_encode_ascii|].
  rewrite len_ascii_octets. split; [reflexivity|].
  unfold encode, write, bind, get_self. mstep. cbn [cls].
  rewrite (TextString_write_ok _ _ s ((8 - len s mod 8) mod 8))
    by (reflexivity || assumption).
  reflexivity.
Qed.

(** ** Encoding what was decoded *)

Lemma reencodes_intro (blank : result Primitive) (b : list byte)
  (o0 o' o1 : Primitive) :
  blank = Ok o0 -> read (mkState o0 b) = (Ok tt, mkState o' []) ->
  write (mkState o' []) = (Ok tt, mkState o1 b) ->
  reencodes blank b.
Proof.
  intros Hb Hr Hw. exists o0, o'. unfold encode, decode.
  rewrite Hr, Hw. cbn [stream self]. auto.
Qed.

Lemma be_encode_unpack (f : format) (bs : list byte) (v : Z) :
  unpack f bs = Ok v -> be_encode (calcsize f) v = bs.
Proof.
  intros H. pose proof (pack_unpack f bs v H) as E.
  rewrite pack_PyInt in E by (eapply unpack_range; eauto). now injection E.
Qed.

Lemma be_encode_signed (bs : list byte) :
  be_encode (List.length bs) (be_signed bs) = bs.
Proof.
  unfold be_signed, len.
  destruct (2 ^ (8 * Z.of_nat (List.length bs) - 1) <=? be_decode bs).
  - rewrite be_encode_wrap. apply be_encode_decode.
  - apply be_encode_decode.
Qed.

(** Both directions for the classes that share [Integer.read] and
    [Integer.write]: what the object holds after reading, and that writing
    it gives the octets back. *)
Lemma Integer_reencode (o0 : Primitive) (f : format) (v4 : list byte) (v : Z) :
  In (tag o0) Tags -> 0 <= tag o0 < 2 ^ 24 ->
  pack_string o0 = Some f -> calcsize f = 4%nat ->
  padding_length o0 = Some Integer_LENGTH ->
  unpack f v4 = Ok v ->
  validate (set_value (set_length o0 (Some 4)) (PyInt v)) = Ok tt ->
  let b := header (tag o0) (type o0) 4 ++ v4 ++ repeat x00 4 in
  let o' := set_value (set_length o0 (Some 4)) (PyInt v) in
  Integer_read (mkState o0 b) = (Ok tt, mkState o' []) /\
  Integer_write (mkState o' []) = (Ok tt, mkState o' b).
Proof.
  intros Hin Ht Hf Hc Hp Hu Hval b o'. subst b o'. split.
  - change (repeat x00 4) with (be_encode 4 0).
    rewrite <- (app_nil_r (be_encode 4 0)).
    now apply (Integer_read_ok o0 f v4 [] v).
  - rewrite (Integer_write_ok _ _ f v); try assumption; try reflexivity.
    + cbn [app]. rewrite <- Hc, (be_encode_unpack f v4 v Hu), Hc. reflexivity.
    + cbn [tag set_value set_length]. lia.
    + eapply unpack_range; eauto.
Qed.

Lemma Integer_reencodes (t : Z) (v4 : list byte) :
  In t Tags -> 0 <= t < 2 ^ 24 -> List.length v4 = 4%nat ->
  reencodes (Integer PyNone t true) (header t INTEGER 4 ++ v4 ++ repeat x00 4).
Proof.
  intros Hin Ht Hl.
  pose proof (be_signed_unpack_i v4 Hl) as Hu.
  pose proof (unpack_range _ _ _ Hu) as R. cbn in R.
  eapply reencodes_intro; [vm_compute; reflexivity| |].
  - unfold read, bind, get_self. mstep. cbn [cls].
    match goal with
    | |- Integer_read (mkState ?o0 _) = _ =>
        apply (Integer_reencode o0 fmt_i v4 (be_signed v4))
    end; try reflexivity; try assumption.
    unfold validate, Integer_validate. cbn.
    unfold Integer_MIN, Integer_MAX. zbool. reflexivity.
  - unfold write, bind, get_self. mstep. cbn [cls set_value set_length].
    match goal with
    | |- Integer_write (mkState (set_value (set_length ?o0 _) _) _) = _ =>
        apply (Integer_reencode o0 fmt_i v4 (be_signed v4))
    end; try reflexivity; try assumption.
    unfold validate, Integer_validate. cbn.
    unfold Integer_MIN, Integer_MAX. zbool. reflexivity.
Qed.

Lemma Interval_reencodes (t : Z) (v4 : list byte) :
  In t Tags -> 0 <= t < 2 ^ 24 -> List.length v4 = 4%nat ->
  reencodes (Interval PyNone t) (header t INTERVAL 4 ++ v4 ++ repeat x00 4).
Proof.
  intros Hin Ht Hl.
  pose proof (be_signed_unpack_i v4 Hl) as Hu.
  pose proof (unpack_range _ _ _ Hu) as R. cbn in R.
  eapply reencodes_intro; [vm_compute; reflexivity| |].
  - unfold read, bind, get_self. mstep. cbn [cls].
    match goal with
    | |- Integer_read (mkState ?o0 _) = _ =>
        apply (Integer_reencode o0 fmt_i v4 (be_signed v4))
    end; try reflexivity; try assumption.
    unfold validate, Integer_validate. cbn.
    unfold Integer_MIN, Integer_MAX. zbool. reflexivity.
  - unfold write, bind, get_self. mstep. cbn [cls set_value set_length].
    match goal with
    | |- Integer_write (mkState (set_value (set_length ?o0 _) _) _) = _ =>
        apply (Integer_reencode o0 fmt_i v4 (be_signed v4))
    end; try reflexivity; try assumption.
    unfold validate, Integer_validate. cbn.
    unfold Integer_MIN, Integer_MAX. zbool. reflexivity.
Qed.

Lemma unpack_I_decode (v4 : list byte) :
  List.length v4 = 4%nat -> unpack fmt_I v4 = Ok (be_decode v4).
Proof. intros H. unfold unpack. rewrite H. reflexivity. Qed.

Lemma Enumeration_reencodes (t : Z) (E : EnumType) (v4 : list byte)
  (name : string) :
  In t Tags -> 0 <= t < 2 ^ 24 -> List.length v4 = 4%nat ->
  find (fun m => snd m =? be_decode v4) E = Some (name, be_decode v4) ->
  reencodes (Enumeration (Some E) PyNone t)
    (header t ENUMERATION 4 ++ v4 ++ repeat x00 4).
Proof.
  intros Hin Ht Hl Hfind.
  pose proof (unpack_I_decode v4 Hl) as Hu.
  pose proof (unpack_range _ _ _ Hu) as R. cbn in R.
  eapply reencodes_intro; [vm_compute; reflexivity| |].
  - unfold read, bind, get_self. mstep. cbn [cls].
    change (repeat x00 4) with (be_encode 4 0).
    rewrite <- (app_nil_r (be_encode 4 0)).
    match goal with
    | |- Enumeration_read (mkState ?o0 _) = _ =>
        apply (Enumeration_read_ok o0 E v4 [] name (be_decode v4))
    end; try reflexivity; try assumption. now right.
  - unfold write, bind, get_self. mstep.
    cbn [cls set_enum set_value set_length]. unfold Enumeration_write.
    rewrite (Integer_write_ok _ _ fmt_I (be_decode v4));
      try reflexivity; try (cbn; lia).
    cbn [app tag type].
    pose proof (be_encode_unpack fmt_I v4 _ Hu) as Eb. cbn [calcsize] in Eb.
    rewrite Eb. reflexivity.
Qed.

Lemma unpack_q_signed (v8 : list byte) :
  List.length v8 = 8%nat -> unpack fmt_q v8 = Ok (be_signed v8).
Proof.
  intros H. unfold unpack, be_signed, len. rewrite H. cbn [calcsize Nat.eqb].
  cbn [fmt_signed andb].
  destruct (2 ^ (8 * Z.of_nat 8 - 1) <=? be_decode v8); reflexivity.
Qed.

Lemma LongInteger_reencode (o0 : Primitive) (v8 : list byte) :
  In (tag o0) Tags -> 0 <= tag o0 < 2 ^ 24 ->
  cls o0 = CLongInteger \/ cls o0 = CDateTime ->
  List.length v8 = 8%nat ->
  let b := header (tag o0) (type o0) 8 ++ v8 in
  let o' := set_value (set_length o0 (Some 8)) (PyInt (be_signed v8)) in
  LongInteger_read (mkState o0 b) = (Ok tt, mkState o' []) /\
  LongInteger_write (mkState o' []) = (Ok tt, mkState o' b).
Proof.
  intros Hin Ht Hc Hl b o'. subst b o'.
  pose proof (unpack_q_signed v8 Hl) as Hu.
  pose proof (unpack_range _ _ _ Hu) as R. cbn in R.
  split.
  - rewrite <- (app_nil_r v8) at 1.
    apply (LongInteger_read_ok o0 v8 [] (be_signed v8)); try assumption.
    unfold validate. cbn [cls set_value set_length].
    assert (LongInteger_validate
              (set_value (set_length o0 (Some 8)) (PyInt (be_signed v8)))
            = Ok tt) as Hv.
    { unfold LongInteger_validate. cbn.
      unfold LongInteger_MIN, LongInteger_MAX. zbool. reflexivity. }
    destruct Hc as [-> | ->]; exact Hv.
  - rewrite (LongInteger_write_ok _ _ (be_signed v8)); try reflexivity.
    + cbn [app tag type set_value set_length].
      pose proof (be_encode_unpack fmt_q v8 _ Hu) as Eb. cbn [calcsize] in Eb.
      rewrite Eb. reflexivity.
    + cbn [tag set_value set_length]. lia.
    + unfold LongInteger_MIN, LongInteger_MAX. lia.
Qed.

Lemma LongInteger_reencodes (t : Z) (v8 : list byte) :
  In t Tags -> 0 <= t < 2 ^ 24 -> List.length v8 = 8%nat ->
  reencodes (LongInteger (PyInt 0) t) (header t LONG_INTEGER 8 ++ v8).
Proof.
  intros Hin Ht Hl.
  eapply reencodes_intro; [vm_compute; reflexivity| |].
  - unfold read, bind, get_self. mstep. cbn [cls].
    match goal with
    | |- LongInteger_read (mkState ?o0 _) = _ =>
        apply (LongInteger_reencode o0 v8)
    end; try reflexivity; try assumption. now left.
  - unfold write, bind, get_self. mstep. cbn [cls set_value set_length].
    match goal with
    | |- LongInteger_write (mkState (set_value (set_length ?o0 _) _) _) = _ =>
        apply (LongInteger_reencode o0 v8)
    end; try reflexivity; try assumption. now left.
Qed.

Lemma DateTime_reencodes (t : Z) (v8 : list byte) :
  In t Tags -> 0 <= t < 2 ^ 24 -> List.length v8 = 8%nat ->
  reencodes (DateTime PyNone t) (header t DATE_TIME 8 ++ v8).
Proof.
  intros Hin Ht Hl.
  eapply reencodes_intro; [vm_compute; reflexivity| |].
  - unfold read, bind, get_self. mstep. cbn [cls].
    match goal with
    | |- LongInteger_read (mkState ?o0 _) = _ =>
        apply (LongInteger_reencode o0 v8)
    end; try reflexivity; try assumption. now right.
  - unfold write, bind, get_self. mstep. cbn [cls set_value set_length].
    match goal with
    | |- LongInteger_write (mkState (set_value (set_length ?o0 _) _) _) = _ =>
        apply (LongInteger_reencode o0 v8)
    end; try reflexivity; try assumption. now right.
Qed.

Lemma Boolean_reencodes (t : Z) (b : bool) :
  In t Tags -> 0 <= t < 2 ^ 24 ->
  reencodes (Boolean (PyBool true) t)
    (header t BOOLEAN 8 ++ be_encode 8 (Z_of_bool b)).
Proof.
  intros Hin Ht.
  eapply reencodes_intro; [vm_compute; reflexivity| |].
  - unfold read, bind, get_self. mstep. cbn [cls].
    rewrite <- (app_nil_r (be_encode 8 _)).
    match goal with
    | |- Boolean_read (mkState ?o0 _) = _ => apply (Boolean_read_ok o0 [] b)
    end; try reflexivity; try assumption.
  - unfold write, bind, get_self. mstep. cbn [cls set_value set_length].
    rewrite (Boolean_write_ok _ _ b) by (reflexivity || (cbn; lia)).
    reflexivity.
Qed.

Lemma BigInteger_reencodes (t : Z) (vb : list byte) :
  In t Tags -> 0 <= t < 2 ^ 24 ->
  0 < len vb < 2 ^ 32 -> len vb mod 8 = 0 ->
  len vb = BigInteger_width (be_signed vb) ->
  reencodes (BigInteger (PyInt 0) t) (header t BIG_INTEGER (len vb) ++ vb).
Proof.
  intros Hin Ht Hl Hm Hw.
  eapply reencodes_intro; [vm_compute; reflexivity| |].
  - unfold read, bind, get_self. mstep. cbn [cls].
    rewrite <- (app_nil_r vb) at 2.
    match goal with
    | |- BigInteger_read (mkState ?o0 _) = _ =>
        apply (BigInteger_read_ok o0 vb [])
    end; try reflexivity; try assumption.
  - unfold write, bind, get_self. mstep. cbn [cls set_value set_length].
    rewrite (BigInteger_write_ok _ _ (be_signed vb))
      by (reflexivity || (cbn; lia) || (rewrite <- Hw; lia)).
    cbn [app tag type set_value set_length]. rewrite <- Hw.
    replace (Z.to_nat (len vb)) with (List.length vb) by (unfold len; lia).
    rewrite be_encode_signed. reflexivity.
Qed.

Lemma octets_ascii (bs : list byte) :
  Forall (fun b => Z_of_byte b < 128) bs ->
  is_ascii (map Byte.to_N bs) = true /\ ascii_octets (map Byte.to_N bs) = bs.
Proof.
  induction 1 as [|b bs Hb _ [IH1 IH2]]; [split; reflexivity|].
  cbn [map is_ascii forallb ascii_octets]. unfold is_ascii in IH1.
  unfold ascii_octets in IH2. rewrite IH1, IH2. split.
  - rewrite andb_true_r. apply N.ltb_lt. unfold Z_of_byte in Hb. lia.
  - f_equal. apply byte_of_Z_of_byte.
Qed.

Lemma TextString_reencodes (t : Z) (bs : list byte) :
  In t Tags -> 0 <= t < 2 ^ 24 ->
  Forall (fun b => Z_of_byte b < 128) bs -> len bs < 2 ^ 32 ->
  len bs mod 8 <> 0 ->
  reencodes (TextString PyNone t)
    (header t TEXT_STRING (len bs) ++ bs ++ padding (len bs)).
Proof.
  intros Hin Ht Ha Hl Hm. destruct (octets_ascii bs Ha) as [Hasc Hoct].
  eapply reencodes_intro; [vm_compute; reflexivity| |].
  - unfold read, bind, get_self. mstep. cbn [cls].
    rewrite <- (app_nil_r (padding _)).
    match goal with
    | |- TextString_read (mkState ?o0 _) = _ =>
        apply (TextString_read_ok o0 bs [])
    end; try reflexivity; try assumption.
  - unfold write, bind, get_self. mstep.
    cbn [cls set_padding_length set_value set_length].
    rewrite (TextString_write_ok _ _ (map Byte.to_N bs) (8 - len bs mod 8));
      try reflexivity; try assumption; try (cbn; lia).
    + cbn [app tag type]. rewrite Hoct.
      replace (len (map Byte.to_N bs)) with (len bs)
        by (unfold len; now rewrite length_map).
      unfold padding.
      replace ((8 - len bs mod 8) mod 8) with (8 - len bs mod 8)
        by (Z.div_mod_to_equations; lia).
      reflexivity.
    + cbn [length]. unfold len. now rewrite length_map.
    + unfold len. rewrite length_map. exact Hl.
Qed.

Lemma ByteString_reencodes (t : Z) (bs : list byte) :
  In t Tags -> 0 <= t < 2 ^ 24 -> len bs < 2 ^ 32 ->
  reencodes (ByteString PyNone t)
    (header t BYTE_STRING (len bs) ++ bs ++ padding (len bs)).
Proof.
  intros Hin Ht Hl.
  eapply reencodes_intro; [vm_compute; reflexivity| |].
  - unfold read, bind, get_self. mstep. cbn [cls].
    rewrite <- (app_nil_r (padding _)).
    match goal with
    | |- ByteString_read (mkState ?o0 _) = _ =>
        apply (ByteString_read_ok o0 bs [])
    end; try reflexivity; try assumption.
  - unfold write, bind, get_self. mstep.
    cbn [cls set_padding_length set_value set_length].
    rewrite (ByteString_write_ok _ _ bs ((8 - len bs mod 8) mod 8));
      try reflexivity; try assumption; try (cbn; lia).
Qed.

(** What [TextString.read] leaves behind when the length is a multiple of 8:
    a padding length of 8, so that [write] then adds eight zero octets. *)
Lemma TextString_reencode_aligned (t : Z) (bs : list byte) :
  In t Tags -> 0 <= t < 2 ^ 24 ->
  Forall (fun b => Z_of_byte b < 128) bs -> len bs < 2 ^ 32 ->
  len bs mod 8 = 0 ->
  let b := header t TEXT_STRING (len bs) ++ bs in
  exists o0 o',
    TextString PyNone t = Ok o0 /\ decode o0 b = Ok (o', []) /\
    padding_length o' = Some 8 /\ encode o' = Ok (b ++ repeat x00 8).
Proof.
  intros Hin Ht Ha Hl Hm b. subst b. destruct (octets_ascii bs Ha) as [Hasc Hoct].
  eexists. eexists. split; [vm_compute; reflexivity|].
  unfold decode, read, bind, get_self. mstep. cbn [cls].
  match goal with
  | |- context [TextString_read (mkState ?o0 _)] =>
      pose proof (TextString_read_ok o0 bs [] Hin Ht eq_refl Hl Ha) as E
  end.
  unfold padding in E. rewrite Hm in E. cbn [tag type] in E.
  change (repeat x00 (Z.to_nat ((8 - 0) mod 8)) ++ []) with (@nil byte) in E.
  rewrite app_nil_r in E. rewrite E. mstep.
  split; [reflexivity|]. split; [reflexivity|].
  unfold encode, write, bind, get_self. mstep.
  cbn [cls set_padding_length set_value set_length].
  rewrite (TextString_write_ok _ _ (map Byte.to_N bs) 8);
    try reflexivity; try assumption; try (cbn; lia).
  - mstep. cbn [app tag type]. rewrite Hoct.
    replace (len (map Byte.to_N bs)) with (len bs)
      by (unfold len; now rewrite length_map).
    rewrite <- app_assoc. reflexivity.
  - cbn [length]. unfold len. now rewrite length_map.
  - unfold len. rewrite length_map. exact Hl.
Qed.

(** ** Header decoding on any stream *)

Lemma be_decode_leading_zero (bs : list byte) :
  be_decode (x00 :: bs) = be_decode bs.
Proof.
  change (x00 :: bs) with ([x00] ++ bs). rewrite be_decode_app.
  change (be_decode [x00]) with 0. lia.
Qed.

Lemma read_tag_spec (o : Primitive) (a b c : byte) (rest : list byte) :
  read_tag (mkState o (a :: b :: c :: rest))
  = (match Tags_of (be_decode [a; b; c]) with
     | Ok enum_tag =>
         if enum_tag =? tag o then Ok tt else Raise ReadValueError
     | Raise e => Raise e
     end,
     mkState o rest).
Proof.
  unfold read_tag, bind.
  change (a :: b :: c :: rest) with ([a; b; c] ++ rest).
  rewrite istream_read_app by reflexivity. mstep.
  rewrite slice_prefix by (unfold len, TAG_SIZE; cbn; lia). unfold lift at 1.
  unfold unpack. cbn [List.length calcsize Nat.eqb fmt_signed andb].
  rewrite be_decode_leading_zero. mstep. unfold lift at 1.
  destruct (Tags_of (be_decode [a; b; c])) as [enum_tag|e]; [|reflexivity].
  mstep. unfold get_self. mstep.
  destruct (enum_tag =? tag o); reflexivity.
Qed.

Lemma read_tag_short (o : Primitive) (s : list byte) :
  (List.length s < 3)%nat ->
  read_tag (mkState o s) = (Raise struct_error, mkState o []).
Proof.
  intros H. destruct s as [|a [|b [|c s]]]; try (cbn in H; lia);
    reflexivity.
Qed.

Lemma read_type_spec (o : Primitive) (d : byte) (rest : list byte) :
  read_type (mkState o (d :: rest))
  = (match Types_of (Z_of_byte d) with
     | Ok enum_typ =>
         if Types_eqb enum_typ (type o) then Ok tt else Raise ReadValueError
     | Raise e => Raise e
     end,
     mkState o rest).
Proof.
  unfold read_type, bind.
  change (d :: rest) with ([d] ++ rest).
  rewrite istream_read_app by reflexivity. mstep.
  change (len [d] =? TYPE_SIZE) with true. cbn [negb]. mstep.
  unfold lift at 1. rewrite unpack_B_byte. mstep. unfold lift at 1.
  destruct (Types_of (Z_of_byte d)) as [enum_typ|e]; [|reflexivity].
  mstep. unfold get_self. mstep.
  destruct (Types_eqb enum_typ (type o)); reflexivity.
Qed.

Lemma read_type_short (o : Primitive) :
  read_type (mkState o []) = (Raise ReadValueError, mkState o []).
Proof. reflexivity. Qed.

Lemma read_length_short (o : Primitive) (s : list byte) :
  (List.length s < 4)%nat ->
  read_length (mkState o s) = (Raise ReadValueError, mkState o []).
Proof.
  intros H. destruct s as [|a [|b [|c [|d s]]]]; try (cbn in H; lia);
    reflexivity.
Qed.

Lemma read_length_spec (o : Primitive) (a b c d : byte) (rest : list byte) :
  read_length (mkState o (a :: b :: c :: d :: rest))
  = (Ok tt, mkState (set_length o (Some (be_decode [a; b; c; d]))) rest).
Proof. reflexivity. Qed.

Lemma Types_of_other (z : Z) :
  (forall ty, Types_value ty <> z) -> Types_of z = Raise ValueError.
Proof.
  intros H. unfold Types_of.
  destruct (find (fun t => Types_value t =? z) Types_members) as [ty|] eqn:E;
    [|reflexivity].
  apply find_some in E as [_ E]. apply Z.eqb_eq in E. now apply H in E.
Qed.

Lemma Types_of_inv (z : Z) (ty : Types) :
  Types_of z = Ok ty -> Types_value ty = z.
Proof.
  unfold Types_of.
  destruct (find (fun t => Types_value t =? z) Types_members) as [ty'|] eqn:E;
    [|discriminate].
  intros [= <-]. apply find_some in E as [_ E]. now apply Z.eqb_eq in E.
Qed.

Lemma Tags_of_inv (z e : Z) : Tags_of z = Ok e -> e = z /\ In z Tags.
Proof.
  unfold Tags_of. destruct (existsb (Z.eqb z) Tags) eqn:E; [|discriminate].
  intros [= <-]. split; [reflexivity|].
  apply existsb_exists in E as (x & Hx & E). apply Z.eqb_eq in E. now subst.
Qed.

(** The outcome of header decoding on a stream of at least three octets. *)
Lemma Base_read_spec (o : Primitive) (a b c : byte) (rest : list byte) :
  fst (Base_read (mkState o (a :: b :: c :: rest)))
  = match Tags_of (be_decode [a; b; c]) with
    | Raise e => Raise e
    | Ok enum_tag =>
        if enum_tag =? tag o then
          match rest with
          | [] => Raise ReadValueError
          | d :: rest' =>
              match Types_of (Z_of_byte d) with
              | Raise e => Raise e
              | Ok enum_typ =>
                  if Types_eqb enum_typ (type o) then
                    if (List.length rest' <? 4)%nat then Raise ReadValueError
                    else Ok tt
                  else Raise ReadValueError
              end
          end
        else Raise ReadValueError
    end.
Proof.
  unfold Base_read, bind. rewrite read_tag_spec.
  destruct (Tags_of (be_decode [a; b; c])) as [enum_tag|e]; [|reflexivity].
  destruct (enum_tag =? tag o); [|reflexivity]. mstep.
  destruct rest as [|d rest']; [reflexivity|]. rewrite read_type_spec.
  destruct (Types_of (Z_of_byte d)) as [enum_typ|e]; [|reflexivity].
  destruct (Types_eqb enum_typ (type o)); [|reflexivity]. mstep.
  destruct (Nat.ltb_spec (List.length rest') 4) as [Hs|Hs].
  - now rewrite read_length_short.
  - destruct rest' as [|x [|y [|z [|w r]]]]; try (cbn in Hs; lia).
    reflexivity.
Qed.

(** C7 (amended).  Given the three octets of the tag, header decoding fails
    with [ReadValueError] in exactly these cases: the decoded tag is a
    member of [Tags] that differs from the expected tag; or the tag matches
    and no octet is left for the type, or the type octet is a member of
    [Types] that differs from the expected type, or the type matches and
    fewer than the four octets of the length are left.  (A tag or type
    outside its enumeration raises [ValueError] instead.) *)
Theorem header_ReadValueError_cases (o : Primitive) (a b c : byte)
  (rest : list byte) :
  fst (Base_read (mkState o (a :: b :: c :: rest))) = Raise ReadValueError
  <->
  (In (be_decode [a; b; c]) Tags /\ be_decode [a; b; c] <> tag o) \/
  (In (be_decode [a; b; c]) Tags /\ be_decode [a; b; c] = tag o /\
   (rest = [] \/
    (exists d rest' ty,
       rest = d :: rest' /\ Types_value ty = Z_of_byte d /\ ty <> type o) \/
    (exists d rest',
       rest = d :: rest' /\ Types_value (type o) = Z_of_byte d /\
       (List.length rest' < 4)%nat))).
Proof.
  rewrite Base_read_spec.
  destruct (Tags_of (be_decode [a; b; c])) as [enum_tag|e] eqn:Et.
  - apply Tags_of_inv in Et as [-> Hin].
    destruct (Z.eqb_spec (be_decode [a; b; c]) (tag o)) as [Etag|Etag].
    + destruct rest as [|d rest'].
      * split; [intros _; right; auto|reflexivity].
      * destruct (Types_of (Z_of_byte d)) as [enum_typ|e] eqn:Ety.
        -- apply Types_of_inv in Ety.
           destruct (Types_eqb enum_typ (type o)) eqn:Eq.
           ++ apply Types_eqb_eq in Eq. subst enum_typ.
              destruct (Nat.ltb_spec (List.length rest') 4) as [Hs|Hs].
              ** split; [intros _|reflexivity]. right. repeat split; auto.
                 right. right. exists d, rest'. auto.
              ** split; [discriminate|].
                 intros [[_ H]|(_ & _ & [H|[(d' & r' & ty & [= <- <-] & Hv & Hne)
                                           |(d' & r' & [= <- <-] & _ & Hl)]])];
                   try congruence; try lia.
                 exfalso. apply Hne. rewrite <- Hv in Ety.
                 destruct ty, (type o); cbn in Ety; congruence.
           ++ split; [intros _|reflexivity]. right. repeat split; auto.
              right. left. exists d, rest', enum_typ. repeat split; auto.
              intros ->. assert (Types_eqb (type o) (type o) = true)
                by now apply Types_eqb_eq.
              congruence.
        -- assert (e = ValueError) as ->.
           { unfold Types_of in Ety. destruct (find _ _); congruence. }
           split; [discriminate|].
           intros [[_ H]|(_ & _ & [H|[(d' & r' & ty & [= <- <-] & Hv & Hne)
                                     |(d' & r' & [= <- <-] & Hv & Hl)]])];
             try congruence.
           ++ rewrite <- Hv, Types_of_value in Ety. discriminate.
           ++ rewrite <- Hv, Types_of_value in Ety. discriminate.
    + split; [intros _; left; auto|reflexivity].
  - assert (e = ValueError /\ ~ In (be_decode [a; b; c]) Tags) as [-> Hnin].
    { unfold Tags_of in Et.
      destruct (existsb (Z.eqb (be_decode [a; b; c])) Tags) eqn:E;
        [discriminate|].
      split; [congruence|]. intros Hin.
      assert (existsb (Z.eqb (be_decode [a; b; c])) Tags = true)
        by (apply existsb_exists; eexists; split; [eassumption|apply Z.eqb_refl]).
      congruence. }
    split; [discriminate|]. intros [[H _]|[H _]]; contradiction.
Qed.

(** C10.  If the three tag octets read decode to a number that is no member
    of [Tags], header decoding raises [ValueError], not [ReadValueError],
    whatever tag is expected: the conversion comes before the comparison.
    Likewise [read_type] raises [ValueError] for a type octet that is no
    member of [Types], whatever type is expected, and so does header
    decoding once the tag has matched. *)
Theorem header_ValueError_outside_enum :
  (forall (o : Primitive) (a b c : byte) (rest : list byte),
     ~ In (be_decode [a; b; c]) Tags ->
     read_tag (mkState o (a :: b :: c :: rest))
     = (Raise ValueError, mkState o rest) /\
     fst (Base_read (mkState o (a :: b :: c :: rest))) = Raise ValueError) /\
  (forall (o : Primitive) (d : byte) (rest : list byte),
     (forall ty, Types_value ty <> Z_of_byte d) ->
     read_type (mkState o (d :: rest)) = (Raise ValueError, mkState o rest)) /\
  (forall (o : Primitive) (a b c d : byte) (rest : list byte),
     In (tag o) Tags -> be_decode [a; b; c] = tag o ->
     (forall ty, Types_value ty <> Z_of_byte d) ->
     fst (Base_read (mkState o (a :: b :: c :: d :: rest)))
     = Raise ValueError).
Proof.
  split; [|split].
  - intros o a b c rest H. rewrite Base_read_spec, read_tag_spec.
    now rewrite Tags_of_other.
  - intros o d rest H. rewrite read_type_spec. now rewrite Types_of_other.
  - intros o a b c d rest Hin E H. rewrite Base_read_spec, E.
    rewrite Tags_of_member, Z.eqb_refl by assumption.
    now rewrite Types_of_other.
Qed.

(** ** [BigInteger] lengths, [Boolean] values *)

Lemma BigInteger_read_bad_length (o : Primitive) (l : Z) (rest : list byte) :
  In (tag o) Tags -> 0 <= tag o < 2 ^ 24 -> type o = BIG_INTEGER ->
  0 <= l < 2 ^ 32 -> l mod 8 <> 0 ->
  BigInteger_read (mkState o (header (tag o) BIG_INTEGER l ++ rest))
  = (Raise InvalidPrimitiveLength, mkState (set_length o (Some l)) rest).
Proof.
  intros Hin Ht Hty Hl Hm. unfold BigInteger_read, bind.
  rewrite Base_read_ok by assumption. mstep.
  unfold get_self at 1. mstep. cbn [length set_length number]. unfold ret at 1.
  destruct (Z.eqb_spec (l mod 8) 0); [contradiction|]. reflexivity.
Qed.

(** C8.  The claim fails at a length of zero, which the code does not
    refuse: zero passes the test [length % 8], no octet is read, and
    [binary[0]] on the empty string raises [IndexError], not
    [InvalidPrimitiveLength]. *)
Theorem BigInteger_read_zero_length (o : Primitive) (rest : list byte) :
  In (tag o) Tags -> 0 <= tag o < 2 ^ 24 -> type o = BIG_INTEGER ->
  BigInteger_read (mkState o (header (tag o) BIG_INTEGER 0 ++ rest))
  = (Raise IndexError, mkState (set_length o (Some 0)) rest).
Proof.
  intros Hin Ht Hty. unfold BigInteger_read, bind.
  rewrite Base_read_ok by (assumption || lia). reflexivity.
Qed.

(** What [Boolean.__init__] accepts: [validate] looks at the type of a value
    only when the value is true. *)
Lemma Boolean_construction (v : pyval) (t : Z) :
  Boolean v t
  = if truthy v && negb (isinstance_bool v) then Raise TypeError
    else Ok (mkPrimitive CBoolean None t BOOLEAN (Some 8) v None None PyNone).
Proof.
  unfold Boolean, Boolean___init__, validate, Boolean_validate.
  cbn [cls new Base___init__ set_tag set_type set_length set_value value].
  destruct (truthy v), (isinstance_bool v); reflexivity.
Qed.

(** C9.  The claim fails at the values that are false: [0], the empty
    string and [None] are no [bool], and constructing a [Boolean] from them
    succeeds; a true value that is no [bool], such as [1], is refused with
    [TypeError]. *)
Theorem Boolean_accepts_false_values (t : Z) :
  Boolean (PyInt 0) t
  = Ok (mkPrimitive CBoolean None t BOOLEAN (Some 8) (PyInt 0) None None PyNone)
  /\ Boolean (PyStr []) t
     = Ok (mkPrimitive CBoolean None t BOOLEAN (Some 8) (PyStr []) None None
             PyNone)
  /\ Boolean PyNone t
     = Ok (mkPrimitive CBoolean None t BOOLEAN (Some 8) PyNone None None PyNone)
  /\ Boolean (PyInt 1) t = Raise TypeError.
Proof. repeat split. Qed.
(** ** Round trips *)

(** C1 (amended).  For every primitive variant and every value [v] the
    class can construct and encode, decoding the octets produced by
    encoding a primitive that holds [v] (with the same tag and type
    expected) yields a primitive whose value equals [v].  The values are:
    for [Integer] and [Interval] the integers of [-2^31, 2^31 - 1]; for
    [LongInteger] and [DateTime] those of [-2^63, 2^63 - 1]; for
    [BigInteger] every integer whose encoded length fits the 32-bit length
    field; for [Enumeration] the members of [ENUM_TYPE] with a value in
    [0, 2^32 - 1]; for [Boolean] both truth values; for [TextString] the
    strings of ASCII characters and for [ByteString] all byte strings, of
    fewer than 2^32 octets. *)
Theorem decode_encode_round_trip (t : Z) :
  In t Tags -> 0 <= t < 2 ^ 24 ->
  (forall v, - 2 ^ 31 <= v <= 2 ^ 31 - 1 ->
     round_trips (Integer (PyInt v) t true) (Integer PyNone t true)
       (fun o' => value o' = PyInt v)) /\
  (forall v, - 2 ^ 63 <= v <= 2 ^ 63 - 1 ->
     round_trips (LongInteger (PyInt v) t) (LongInteger (PyInt 0) t)
       (fun o' => value o' = PyInt v)) /\
  (forall v, BigInteger_width v < 2 ^ 32 ->
     round_trips (BigInteger (PyInt v) t) (BigInteger (PyInt 0) t)
       (fun o' => value o' = PyInt v)) /\
  (forall (E : EnumType) (name : string) (code : Z),
     0 <= code <= 2 ^ 32 - 1 ->
     find (fun m => snd m =? code) E = Some (name, code) ->
     round_trips (Enumeration (Some E) (PyEnum name code) t)
       (Enumeration (Some E) PyNone t)
       (fun o' => enum o' = PyEnum name code /\ value o' = PyInt code)) /\
  (forall b : bool,
     round_trips (Boolean (PyBool b) t) (Boolean (PyBool true) t)
       (fun o' => value o' = PyBool b)) /\
  (forall s : str, is_ascii s = true -> len s < 2 ^ 32 ->
     round_trips (TextString (PyStr s) t) (TextString PyNone t)
       (fun o' => value o' = PyStr s)) /\
  (forall bs : list byte, len bs < 2 ^ 32 ->
     round_trips (ByteString (PyBytes bs) t) (ByteString PyNone t)
       (fun o' => value o' = PyBytes bs)) /\
  (forall v, - 2 ^ 63 <= v <= 2 ^ 63 - 1 ->
     round_trips (DateTime (PyInt v) t) (DateTime PyNone t)
       (fun o' => value o' = PyInt v)) /\
  (forall v, - 2 ^ 31 <= v <= 2 ^ 31 - 1 ->
     round_trips (Interval (PyInt v) t) (Interval PyNone t)
       (fun o' => value o' = PyInt v)).
Proof.
  intros Hin Ht.
  split; [|split; [|split; [|split; [|split; [|split; [|split; [|split]]]]]]];
    intros.
  - now apply Integer_round_trips.
  - now apply LongInteger_round_trips.
  - now apply BigInteger_round_trips.
  - match goal with
    | |- round_trips (Enumeration (Some ?E) (PyEnum ?n ?c) _) _ _ =>
        now apply (Enumeration_round_trips E n c t)
    end.
  - now apply Boolean_round_trips.
  - now apply TextString_round_trips.
  - now apply ByteString_round_trips.
  - now apply DateTime_round_trips.
  - now apply Interval_round_trips.
Qed.

(** C2 (amended).  For every primitive variant and every encoded byte
    sequence [b] with a correct header, a variant-legal length and zero
    padding that the class decodes, encoding the primitive obtained by
    decoding [b] reproduces [b] octet for octet, where for [BigInteger] the
    value field of [b] has the length the encoder gives its value (a longer
    sign extension decodes to the same value and is encoded shorter), and
    for [TextString] the length is no multiple of 8.  The octets are: any 4
    value octets and 4 zero octets for [Integer] and [Interval], and for
    [Enumeration] when the value is a member of [ENUM_TYPE]; any 8 octets
    for [LongInteger] and [DateTime]; the 8 octets of 0 or 1 for
    [Boolean]; ASCII octets for [TextString] and any octets for
    [ByteString], zero padded to a multiple of 8. *)
Theorem encode_decode_reproduces (t : Z) :
  In t Tags -> 0 <= t < 2 ^ 24 ->
  (forall v4 : list byte, List.length v4 = 4%nat ->
     reencodes (Integer PyNone t true)
       (header t INTEGER 4 ++ v4 ++ repeat x00 4)) /\
  (forall v8 : list byte, List.length v8 = 8%nat ->
     reencodes (LongInteger (PyInt 0) t) (header t LONG_INTEGER 8 ++ v8)) /\
  (forall vb : list byte,
     0 < len vb < 2 ^ 32 -> len vb mod 8 = 0 ->
     len vb = BigInteger_width (be_signed vb) ->
     reencodes (BigInteger (PyInt 0) t)
       (header t BIG_INTEGER (len vb) ++ vb)) /\
  (forall (E : EnumType) (v4 : list byte) (name : string),
     List.length v4 = 4%nat ->
     find (fun m => snd m =? be_decode v4) E = Some (name, be_decode v4) ->
     reencodes (Enumeration (Some E) PyNone t)
       (header t ENUMERATION 4 ++ v4 ++ repeat x00 4)) /\
  (forall b : bool,
     reencodes (Boolean (PyBool true) t)
       (header t BOOLEAN 8 ++ be_encode 8 (Z_of_bool b))) /\
  (forall bs : list byte,
     Forall (fun b => Z_of_byte b < 128) bs -> len bs < 2 ^ 32 ->
     len bs mod 8 <> 0 ->
     reencodes (TextString PyNone t)
       (header t TEXT_STRING (len bs) ++ bs ++ padding (len bs))) /\
  (forall bs : list byte, len bs < 2 ^ 32 ->
     reencodes (ByteString PyNone t)
       (header t BYTE_STRING (len bs) ++ bs ++ padding (len bs))) /\
  (forall v8 : list byte, List.length v8 = 8%nat ->
     reencodes (DateTime PyNone t) (header t DATE_TIME 8 ++ v8)) /\
  (forall v4 : list byte, List.length v4 = 4%nat ->
     reencodes (Interval PyNone t)
       (header t INTERVAL 4 ++ v4 ++ repeat x00 4)).
Proof.
  intros Hin Ht.
  split; [|split; [|split; [|split; [|split; [|split; [|split; [|split]]]]]]];
    intros.
  - now apply Integer_reencodes.
  - now apply LongInteger_reencodes.
  - now apply BigInteger_reencodes.
  - match goal with
    | H : find _ ?E = Some (?n, _) |- _ =>
        now apply (Enumeration_reencodes t E _ n)
    end.
  - now apply Boolean_reencodes.
  - now apply TextString_reencodes.
  - now apply ByteString_reencodes.
  - now apply DateTime_reencodes.
  - now apply Interval_reencodes.
Qed.

(** ** Further properties *)

(** [BigInteger.read] refuses every length that is no multiple of 8 with
    [InvalidPrimitiveLength] before it reads the value, and for a positive
    multiple of 8 reads exactly that many octets as a signed number. *)
Theorem BigInteger_read_lengths (o : Primitive) (l : Z) (vb rest : list byte) :
  In (tag o) Tags -> 0 <= tag o < 2 ^ 24 -> type o = BIG_INTEGER ->
  0 <= l < 2 ^ 32 ->
  (l mod 8 <> 0 ->
   BigInteger_read (mkState o (header (tag o) BIG_INTEGER l ++ rest))
   = (Raise InvalidPrimitiveLength, mkState (set_length o (Some l)) rest)) /\
  (l mod 8 = 0 -> 0 < l -> len vb = l ->
   BigInteger_read (mkState o (header (tag o) BIG_INTEGER l ++ vb ++ rest))
   = (Ok tt,
      mkState (set_value (set_length o (Some l)) (PyInt (be_signed vb))) rest)).
Proof.
  intros Hin Ht Hty Hl. split.
  - intros Hm. now apply BigInteger_read_bad_length.
  - intros Hm Hp <-. apply BigInteger_read_ok; assumption || lia.
Qed.

(** A [TextString] decoded from a length that is a multiple of 8 keeps a
    padding length of 8, where [__init__] and [ByteString.read_value] set 0:
    encoding it again appends eight zero octets to what was decoded. *)
Theorem TextString_read_aligned_padding (t : Z) (bs : list byte) :
  In t Tags -> 0 <= t < 2 ^ 24 ->
  Forall (fun b => Z_of_byte b < 128) bs -> len bs < 2 ^ 32 ->
  len bs mod 8 = 0 ->
  exists o0 o',
    TextString PyNone t = Ok o0 /\
    decode o0 (header t TEXT_STRING (len bs) ++ bs) = Ok (o', []) /\
    padding_length o' = Some 8 /\
    encode o' = Ok ((header t TEXT_STRING (len bs) ++ bs) ++ repeat x00 8).
Proof. intros. now apply TextString_reencode_aligned. Qed.

(** Constructing a [Boolean] raises [TypeError] exactly for the values that
    are true and no [bool]. *)
Theorem Boolean_construction_TypeError (v : pyval) (t : Z) :
  Boolean v t = Raise TypeError
  <-> truthy v = true /\ isinstance_bool v = false.
Proof.
  rewrite Boolean_construction.
  destruct (truthy v), (isinstance_bool v); cbn; split;
    intros H; try discriminate; try tauto; destruct H; discriminate.
Qed.

(** An [Enumeration] is not range checked: [Enumeration.validate] replaces
    [Integer.validate], so a member with any value constructs, and encoding
    fails in [struct.pack] when the value is outside [0, 2^32 - 1]. *)
Theorem Enumeration_construction (E : EnumType) (name : string) (code t : Z) :
  exists o,
    Enumeration (Some E) (PyEnum name code) t = Ok o /\
    value o = PyInt code /\
    (~ 0 <= code <= 2 ^ 32 - 1 -> 0 <= t < 2 ^ 32 ->
     encode o = Raise struct_error).
Proof.
  eexists. split; [apply Enumeration_init|]. split; [reflexivity|].
  intros Hc Ht. unfold encode, write, bind, get_self. mstep. cbn [cls].
  unfold Enumeration_write, Integer_write, bind.
  rewrite (Base_write_ok _ _ 4) by (reflexivity || (cbn; lia)). mstep.
  unfold Integer_write_value, bind, get_self, the_format, lift, ret. mstep.
  cbn [pack_string value]. unfold pack. cbn [index_of].
  unfold fmt_min, fmt_max. cbn [fmt_signed calcsize].
  change (2 ^ (8 * Z.of_nat 4) - 1) with (2 ^ 32 - 1).
  destruct (Z.leb_spec 0 code), (Z.leb_spec code (2 ^ 32 - 1));
    cbn [andb]; try reflexivity. lia.
Qed.

(** ** Lookahead *)

Lemma stream_peek_some (o : Primitive) (s : list byte) (n : Z) :
  stream_peek (Some n) (mkState o s)
  = (Ok (firstn (Z.to_nat n) s), mkState o s).
Proof. reflexivity. Qed.

(** What [is_tag_next] answers, on any stream. *)
Lemma is_tag_next_spec (t : Z) (o : Primitive) (s : list byte) :
  is_tag_next t (mkState o s)
  = (Ok (match s with
         | a :: b :: c :: _ => be_decode [a; b; c] =? t
         | _ => false
         end),
     mkState o s).
Proof.
  unfold is_tag_next, bind. rewrite stream_peek_some. mstep.
  destruct s as [|a [|b [|c rest]]]; try reflexivity.
  change (firstn (Z.to_nat TAG_SIZE) (a :: b :: c :: rest)) with [a; b; c].
  change (len [a; b; c] =? TAG_SIZE) with true. cbn [negb]. unfold lift.
  unfold unpack. cbn [List.length calcsize Nat.eqb fmt_signed andb].
  rewrite be_decode_leading_zero. mstep.
  destruct (be_decode [a; b; c] =? t); reflexivity.
Qed.

(** What [is_type_next] answers, on any stream. *)
Lemma is_type_next_spec (ty : Types) (o : Primitive) (s : list byte) :
  is_type_next ty (mkState o s)
  = (Ok (match s with
         | _ :: _ :: _ :: d :: _ => Z_of_byte d =? Types_value ty
         | _ => false
         end),
     mkState o s).
Proof.
  unfold is_type_next, bind. cbv zeta. rewrite stream_peek_some. mstep.
  destruct s as [|a [|b [|c [|d rest]]]]; try reflexivity.
  change (firstn (Z.to_nat (TAG_SIZE + TYPE_SIZE)) (a :: b :: c :: d :: rest))
    with [a; b; c; d].
  change (len [a; b; c; d] =? TAG_SIZE + TYPE_SIZE) with true. cbn [negb].
  change (slice [a; b; c; d] TAG_SIZE None) with [d].
  unfold lift. rewrite unpack_B_byte. mstep.
  destruct (Z_of_byte d =? Types_value ty); reflexivity.
Qed.

(** [is_tag_next] answers without consuming, and answers true for the tag
    an object expects exactly when [read_tag] then succeeds, on the same
    three octets. *)
Theorem is_tag_next_predicts_read_tag (o : Primitive) (s : list byte) :
  In (tag o) Tags ->
  exists b : bool,
    is_tag_next (tag o) (mkState o s) = (Ok b, mkState o s) /\
    (b = true <-> read_tag (mkState o s) = (Ok tt, mkState o (skipn 3 s))).
Proof.
  intros Hin. rewrite is_tag_next_spec. eexists. split; [reflexivity|].
  destruct s as [|a [|b [|c rest]]];
    try (rewrite read_tag_short by (cbn; lia); split; discriminate).
  rewrite read_tag_spec. cbn [skipn].
  destruct (Z.eqb_spec (be_decode [a; b; c]) (tag o)) as [E|E].
  - rewrite E, Tags_of_member, Z.eqb_refl by assumption. tauto.
  - split; [discriminate|].
    destruct (Tags_of (be_decode [a; b; c])) as [e|e] eqn:Et;
      [|discriminate].
    apply Tags_of_inv in Et as [-> _].
    destruct (Z.eqb_spec (be_decode [a; b; c]) (tag o)); [contradiction|].
    discriminate.
Qed.

Lemma Types_of_eqb (z : Z) (ty : Types) :
  match Types_of z with
  | Ok enum_typ => Types_eqb enum_typ ty
  | Raise _ => false
  end = (z =? Types_value ty).
Proof.
  destruct (Types_of z) as [e|e] eqn:E.
  - apply Types_of_inv in E. subst z. reflexivity.
  - destruct (Z.eqb_spec z (Types_value ty)) as [->|]; [|reflexivity].
    rewrite Types_of_value in E. discriminate.
Qed.

(** The two lookahead predicates together, asked for the tag and the type
    an object expects, tell whether its header read succeeds: it does
    exactly when both answer true and the four octets of the length
    follow. *)
Theorem lookahead_predicts_header (o : Primitive) (s : list byte) :
  In (tag o) Tags ->
  exists b_tag b_type : bool,
    is_tag_next (tag o) (mkState o s) = (Ok b_tag, mkState o s) /\
    is_type_next (type o) (mkState o s) = (Ok b_type, mkState o s) /\
    (fst (Base_read (mkState o s)) = Ok tt
     <-> b_tag = true /\ b_type = true /\ (8 <= List.length s)%nat).
Proof.
  intros Hin. rewrite is_tag_next_spec, is_type_next_spec.
  do 2 eexists. split; [reflexivity|]. split; [reflexivity|].
  destruct s as [|a [|b [|c rest]]].
  - unfold Base_read, bind. rewrite read_tag_short by (cbn; lia).
    cbn. split; [discriminate|intros (H & _); discriminate].
  - unfold Base_read, bind. rewrite read_tag_short by (cbn; lia).
    cbn. split; [discriminate|intros (H & _); discriminate].
  - unfold Base_read, bind. rewrite read_tag_short by (cbn; lia).
    cbn. split; [discriminate|intros (H & _); discriminate].
  - rewrite Base_read_spec.
    destruct (Z.eqb_spec (be_decode [a; b; c]) (tag o)) as [E|E].
    + rewrite E, Tags_of_member, Z.eqb_refl by assumption.
      destruct rest as [|d rest'];
        [split; [discriminate|intros (_ & H & _); discriminate]|].
      pose proof (Types_of_eqb (Z_of_byte d) (type o)) as Ht.
      destruct (Types_of (Z_of_byte d)) as [e|e].
      * rewrite <- Ht. destruct (Types_eqb e (type o)).
        -- destruct (Nat.ltb_spec (List.length rest') 4) as [Hs|Hs].
           ++ split; [discriminate|]. intros (_ & _ & H). cbn in H. lia.
           ++ split; [intros _|reflexivity]. repeat split. cbn. lia.
        -- split; [discriminate|intros (_ & H & _); discriminate].
      * rewrite <- Ht.
        split; [discriminate|intros (_ & H & _); discriminate].
    + split; [|intros (H & _); discriminate].
      destruct (Tags_of (be_decode [a; b; c])) as [e|e] eqn:Et;
        [|discriminate].
      apply Tags_of_inv in Et as [-> _].
      destruct (Z.eqb_spec (be_decode [a; b; c]) (tag o)); [contradiction|].
      discriminate.
Qed.

(** ** Decoding within a longer stream *)

Lemma frames_intro (mk blank : result Primitive) (P : Primitive -> Prop)
  (o o1 o0 o' : Primitive) (bs : list byte) :
  mk = Ok o ->
  (forall out, write (mkState o out) = (Ok tt, mkState o1 (out ++ bs))) ->
  blank = Ok o0 ->
  (forall rest, read (mkState o0 (bs ++ rest)) = (Ok tt, mkState o' rest)) ->
  P o' ->
  frames mk blank P.
Proof. intros Hmk Hw Hb Hr HP. exists o, o1, bs, o0, o'. auto. Qed.

Lemma Integer_frames (t v : Z) :
  In t Tags -> 0 <= t < 2 ^ 24 -> Integer_MIN <= v <= Integer_MAX ->
  frames (Integer (PyInt v) t true) (Integer PyNone t true)
    (fun o' => value o' = PyInt v).
Proof.
  intros Hin Ht Hv. unfold Integer_MIN, Integer_MAX in Hv.
  eapply frames_intro.
  - unfold Integer. rewrite Integer_init_ok by (now left).
    unfold Integer_MIN, Integer_MAX. zbool. cbn [andb]. reflexivity.
  - intros out. unfold write, bind, get_self. mstep. cbn [cls new].
    rewrite (Integer_write_ok _ _ fmt_i v) by (reflexivity || (cbn; lia)).
    reflexivity.
  - vm_compute. reflexivity.
  - intros rest. unfold read, bind, get_self. mstep. cbn [cls new].
    rewrite <- !app_assoc.
    match goal with
    | |- Integer_read (mkState ?o0 _) = _ =>
        apply (Integer_read_ok o0 fmt_i (be_encode 4 v) rest v)
    end; try reflexivity; try assumption.
    + apply (unpack_pack fmt_i). cbn. lia.
    + cbn. unfold Integer_MIN, Integer_MAX. zbool. reflexivity.
  - reflexivity.
Qed.

Lemma Interval_frames (t v : Z) :
  In t Tags -> 0 <= t < 2 ^ 24 -> Integer_MIN <= v <= Integer_MAX ->
  frames (Interval (PyInt v) t) (Interval PyNone t)
    (fun o' => value o' = PyInt v).
Proof.
  intros Hin Ht Hv. unfold Integer_MIN, Integer_MAX in Hv.
  eapply frames_intro.
  - rewrite Interval_init. unfold Integer_MIN, Integer_MAX. zbool.
    cbn [andb]. reflexivity.
  - intros out. unfold write, bind, get_self. mstep. cbn [cls].
    rewrite (Integer_write_ok _ _ fmt_i v) by (reflexivity || (cbn; lia)).
    reflexivity.
  - vm_compute. reflexivity.
  - intros rest. unfold read, bind, get_self. mstep. cbn [cls].
    rewrite <- !app_assoc.
    match goal with
    | |- Integer_read (mkState ?o0 _) = _ =>
        apply (Integer_read_ok o0 fmt_i (be_encode 4 v) rest v)
    end; try reflexivity; try assumption.
    + apply (unpack_pack fmt_i). cbn. lia.
    + cbn. unfold Integer_MIN, Integer_MAX. zbool. reflexivity.
  - reflexivity.
Qed.

Lemma Enumeration_frames (E : EnumType) (name : string) (code t : Z) :
  In t Tags -> 0 <= t < 2 ^ 24 -> 0 <= code <= 2 ^ 32 - 1 ->
  find (fun m => snd m =? code) E = Some (name, code) ->
  frames (Enumeration (Some E) (PyEnum name code) t)
    (Enumeration (Some E) PyNone t)
    (fun o' => enum o' = PyEnum name code /\ value o' = PyInt code).
Proof.
  intros Hin Ht Hv Hfind.
  eapply frames_intro.
  - apply Enumeration_init.
  - intros out. unfold write, bind, get_self. mstep. cbn [cls]. unfold Enumeration_write.
    rewrite (Integer_write_ok _ _ fmt_I code) by (reflexivity || (cbn; lia)).
    reflexivity.
  - vm_compute. reflexivity.
  - intros rest. unfold read, bind, get_self. mstep. cbn [cls].
    rewrite <- !app_assoc.
    match goal with
    | |- Enumeration_read (mkState ?o0 _) = _ =>
        apply (Enumeration_read_ok o0 E (be_encode 4 code) rest name code)
    end; try reflexivity; try assumption.
    + now right.
    + apply (unpack_pack fmt_I). cbn. lia.
  - split; reflexivity.
Qed.

Lemma LongInteger_frames (t v : Z) :
  In t Tags -> 0 <= t < 2 ^ 24 -> LongInteger_MIN <= v <= LongInteger_MAX ->
  frames (LongInteger (PyInt v) t) (LongInteger (PyInt 0) t)
    (fun o' => value o' = PyInt v).
Proof.
  intros Hin Ht Hv. unfold LongInteger_MIN, LongInteger_MAX in Hv.
  eapply frames_intro.
  - unfold LongInteger. rewrite LongInteger_init_ok by (now left).
    unfold LongInteger_MIN, LongInteger_MAX. zbool. cbn [andb]. reflexivity.
  - intros out. unfold write, bind, get_self. mstep. cbn [cls new].
    rewrite (LongInteger_write_ok _ _ v)
      by (reflexivity || (unfold LongInteger_MIN, LongInteger_MAX; cbn; lia)).
    reflexivity.
  - vm_compute. reflexivity.
  - intros rest. unfold read, bind, get_self. mstep. cbn [cls].
    rewrite <- !app_assoc.
    match goal with
    | |- LongInteger_read (mkState ?o0 _) = _ =>
        apply (LongInteger_read_ok o0 (be_encode 8 v) rest v)
    end; try reflexivity; try assumption.
    + apply (unpack_pack fmt_q). cbn. lia.
    + cbn. unfold LongInteger_MIN, LongInteger_MAX. zbool. reflexivity.
  - reflexivity.
Qed.

Lemma DateTime_frames (t v : Z) :
  In t Tags -> 0 <= t < 2 ^ 24 -> LongInteger_MIN <= v <= LongInteger_MAX ->
  frames (DateTime (PyInt v) t) (DateTime PyNone t)
    (fun o' => value o' = PyInt v).
Proof.
  intros Hin Ht Hv. unfold LongInteger_MIN, LongInteger_MAX in Hv.
  eapply frames_intro.
  - rewrite DateTime_init. unfold LongInteger_MIN, LongInteger_MAX. zbool.
    cbn [andb]. reflexivity.
  - intros out. unfold write, bind, get_self. mstep. cbn [cls].
    rewrite (LongInteger_write_ok _ _ v)
      by (reflexivity || (unfold LongInteger_MIN, LongInteger_MAX; cbn; lia)).
    reflexivity.
  - vm_compute. reflexivity.
  - intros rest. unfold read, bind, get_self. mstep. cbn [cls].
    rewrite <- !app_assoc.
    match goal with
    | |- LongInteger_read (mkState ?o0 _) = _ =>
        apply (LongInteger_read_ok o0 (be_encode 8 v) rest v)
    end; try reflexivity; try assumption.
    + apply (unpack_pack fmt_q). cbn. lia.
    + cbn. unfold LongInteger_MIN, LongInteger_MAX. zbool. reflexivity.
  - reflexivity.
Qed.

Lemma Boolean_frames (t : Z) (b : bool) :
  In t Tags -> 0 <= t < 2 ^ 24 ->
  frames (Boolean (PyBool b) t) (Boolean (PyBool true) t)
    (fun o' => value o' = PyBool b).
Proof.
  intros Hin Ht.
  eapply frames_intro.
  - destruct b; vm_compute; reflexivity.
  - intros out. unfold write, bind, get_self. mstep.
    match goal with
    | |- context [cls ?o] =>
        replace (cls o) with CBoolean by (destruct b; reflexivity)
    end.
    rewrite (Boolean_write_ok _ _ b)
      by (destruct b; reflexivity || (cbn; lia)).
    reflexivity.
  - vm_compute. reflexivity.
  - intros rest. unfold read, bind, get_self. mstep. cbn [cls].
    rewrite <- !app_assoc.
    match goal with
    | |- Boolean_read (mkState ?o0 _) = _ =>
        apply (Boolean_read_ok o0 rest b)
    end; try reflexivity; try assumption.
  - reflexivity.
Qed.

Lemma BigInteger_frames (t v : Z) :
  In t Tags -> 0 <= t < 2 ^ 24 -> BigInteger_width v < 2 ^ 32 ->
  frames (BigInteger (PyInt v) t) (BigInteger (PyInt 0) t)
    (fun o' => value o' = PyInt v).
Proof.
  intros Hin Ht Hw. pose proof (BigInteger_width_bounds v) as (H8 & Hm & _).
  pose proof (BigInteger_in_range v) as Hr.
  eapply frames_intro.
  - reflexivity.
  - intros out. unfold write, bind, get_self. mstep. cbn [cls].
    rewrite (BigInteger_write_ok _ _ v) by (reflexivity || assumption || (cbn; lia)).
    reflexivity.
  - vm_compute. reflexivity.
  - intros rest. unfold read, bind, get_self. mstep. cbn [cls].
    set (vb := be_encode (Z.to_nat (BigInteger_width v)) v).
    assert (len vb = BigInteger_width v) as Hl
      by (subst vb; rewrite len_be_encode; lia).
    rewrite <- !app_assoc, <- Hl.
    match goal with
    | |- BigInteger_read (mkState ?o0 _) = _ =>
        apply (BigInteger_read_ok o0 vb rest)
    end; try reflexivity; try assumption; rewrite Hl; assumption || lia.
  - cbn [value set_value]. f_equal. apply be_signed_encode; [lia|].
    rewrite Z2Nat.id by lia. assumption.
Qed.

Lemma TextString_frames (t : Z) (s : str) :
  In t Tags -> 0 <= t < 2 ^ 24 -> is_ascii s = true -> len s < 2 ^ 32 ->
  frames (TextString (PyStr s) t) (TextString PyNone t)
    (fun o' => value o' = PyStr s).
Proof.
  intros Hin Ht Ha Hl.
  eapply frames_intro.
  - apply TextString_init.
  - intros out. unfold write, bind, get_self. mstep. cbn [cls].
    rewrite (TextString_write_ok _ _ s ((8 - len s mod 8) mod 8))
      by (reflexivity || assumption || (cbn; lia)).
    reflexivity.
  - vm_compute. reflexivity.
  - intros rest. unfold read, bind, get_self. mstep. cbn [cls tag type].
    rewrite <- (len_ascii_octets s).
    change (repeat x00 (Z.to_nat ((8 - len (ascii_octets s) mod 8) mod 8)))
      with (padding (len (ascii_octets s))).
    rewrite <- !app_assoc.
    match goal with
    | |- TextString_read (mkState ?o0 _) = _ =>
        apply (TextString_read_ok o0 (ascii_octets s) rest)
    end; try reflexivity; try assumption.
    + now rewrite len_ascii_octets.
    + now apply ascii_octets_small.
  - cbn [value set_padding_length set_value]. f_equal.
    now apply ascii_octets_decode.
Qed.

Lemma ByteString_frames (t : Z) (bs : list byte) :
  In t Tags -> 0 <= t < 2 ^ 24 -> len bs < 2 ^ 32 ->
  frames (ByteString (PyBytes bs) t) (ByteString PyNone t)
    (fun o' => value o' = PyBytes bs).
Proof.
  intros Hin Ht Hl.
  eapply frames_intro.
  - apply ByteString_init.
  - intros out. unfold write, bind, get_self. mstep. cbn [cls].
    rewrite (ByteString_write_ok _ _ bs ((8 - len bs mod 8) mod 8))
      by (reflexivity || assumption || (cbn; lia)).
    reflexivity.
  - vm_compute. reflexivity.
  - intros rest. unfold read, bind, get_self. mstep. cbn [cls tag type].
    change (repeat x00 (Z.to_nat ((8 - len bs mod 8) mod 8)))
      with (padding (len bs)).
    rewrite <- !app_assoc.
    match goal with
    | |- ByteString_read (mkState ?o0 _) = _ =>
        apply (ByteString_read_ok o0 bs rest)
    end; try reflexivity; try assumption.
  - reflexivity.
Qed.

(** Every primitive variant frames its own encoding: writing appends the
    encoding to the output stream, whatever it holds, and reading it back
    from a stream that goes on consumes the encoding and nothing of what
    follows, with the value decoded as in the round trip. *)
Theorem decode_leaves_what_follows (t : Z) :
  In t Tags -> 0 <= t < 2 ^ 24 ->
  (forall v, - 2 ^ 31 <= v <= 2 ^ 31 - 1 ->
     frames (Integer (PyInt v) t true) (Integer PyNone t true)
       (fun o' => value o' = PyInt v)) /\
  (forall v, - 2 ^ 63 <= v <= 2 ^ 63 - 1 ->
     frames (LongInteger (PyInt v) t) (LongInteger (PyInt 0) t)
       (fun o' => value o' = PyInt v)) /\
  (forall v, BigInteger_width v < 2 ^ 32 ->
     frames (BigInteger (PyInt v) t) (BigInteger (PyInt 0) t)
       (fun o' => value o' = PyInt v)) /\
  (forall (E : EnumType) (name : string) (code : Z),
     0 <= code <= 2 ^ 32 - 1 ->
     find (fun m => snd m =? code) E = Some (name, code) ->
     frames (Enumeration (Some E) (PyEnum name code) t)
       (Enumeration (Some E) PyNone t)
       (fun o' => enum o' = PyEnum name code /\ value o' = PyInt code)) /\
  (forall b : bool,
     frames (Boolean (PyBool b) t) (Boolean (PyBool true) t)
       (fun o' => value o' = PyBool b)) /\
  (forall s : str, is_ascii s = true -> len s < 2 ^ 32 ->
     frames (TextString (PyStr s) t) (TextString PyNone t)
       (fun o' => value o' = PyStr s)) /\
  (forall bs : list byte, len bs < 2 ^ 32 ->
     frames (ByteString (PyBytes bs) t) (ByteString PyNone t)
       (fun o' => value o' = PyBytes bs)) /\
  (forall v, - 2 ^ 63 <= v <= 2 ^ 63 - 1 ->
     frames (DateTime (PyInt v) t) (DateTime PyNone t)
       (fun o' => value o' = PyInt v)) /\
  (forall v, - 2 ^ 31 <= v <= 2 ^ 31 - 1 ->
     frames (Interval (PyInt v) t) (Interval PyNone t)
       (fun o' => value o' = PyInt v)).
Proof.
  intros Hin Ht.
  split; [|split; [|split; [|split; [|split; [|split; [|split; [|split]]]]]]];
    intros.
  - now apply Integer_frames.
  - now apply LongInteger_frames.
  - now apply BigInteger_frames.
  - match goal with
    | |- frames (Enumeration (Some ?E) (PyEnum ?n ?c) _) _ _ =>
        now apply (Enumeration_frames E n c t)
    end.
  - now apply Boolean_frames.
  - now apply TextString_frames.
  - now apply ByteString_frames.
  - now apply DateTime_frames.
  - now apply Interval_frames.
Qed.

(** ** [is_oversized] *)

Lemma is_oversized_spec (o : Primitive) (s : list byte) :
  is_oversized (mkState o s)
  = (match s with [] => Ok tt | _ :: _ => Raise StreamNotEmptyError end,
     mkState o s).
Proof.
  unfold is_oversized, bind, stream_peek. mstep.
  destruct s as [|b s]; [reflexivity|].
  unfold len. cbn [List.length].
  destruct (Z.gtb_spec (Z.of_nat (S (List.length s))) 0); [reflexivity|lia].
Qed.

(** [is_oversized] after a decode tells whether the stream held more than
    the encoding: it passes when the primitive's encoding was all of the
    stream, and raises [StreamNotEmptyError], consuming nothing, when any
    octet follows. *)
Theorem is_oversized_after_decode (mk blank : result Primitive)
  (P : Primitive -> Prop) :
  frames mk blank P ->
  exists o bs o0 o',
    mk = Ok o /\ encode o = Ok bs /\ blank = Ok o0 /\
    (read ;; is_oversized) (mkState o0 bs) = (Ok tt, mkState o' []) /\
    forall (b : byte) (rest : list byte),
      (read ;; is_oversized) (mkState o0 (bs ++ b :: rest))
      = (Raise StreamNotEmptyError, mkState o' (b :: rest)).
Proof.
  intros (o & o1 & bs & o0 & o' & Hmk & Hb & _ & Hw & Hr).
  exists o, bs, o0, o'. repeat split; try assumption.
  - unfold encode. rewrite (Hw []). reflexivity.
  - unfold bind. rewrite <- (app_nil_r bs) at 1. rewrite Hr. mstep.
    apply is_oversized_spec.
  - intros b rest. unfold bind. rewrite Hr. mstep. apply is_oversized_spec.
Qed.

(** ** What [read] refuses *)

Lemma Integer_read_bad_length (o : Primitive) (l : Z) (rest : list byte) :
  In (tag o) Tags -> 0 <= tag o < 2 ^ 24 -> 0 <= l < 2 ^ 32 -> l <> 4 ->
  Integer_read (mkState o (header (tag o) (type o) l ++ rest))
  = (Raise ReadValueError, mkState (set_length o (Some l)) rest).
Proof.
  intros Hin Ht Hl Hne. unfold Integer_read, bind.
  rewrite Base_read_ok by (reflexivity || assumption). mstep.
  unfold Integer_read_value, bind, get_self at 1. mstep.
  cbn [length set_length is_not]. unfold Integer_LENGTH.
  destruct (Z.eqb_spec l 4); [contradiction|]. reflexivity.
Qed.

Lemma LongInteger_read_bad_length (o : Primitive) (l : Z) (rest : list byte) :
  In (tag o) Tags -> 0 <= tag o < 2 ^ 24 -> 0 <= l < 2 ^ 32 -> l <> 8 ->
  LongInteger_read (mkState o (header (tag o) (type o) l ++ rest))
  = (Raise InvalidPrimitiveLength, mkState (set_length o (Some l)) rest).
Proof.
  intros Hin Ht Hl Hne. unfold LongInteger_read, bind.
  rewrite Base_read_ok by (reflexivity || assumption). mstep.
  unfold LongInteger_read_value, bind, get_self at 1. mstep.
  cbn [length set_length is_not]. unfold LongInteger_LENGTH.
  destruct (Z.eqb_spec l 8); [contradiction|]. reflexivity.
Qed.

(** The classes of fixed length check the length field of the header
    before any octet of the value is read: [Integer], [Interval] and
    [Enumeration] raise [ReadValueError] for a length other than 4,
    [LongInteger] and [DateTime] raise [InvalidPrimitiveLength] for a
    length other than 8.  The object keeps the length read and the stream
    stands right after the header. *)
Theorem read_checks_fixed_length (o : Primitive) (l : Z) (rest : list byte) :
  In (tag o) Tags -> 0 <= tag o < 2 ^ 24 -> 0 <= l < 2 ^ 32 ->
  (cls o = CInteger \/ cls o = CInterval \/ cls o = CEnumeration ->
   l <> 4 ->
   read (mkState o (header (tag o) (type o) l ++ rest))
   = (Raise ReadValueError, mkState (set_length o (Some l)) rest)) /\
  (cls o = CLongInteger \/ cls o = CDateTime ->
   l <> 8 ->
   read (mkState o (header (tag o) (type o) l ++ rest))
   = (Raise InvalidPrimitiveLength, mkState (set_length o (Some l)) rest)).
Proof.
  intros Hin Ht Hl. split; intros Hc Hne; unfold read, bind, get_self; mstep.
  - destruct Hc as [-> | [-> | ->]];
      try (now apply Integer_read_bad_length).
    unfold Enumeration_read, bind.
    rewrite Integer_read_bad_length by assumption. reflexivity.
  - destruct Hc as [-> | ->]; now apply LongInteger_read_bad_length.
Qed.

Lemma unpack_Q_decode (v8 : list byte) :
  List.length v8 = 8%nat -> unpack fmt_Q v8 = Ok (be_decode v8).
Proof.
  intros Hl. unfold unpack. rewrite Hl. reflexivity.
Qed.

(** [Boolean.read] never looks at the length the header announces: it
    reads eight octets whatever the length field says, accepts them as the
    unsigned numbers 1 and 0, and raises [ValueError] for any other number
    after the eight octets are consumed. *)
Theorem Boolean_read_ignores_length (o : Primitive) (l : Z)
  (v8 rest : list byte) :
  In (tag o) Tags -> 0 <= tag o < 2 ^ 24 -> cls o = CBoolean ->
  0 <= l < 2 ^ 32 -> List.length v8 = 8%nat ->
  read (mkState o (header (tag o) (type o) l ++ v8 ++ rest))
  = if be_decode v8 =? 1
    then (Ok tt, mkState (set_value (set_length o (Some l)) (PyBool true)) rest)
    else if be_decode v8 =? 0
    then (Ok tt, mkState (set_value (set_length o (Some l)) (PyBool false)) rest)
    else (Raise ValueError, mkState (set_length o (Some l)) rest).
Proof.
  intros Hin Ht Hc Hl H8. unfold read, bind, get_self. mstep. rewrite Hc.
  unfold Boolean_read, bind.
  rewrite Base_read_ok by (reflexivity || assumption). mstep.
  unfold Boolean_read_value, bind.
  rewrite istream_read_app by (unfold len; rewrite H8; reflexivity). mstep.
  unfold lift at 1. rewrite unpack_Q_decode by assumption. mstep.
  unfold do_validate, bind, get_self, lift, validate.
  destruct (be_decode v8 =? 1);
    [unfold update_self; mstep; cbn [cls set_value set_length]; rewrite Hc;
     reflexivity|].
  destruct (be_decode v8 =? 0);
    [unfold update_self; mstep; cbn [cls set_value set_length]; rewrite Hc;
     reflexivity|].
  reflexivity.
Qed.
Lemma unpack_zero (f : format) (bs : list byte) :
  unpack f bs = Ok 0 -> bs = repeat x00 (calcsize f).
Proof.
  intros H. apply be_encode_unpack in H. rewrite <- H.
  destruct f; reflexivity.
Qed.

Lemma unpack_total (f : format) (bs : list byte) :
  List.length bs = calcsize f -> exists v, unpack f bs = Ok v.
Proof.
  intros H. unfold unpack. rewrite H, Nat.eqb_refl.
  destruct (fmt_signed f && _); eexists; reflexivity.
Qed.

Lemma Integer_read_bad_pad (o : Primitive) (f : format)
  (v4 pad rest : list byte) (v : Z) :
  In (tag o) Tags -> 0 <= tag o < 2 ^ 24 ->
  pack_string o = Some f -> calcsize f = 4%nat ->
  padding_length o = Some Integer_LENGTH ->
  unpack f v4 = Ok v -> List.length pad = 4%nat -> pad <> repeat x00 4 ->
  Integer_read (mkState o (header (tag o) (type o) 4 ++ v4 ++ pad ++ rest))
  = (Raise ReadValueError,
     mkState (set_value (set_length o (Some 4)) (PyInt v)) rest).
Proof.
  intros Hin Ht Hf Hc Hp Hu Hl Hne. unfold Integer_read, bind.
  rewrite Base_read_ok by (reflexivity || assumption || cbn; lia). mstep.
  unfold Integer_read_value, bind, get_self at 1. mstep.
  cbn [length set_length is_not Integer_LENGTH Z.eqb Pos.eqb negb].
  cbn [pack_string set_length padding_length]. rewrite Hf, Hp.
  unfold the_format, number, ret. mstep.
  assert (List.length v4 = 4%nat) as Hl4.
  { destruct (Nat.eq_dec (List.length v4) (calcsize f)) as [E|E];
      [now rewrite <- Hc|].
    rewrite unpack_length in Hu by assumption. discriminate. }
  rewrite istream_read_app by (unfold len; rewrite Hl4; reflexivity). mstep.
  unfold lift at 1. rewrite Hu. mstep. unfold update_self at 1. mstep.
  rewrite istream_read_app by (unfold len, Integer_LENGTH; rewrite Hl; reflexivity).
  mstep. unfold lift at 1.
  destruct (unpack_total f pad) as (p & Hp'); [now rewrite Hc|].
  rewrite Hp'. mstep.
  destruct (Z.eqb_spec p 0) as [->|]; [|reflexivity].
  apply unpack_zero in Hp'. rewrite Hc in Hp'. contradiction.
Qed.

(** The four octets after the value of an [Integer], an [Interval] or an
    [Enumeration] must all be zero: any other four raise [ReadValueError].
    All eight octets are consumed by then, and the object already holds
    the value decoded. *)
Theorem Integer_read_nonzero_padding (o : Primitive) (f : format)
  (v4 pad rest : list byte) :
  In (tag o) Tags -> 0 <= tag o < 2 ^ 24 ->
  cls o = CInteger \/ cls o = CInterval \/ cls o = CEnumeration ->
  pack_string o = Some f -> calcsize f = 4%nat ->
  padding_length o = Some 4 ->
  List.length v4 = 4%nat -> List.length pad = 4%nat ->
  pad <> repeat x00 4 ->
  exists v : Z,
    unpack f v4 = Ok v /\
    read (mkState o (header (tag o) (type o) 4 ++ v4 ++ pad ++ rest))
    = (Raise ReadValueError,
       mkState (set_value (set_length o (Some 4)) (PyInt v)) rest).
Proof.
  intros Hin Ht Hc Hf Hs Hp Hl4 Hlp Hne.
  destruct (unpack_total f v4) as (v & Hv); [now rewrite Hs|].
  exists v. split; [assumption|].
  pose proof (Integer_read_bad_pad o f v4 pad rest v Hin Ht Hf Hs Hp Hv Hlp Hne)
    as E.
  unfold read, bind, get_self. mstep.
  destruct Hc as [-> | [-> | ->]]; try exact E.
  unfold Enumeration_read, bind. rewrite E. reflexivity.
Qed.

(** An [Integer] made with [signed=False] unpacks the value as an unsigned
    number, yet [validate] still holds it to the signed maximum: the wire
    values from 2^31 on raise [ValueError], after the whole encoding is
    consumed and the value assigned. *)
Theorem Integer_unsigned_read (t : Z) (v4 rest : list byte) :
  In t Tags -> 0 <= t < 2 ^ 24 -> List.length v4 = 4%nat ->
  exists o0 : Primitive,
    Integer PyNone t false = Ok o0 /\
    read (mkState o0 (header t INTEGER 4 ++ v4 ++ repeat x00 4 ++ rest))
    = (if be_decode v4 <=? Integer_MAX then Ok tt else Raise ValueError,
       mkState (set_value (set_length o0 (Some 4)) (PyInt (be_decode v4)))
         rest).
Proof.
  intros Hin Ht Hl. eexists. split; [vm_compute; reflexivity|].
  pose proof (be_decode_range v4) as Hr. unfold len in Hr. rewrite Hl in Hr.
  change (256 ^ Z.of_nat 4) with (2 ^ 32) in Hr.
  unfold read, bind, get_self. mstep. cbn [cls].
  unfold Integer_read, bind.
  match goal with
  | |- context [Base_read (mkState ?o _)] =>
      pose proof (Base_read_ok o INTEGER 4
                    (v4 ++ repeat x00 4 ++ rest) Hin Ht eq_refl) as E
  end.
  cbn [tag] in E. rewrite E by lia. clear E. mstep.
  unfold Integer_read_value, bind, get_self at 1. mstep.
  cbn [length set_length is_not Integer_LENGTH Z.eqb Pos.eqb negb].
  cbn [pack_string set_length padding_length].
  unfold the_format, number, ret. mstep.
  rewrite istream_read_app by (unfold len; rewrite Hl; reflexivity). mstep.
  unfold lift at 1. rewrite unpack_I_decode by assumption. mstep.
  unfold update_self at 1. mstep.
  rewrite istream_read_app by reflexivity. mstep.
  unfold lift at 1.
  change (unpack fmt_I (repeat x00 4)) with (@Ok Z 0). mstep.
  cbn [Z.eqb negb]. unfold do_validate, bind, get_self, lift. mstep.
  unfold validate. cbn [cls set_value set_length].
  unfold Integer_validate. cbn [value set_value is_None negb
    type_in_integer_types index_of].
  unfold Integer_MIN, Integer_MAX.
  destruct (Z.gtb_spec (be_decode v4) 2147483647),
    (Z.leb_spec (be_decode v4) 2147483647); try lia; [reflexivity|].
  destruct (Z.ltb_spec (be_decode v4) (-2147483648)); [lia|reflexivity].
Qed.

(** Decoding an [Enumeration] looks the value up in [ENUM_TYPE] only after
    the whole encoding has been read: a value that is no member raises
    [ValueError], and the base class, whose [ENUM_TYPE] is [None], raises
    [TypeError] for every value.  The object then holds the number read
    and the stream stands after the encoding. *)
Theorem Enumeration_read_lookup_fails (E : option EnumType) (t code : Z)
  (rest : list byte) :
  In t Tags -> 0 <= t < 2 ^ 24 -> 0 <= code < 2 ^ 32 ->
  match E with
  | Some E' => find (fun m => snd m =? code) E' = None
  | None => True
  end ->
  exists o0 : Primitive,
    Enumeration E PyNone t = Ok o0 /\
    read (mkState o0
            (header t ENUMERATION 4 ++ be_encode 4 code ++ be_encode 4 0
               ++ rest))
    = (Raise (match E with Some _ => ValueError | None => TypeError end),
       mkState (set_value (set_length o0 (Some 4)) (PyInt code)) rest).
Proof.
  intros Hin Ht Hc HE. eexists. split; [vm_compute; reflexivity|].
  unfold read, bind, get_self. mstep. cbn [cls].
  unfold Enumeration_read, bind.
  match goal with
  | |- context [Integer_read (mkState ?o _)] =>
      pose proof (Integer_read_ok o fmt_I (be_encode 4 code) rest code
                    Hin Ht eq_refl eq_refl eq_refl) as R
  end.
  cbn [tag type] in R. rewrite R; clear R.
  - mstep. unfold get_self at 1. mstep. cbn [ENUM_TYPE set_value set_length].
    destruct E as [E'|]; [|reflexivity].
    unfold lift at 1. cbn [value set_value Enum_of]. rewrite HE. reflexivity.
  - apply (unpack_pack fmt_I). cbn. lia.
  - reflexivity.
Qed.
Lemma Z_of_byte_zero (b : byte) : Z_of_byte b = 0 -> b = x00.
Proof.
  intros H. rewrite <- (byte_of_Z_of_byte b), H. reflexivity.
Qed.

Lemma read_pads_bad (n k : nat) (b : byte) (o : Primitive) (more : list byte) :
  (k < n)%nat -> b <> x00 ->
  for_times n read_pad (mkState o (repeat x00 k ++ b :: more))
  = (Raise ReadValueError, mkState o more).
Proof.
  revert n. induction k as [|k IH]; intros n Hk Hb;
    (destruct n as [|n]; [lia|]); cbn [for_times repeat]; unfold bind at 1;
    unfold read_pad at 1, bind.
  - change ([] ++ b :: more) with ([b] ++ more).
    rewrite istream_read_app by reflexivity. mstep.
    unfold lift. rewrite unpack_B_byte. mstep.
    destruct (Z.eqb_spec (Z_of_byte b) 0) as [E|E]; [|reflexivity].
    apply Z_of_byte_zero in E. contradiction.
  - change ((x00 :: repeat x00 k) ++ b :: more)
      with ([x00] ++ repeat x00 k ++ b :: more).
    rewrite istream_read_app by reflexivity. mstep.
    unfold lift. rewrite unpack_B_byte. mstep.
    change (Z_of_byte x00 =? 0) with true. cbn [negb]. unfold ret.
    apply IH; [lia|assumption].
Qed.

Lemma read_padding_bad (p : Z) (k : nat) (b : byte) (o : Primitive)
  (more : list byte) :
  Z.of_nat k < p < PADDING_SIZE -> b <> x00 ->
  read_padding p (mkState o (repeat x00 k ++ b :: more))
  = (Raise ReadValueError, mkState o more).
Proof.
  intros Hp Hb. unfold read_padding.
  destruct (Z.ltb_spec p PADDING_SIZE); [|lia].
  unfold for_range. apply read_pads_bad; [lia|assumption].
Qed.

(** A [TextString] or [ByteString] whose length is no multiple of 8 is
    followed by [8 - length mod 8] octets that must all be zero.  The
    padding is checked one octet at a time: the first octet that is not
    zero raises [ReadValueError], the stream stands right after it, and
    the object already holds the string read. *)
Theorem string_read_nonzero_padding (o : Primitive) (bs more : list byte)
  (k : nat) (b : byte) :
  In (tag o) Tags -> 0 <= tag o < 2 ^ 24 ->
  (cls o = CTextString /\ Forall (fun c => Z_of_byte c < 128) bs)
  \/ cls o = CByteString ->
  len bs < 2 ^ 32 -> len bs mod 8 <> 0 ->
  Z.of_nat k < 8 - len bs mod 8 -> b <> x00 ->
  read
    (mkState o
       (header (tag o) (type o) (len bs) ++ bs ++ repeat x00 k ++ b :: more))
  = (Raise ReadValueError,
     mkState
       (set_padding_length
          (set_value (set_length o (Some (len bs)))
             (match cls o with
              | CTextString => PyStr (map Byte.to_N bs)
              | _ => PyBytes bs
              end))
          (Some (8 - len bs mod 8)))
       more).
Proof.
  intros Hin Ht Hc Hl Hm Hk Hb. pose proof (len_nonneg bs) as Hn.
  assert (0 < len bs mod 8 < 8) as Hm8 by (Z.div_mod_to_equations; lia).
  unfold read, bind, get_self. mstep.
  destruct Hc as [(Hc & Ha) | Hc]; rewrite Hc.
  - unfold TextString_read, bind.
    rewrite Base_read_ok by (reflexivity || assumption || lia). mstep.
    unfold TextString_read_value, bind, update_self at 1. mstep.
    unfold get_self at 1. mstep. cbn [length set_value set_length number].
    unfold ret at 1, for_range.
    replace (Z.to_nat (len bs)) with (List.length bs) by (unfold len; lia).
    rewrite (TextString_read_chars bs _ _ []) by (assumption || reflexivity).
    mstep. unfold update_self at 1. mstep. unfold get_self at 1. mstep.
    cbn [padding_length set_padding_length number]. unfold ret at 1.
    unfold PADDING_SIZE.
    rewrite read_padding_bad by (assumption || (unfold PADDING_SIZE; lia)).
    reflexivity.
  - unfold ByteString_read, bind.
    rewrite Base_read_ok by (reflexivity || assumption || lia). mstep.
    unfold ByteString_read_value, bind, get_self at 1. mstep.
    cbn [length set_length number]. unfold ret at 1.
    replace (Z.to_nat (len bs)) with (List.length bs) by (unfold len; lia).
    rewrite ByteString_read_bytes. mstep. cbn [app].
    unfold update_self at 1. mstep. unfold update_self at 1. mstep.
    unfold get_self at 1. mstep. cbn [padding_length set_padding_length].
    unfold PADDING_SIZE.
    destruct (Z.eqb_spec (8 - len bs mod 8) 8) as [E|E]; [lia|].
    unfold ret at 1. mstep. unfold get_self at 1. mstep.
    cbn [padding_length set_padding_length number]. unfold ret at 1.
    rewrite read_padding_bad by (assumption || (unfold PADDING_SIZE; lia)).
    reflexivity.
Qed.
(** ** A stream that ends inside the value *)

Lemma istream_read_short (o : Primitive) (s : list byte) (n : Z) :
  len s <= n -> istream_read n (mkState o s) = (Ok s, mkState o []).
Proof.
  intros H. unfold istream_read, len in *. cbn [stream self].
  rewrite firstn_all2, skipn_all2 by lia. reflexivity.
Qed.

Lemma BigInteger_read_loop_short (v : list byte) (m : nat) (o : Primitive)
  (acc : str) :
  fold_times (List.length v + S m) BigInteger_read_byte acc (mkState o v)
  = (Raise struct_error, mkState o []).
Proof.
  revert acc. induction v as [|b v IH]; intros acc.
  - reflexivity.
  - cbn [List.length Nat.add fold_times]. unfold bind at 1.
    unfold BigInteger_read_byte at 1, bind.
    change (b :: v) with ([b] ++ v).
    rewrite istream_read_app by reflexivity. mstep.
    unfold lift, ret. rewrite unpack_B_byte. mstep. apply IH.
Qed.

Lemma TextString_read_chars_short (v : list byte) (m : nat) (o : Primitive)
  (acc : str) :
  Forall (fun b => Z_of_byte b < 128) v -> value o = PyStr acc ->
  for_times (List.length v + S m) TextString_read_char (mkState o v)
  = (Raise struct_error,
     mkState (set_value o (PyStr (acc ++ map Byte.to_N v))) []).
Proof.
  revert o acc. induction v as [|b v IH]; intros o acc Hs Hv.
  - cbn. rewrite app_nil_r. destruct o. cbn in Hv. subst. reflexivity.
  - inversion Hs as [|? ? Hb Hbs]; subst.
    cbn [List.length Nat.add for_times].
    unfold bind at 1. unfold TextString_read_char at 1, bind.
    change (b :: v) with ([b] ++ v).
    rewrite istream_read_app by reflexivity. mstep.
    unfold lift. cbn [unpack_c]. mstep. unfold decode_byte.
    destruct (Z.ltb_spec (Z_of_byte b) 128); [|lia]. mstep.
    unfold update_self, value_iadd. mstep. rewrite Hv.
    rewrite (IH _ (acc ++ [Byte.to_N b])) by (assumption || reflexivity).
    cbn [map]. rewrite <- app_assoc. destruct o; reflexivity.
Qed.

Lemma ByteString_read_bytes_short (v : list byte) (m : nat) (o : Primitive)
  (acc : list byte) :
  fold_times (List.length v + S m) ByteString_read_byte acc (mkState o v)
  = (Raise IndexError, mkState o []).
Proof.
  revert acc. induction v as [|b v IH]; intros acc.
  - reflexivity.
  - cbn [List.length Nat.add fold_times]. unfold bind at 1.
    unfold ByteString_read_byte at 1, bind.
    change (b :: v) with ([b] ++ v).
    rewrite istream_read_app by reflexivity. mstep.
    unfold lift, ret. cbn [index Z.ltb Z.compare Z.to_nat nth_error]. mstep.
    apply IH.
Qed.

Lemma short_split (l : Z) (v : list byte) :
  len v < l -> exists m : nat, Z.to_nat l = (List.length v + S m)%nat.
Proof.
  intros H. unfold len in H.
  exists (Z.to_nat l - List.length v - 1)%nat. lia.
Qed.

Lemma Integer_read_short (o : Primitive) (f : format) (v : list byte) :
  In (tag o) Tags -> 0 <= tag o < 2 ^ 24 ->
  pack_string o = Some f -> calcsize f = 4%nat ->
  padding_length o = Some 4 -> len v < 8 ->
  exists o',
    Integer_read (mkState o (header (tag o) (type o) 4 ++ v))
    = (Raise struct_error, mkState o' []).
Proof.
  intros Hin Ht Hf Hc Hp Hl. unfold Integer_read, bind.
  rewrite Base_read_ok by (reflexivity || assumption || cbn; lia). mstep.
  unfold Integer_read_value, bind, get_self at 1. mstep.
  cbn [length set_length is_not Integer_LENGTH Z.eqb Pos.eqb negb].
  cbn [pack_string set_length padding_length]. rewrite Hf, Hp.
  unfold the_format, number, ret. mstep.
  destruct (Z.ltb_spec (len v) 4) as [H4|H4].
  - rewrite istream_read_short by lia. mstep. unfold lift at 1.
    rewrite unpack_length by (rewrite Hc; unfold len in H4; lia).
    eexists. reflexivity.
  - rewrite <- (firstn_skipn 4 v).
    assert (List.length (firstn 4 v) = 4%nat) as L4
      by (rewrite length_firstn; unfold len in H4; lia).
    rewrite istream_read_app by (unfold len; rewrite L4; reflexivity). mstep.
    destruct (unpack_total f (firstn 4 v)) as (x & Hx); [now rewrite Hc|].
    unfold lift at 1. rewrite Hx. mstep. unfold update_self at 1. mstep.
    rewrite istream_read_short
      by (unfold len in *; rewrite length_skipn; lia).
    mstep. unfold lift at 1.
    rewrite unpack_length
      by (rewrite Hc, length_skipn; unfold len in Hl; lia).
    eexists. reflexivity.
Qed.

(** A stream that ends inside the value never yields a shortened value:
    every class raises.  With the header of a legal length followed by
    fewer octets than the value takes (for the [Integer] family the value
    and its padding, eight octets), [read] raises [struct.error], and
    [ByteString], which indexes the octet it reads, raises [IndexError];
    the stream is then exhausted. *)
Theorem read_truncated_value (o : Primitive) (l : Z) (v : list byte) :
  In (tag o) Tags -> 0 <= tag o < 2 ^ 24 -> 0 <= l < 2 ^ 32 ->
  match cls o with
  | CInteger | CInterval | CEnumeration =>
      l = 4 /\ len v < 8 /\ padding_length o = Some 4 /\
      exists f, pack_string o = Some f /\ calcsize f = 4%nat
  | CLongInteger | CDateTime | CBoolean => l = 8 /\ len v < 8
  | CBigInteger => l mod 8 = 0 /\ len v < l
  | CTextString => len v < l /\ Forall (fun b => Z_of_byte b < 128) v
  | CByteString => len v < l
  end ->
  exists o' : Primitive,
    read (mkState o (header (tag o) (type o) l ++ v))
    = (Raise (match cls o with
              | CByteString => IndexError
              | _ => struct_error
              end),
       mkState o' []).
Proof.
  intros Hin Ht Hl Hc. unfold read, bind, get_self. mstep.
  destruct (cls o) eqn:Ec.
  - destruct Hc as (-> & Hv & Hp & f & Hf & Hs).
    now apply (Integer_read_short o f v).
  - destruct Hc as (-> & Hv). unfold LongInteger_read, bind.
    rewrite Base_read_ok by (reflexivity || assumption). mstep.
    unfold LongInteger_read_value, bind, get_self at 1. mstep.
    cbn [length set_length is_not LongInteger_LENGTH Z.eqb Pos.eqb negb].
    unfold number, ret. mstep. rewrite istream_read_short by lia. mstep.
    unfold lift at 1.
    rewrite unpack_length by (cbn [calcsize]; unfold len in Hv; lia).
    eexists. reflexivity.
  - destruct Hc as (Hm & Hv). unfold BigInteger_read, bind.
    rewrite Base_read_ok by (reflexivity || assumption). mstep.
    unfold get_self at 1. mstep. cbn [length set_length number].
    unfold ret at 1. rewrite Hm. cbn [Z.eqb negb].
    destruct (short_split l v Hv) as (m & ->).
    rewrite BigInteger_read_loop_short. eexists. reflexivity.
  - destruct Hc as (-> & Hv & Hp & f & Hf & Hs).
    unfold Enumeration_read, bind.
    destruct (Integer_read_short o f v Hin Ht Hf Hs Hp Hv) as (o' & ->).
    eexists. reflexivity.
  - destruct Hc as (-> & Hv). unfold Boolean_read, bind.
    rewrite Base_read_ok by (reflexivity || assumption). mstep.
    unfold Boolean_read_value, bind.
    rewrite istream_read_short by (unfold Boolean_LENGTH; lia). mstep.
    unfold lift at 1.
    rewrite unpack_length by (cbn [calcsize]; unfold len in Hv; lia).
    eexists. reflexivity.
  - destruct Hc as (Hv & Ha). unfold TextString_read, bind.
    rewrite Base_read_ok by (reflexivity || assumption). mstep.
    unfold TextString_read_value, bind, update_self at 1. mstep.
    unfold get_self at 1. mstep. cbn [length set_value set_length number].
    unfold ret at 1, for_range.
    destruct (short_split l v Hv) as (m & ->).
    rewrite (TextString_read_chars_short v m _ [])
      by (assumption || reflexivity).
    eexists. reflexivity.
  - unfold ByteString_read, bind.
    rewrite Base_read_ok by (reflexivity || assumption). mstep.
    unfold ByteString_read_value, bind, get_self at 1. mstep.
    cbn [length set_length number]. unfold ret at 1.
    destruct (short_split l v Hc) as (m & ->).
    rewrite ByteString_read_bytes_short. eexists. reflexivity.
  - destruct Hc as (-> & Hv). unfold LongInteger_read, bind.
    rewrite Base_read_ok by (reflexivity || assumption). mstep.
    unfold LongInteger_read_value, bind, get_self at 1. mstep.
    cbn [length set_length is_not LongInteger_LENGTH Z.eqb Pos.eqb negb].
    unfold number, ret. mstep. rewrite istream_read_short by lia. mstep.
    unfold lift at 1.
    rewrite unpack_length by (cbn [calcsize]; unfold len in Hv; lia).
    eexists. reflexivity.
  - destruct Hc as (-> & Hv & Hp & f & Hf & Hs).
    now apply (Integer_read_short o f v).
Qed.

(** ** The header of a [Struct] *)

Lemma write_tag_type_ok (o : Primitive) (out : list byte) :
  0 <= tag o < 2 ^ 32 ->
  (write_tag ;; write_type) (mkState o out)
  = (Ok tt,
     mkState o
       (out ++ be_encode 3 (tag o) ++ be_encode 1 (Types_value (type o)))).
Proof.
  intros Ht. unfold write_tag, write_type, bind, get_self, lift, ostream_write.
  mstep. rewrite pack_PyInt by (cbn; lia).
  mstep. rewrite pack_PyInt by (pose proof (Types_value_range (type o)); cbn; lia).
  mstep. change (calcsize fmt_I) with (1 + 3)%nat. rewrite be_encode_app.
  change (be_encode 1 (tag o / 256 ^ Z.of_nat 3))
    with ([byte_of_Z (tag o / 256 ^ Z.of_nat 3)]).
  cbn [app]. rewrite slice_from by (unfold len; cbn [List.length]; lia).
  cbn [Z.to_nat Pos.to_nat Pos.iter_op Nat.add skipn].
  rewrite <- !app_assoc. reflexivity.
Qed.

Lemma Base_write_steps (st : state) :
  Base_write st
  = match (write_tag ;; write_type) st with
    | (Ok _, st') => write_length st'
    | (Raise e, st') => (Raise e, st')
    end.
Proof.
  unfold Base_write, bind. destruct (write_tag st) as [[u|e] st1];
    [|reflexivity].
  destruct (write_type st1) as [[u'|e] st2]; reflexivity.
Qed.

(** A [Struct] carries only a header, and [__init__] leaves its length
    unset.  Written as constructed, [write] raises [TypeError] with the
    tag and type octets already in the stream; a length from 2^32 on
    raises [WriteOverflowError] at the same point; with a length below
    2^32 the eight header octets are written, and [read] of a new [Struct]
    of that tag takes them back from the stream and stores the length. *)
Theorem Struct_header (self0 : Primitive) (t l : Z) (out rest : list byte) :
  In t Tags -> 0 <= t < 2 ^ 24 ->
  let o := Struct___init__ self0 t in
  let begun := out ++ be_encode 3 t ++ be_encode 1 (Types_value STRUCTURE) in
  Base_write (mkState o out) = (Raise TypeError, mkState o begun) /\
  (2 ^ 32 <= l ->
   Base_write (mkState (set_length o (Some l)) out)
   = (Raise WriteOverflowError, mkState (set_length o (Some l)) begun)) /\
  (0 <= l < 2 ^ 32 ->
   Base_write (mkState (set_length o (Some l)) out)
   = (Ok tt, mkState (set_length o (Some l)) (out ++ header t STRUCTURE l)) /\
   Base_read (mkState o (header t STRUCTURE l ++ rest))
   = (Ok tt, mkState (set_length o (Some l)) rest)).
Proof.
  intros Hin Ht o begun. split; [|split].
  - rewrite Base_write_steps, write_tag_type_ok by (cbn; lia). reflexivity.
  - intros Hl. rewrite Base_write_steps, write_tag_type_ok by (cbn; lia).
    unfold write_length, bind, get_self. mstep. cbn [length set_length].
    rewrite count_bytes_large by assumption. reflexivity.
  - intros Hl. split.
    + apply (Base_write_ok (set_length o (Some l)) out l);
        [cbn; lia|reflexivity|assumption].
    + apply (Base_read_ok o STRUCTURE l rest); try assumption. reflexivity.
Qed.
(** ** What the constructors take *)

(** The integer classes check the type of their value differently.
    [Integer] and [Interval] want the exact type [int]: [None] becomes 0,
    an [int] is range checked against 32 signed bits, and a [bool] is a
    [TypeError] like any other type.  [LongInteger] and [DateTime] use
    [isinstance]: they keep [None] as it is, accept a [bool], and range
    check an [int] against 64 signed bits.  [BigInteger] takes [None], a
    [bool] and every [int]. *)
Theorem integer_constructors (v : pyval) (t : Z) (signed : bool) :
  Integer v t signed
  = match v with
    | PyNone =>
        Ok (mkPrimitive CInteger None t INTEGER (Some 4) (PyInt 0) (Some 4)
              (Some (if signed then fmt_i else fmt_I)) PyNone)
    | PyInt z =>
        if (- 2 ^ 31 <=? z) && (z <=? 2 ^ 31 - 1)
        then Ok (mkPrimitive CInteger None t INTEGER (Some 4) (PyInt z)
                   (Some 4) (Some (if signed then fmt_i else fmt_I)) PyNone)
        else Raise ValueError
    | _ => Raise TypeError
    end /\
  Interval v t
  = match v with
    | PyNone =>
        Ok (mkPrimitive CInterval None t INTERVAL (Some 4) (PyInt 0) (Some 4)
              (Some fmt_i) PyNone)
    | PyInt z =>
        if (- 2 ^ 31 <=? z) && (z <=? 2 ^ 31 - 1)
        then Ok (mkPrimitive CInterval None t INTERVAL (Some 4) (PyInt z)
                   (Some 4) (Some fmt_i) PyNone)
        else Raise ValueError
    | _ => Raise TypeError
    end /\
  LongInteger v t
  = match v with
    | PyNone | PyBool _ =>
        Ok (mkPrimitive CLongInteger None t LONG_INTEGER (Some 8) v None None
              PyNone)
    | PyInt z =>
        if (- 2 ^ 63 <=? z) && (z <=? 2 ^ 63 - 1)
        then Ok (mkPrimitive CLongInteger None t LONG_INTEGER (Some 8) v
                   None None PyNone)
        else Raise ValueError
    | _ => Raise TypeError
    end /\
  DateTime v t
  = match v with
    | PyNone | PyBool _ =>
        Ok (mkPrimitive CDateTime None t DATE_TIME (Some 8) v None None
              PyNone)
    | PyInt z =>
        if (- 2 ^ 63 <=? z) && (z <=? 2 ^ 63 - 1)
        then Ok (mkPrimitive CDateTime None t DATE_TIME (Some 8) v None None
                   PyNone)
        else Raise ValueError
    | _ => Raise TypeError
    end /\
  BigInteger v t
  = match v with
    | PyNone | PyBool _ | PyInt _ =>
        Ok (mkPrimitive CBigInteger None t BIG_INTEGER None v None None
              PyNone)
    | _ => Raise TypeError
    end.
Proof.
  split; [|split; [|split; [|split]]].
  - destruct v as [|b|z|s|bs|n c]; try (destruct signed; reflexivity).
    apply Integer_construction.
  - destruct v as [|b|z|s|bs|n c]; try reflexivity. apply Interval_init.
  - destruct v as [|b|z|s|bs|n c]; try reflexivity.
    + destruct b; reflexivity.
    + unfold LongInteger. rewrite LongInteger_init_ok by (now left).
      reflexivity.
  - destruct v as [|b|z|s|bs|n c]; try reflexivity.
    + destruct b; reflexivity.
    + apply DateTime_init.
  - destruct v; reflexivity.
Qed.

Lemma TextString_construction (v : pyval) (t : Z) :
  TextString v t
  = match v with
    | PyNone =>
        Ok (mkPrimitive CTextString None t TEXT_STRING (Some 0) (PyStr [])
              (Some 0) None PyNone)
    | PyStr s =>
        Ok (mkPrimitive CTextString None t TEXT_STRING (Some (len s))
              (PyStr s) (Some ((8 - len s mod 8) mod 8)) None PyNone)
    | _ => Raise TypeError
    end.
Proof.
  destruct v as [|b|z|s|bs|n c]; try reflexivity. apply TextString_init.
Qed.

Lemma ByteString_construction (v : pyval) (t : Z) :
  ByteString v t
  = let made (bs : list byte) :=
      Ok (mkPrimitive CByteString None t BYTE_STRING (Some (len bs))
            (PyBytes bs) (Some ((8 - len bs mod 8) mod 8)) None PyNone) in
    match v with
    | PyNone => made []
    | PyBytes bs => made bs
    | PyInt n => if n <? 0 then Raise ValueError
                 else made (repeat x00 (Z.to_nat n))
    | PyBool b => made (repeat x00 (if b then 1 else 0)%nat)
    | PyStr _ | PyEnum _ _ => Raise TypeError
    end.
Proof.
  cbv zeta. destruct v as [|b|z|s|bs|n c]; try reflexivity.
  - destruct b; reflexivity.
  - destruct (Z.ltb_spec z 0) as [Hz|Hz].
    + unfold ByteString, ByteString___init__. cbn [is_None bytes_of].
      destruct (Z.ltb_spec z 0); [reflexivity|lia].
    + unfold ByteString, ByteString___init__. cbn [is_None bytes_of].
      destruct (Z.ltb_spec z 0); [lia|]. cbn [rbind].
      unfold validate.
      cbn [cls new Base___init__ set_tag set_type set_length set_value].
      unfold ByteString_validate. cbn [value is_None negb type_is_bytes rbind].
      now rewrite (derive_length_bytes _ (repeat x00 (Z.to_nat z))).
  - apply ByteString_init.
Qed.


(** ** What [write] leaves behind when it fails *)

Lemma TextString_write_chars_bad (pre post : str) (c : N) (o : Primitive)
  (out : list byte) :
  is_ascii pre = true -> (128 <= c)%N ->
  for_each (pre ++ c :: post) TextString_write_char (mkState o out)
  = (Raise (if (55296 <=? Z.of_N c) && (Z.of_N c <=? 57343)
            then UnicodeEncodeError else struct_error),
     mkState o (out ++ ascii_octets pre)).
Proof.
  revert out. induction pre as [|a pre IH]; intros out Ha Hc.
  - cbn [app for_each ascii_octets map]. rewrite app_nil_r.
    unfold bind at 1. unfold TextString_write_char, bind, lift.
    unfold encode_char. cbv zeta.
    destruct (Z.ltb_spec (Z.of_N c) 128); [lia|].
    destruct (Z.ltb_spec (Z.of_N c) 2048).
    + destruct (Z.leb_spec 55296 (Z.of_N c)); [lia|]. reflexivity.
    + destruct ((55296 <=? Z.of_N c) && (Z.of_N c <=? 57343));
        [reflexivity|].
      destruct (Z.of_N c <? 65536); reflexivity.
  - cbn [is_ascii forallb] in Ha. apply andb_true_iff in Ha as [Ha Hs].
    apply N.ltb_lt in Ha. cbn [app for_each]. unfold bind at 1.
    unfold TextString_write_char at 1, bind, lift, ostream_write.
    rewrite encode_char_ascii by assumption. mstep. cbn [pack_c]. mstep.
    rewrite IH by assumption. cbn [ascii_octets map].
    rewrite <- app_assoc. reflexivity.
Qed.

(** [TextString.write] packs one octet per character, so a string with a
    character outside ASCII cannot be written: [write] raises
    [struct.error] at the first such character ([UnicodeEncodeError] if it
    is a surrogate), after the header, which announces the number of
    characters, and the octets of the characters before it have gone to
    the stream. *)
Theorem TextString_write_non_ascii (t : Z) (pre post : str) (c : N)
  (out : list byte) :
  0 <= t < 2 ^ 32 -> is_ascii pre = true -> (128 <= c)%N ->
  len (pre ++ c :: post) < 2 ^ 32 ->
  exists o : Primitive,
    TextString (PyStr (pre ++ c :: post)) t = Ok o /\
    write (mkState o out)
    = (Raise (if (55296 <=? Z.of_N c) && (Z.of_N c <=? 57343)
              then UnicodeEncodeError else struct_error),
       mkState o
         (out ++ header t TEXT_STRING (len (pre ++ c :: post))
            ++ ascii_octets pre)).
Proof.
  intros Ht Ha Hc Hl. eexists. split; [apply TextString_init|].
  pose proof (len_nonneg (pre ++ c :: post)) as Hn.
  unfold write, bind, get_self. mstep. cbn [cls].
  unfold TextString_write, bind.
  rewrite (Base_write_ok _ out (len (pre ++ c :: post)))
    by (reflexivity || (cbn; lia)).
  mstep. unfold TextString_write_value, bind, get_self at 1. mstep.
  cbn [value]. rewrite TextString_write_chars_bad by assumption.
  cbn [tag type]. rewrite <- app_assoc. reflexivity.
Qed.

(** [LongInteger], [DateTime] and [BigInteger] keep a value of [None],
    which [DateTime] takes by default, and cannot write it.  The first two
    raise [struct.error] after the eight header octets have gone to the
    stream; [BigInteger], which computes the length from the value first,
    raises [TypeError] and writes nothing. *)
Theorem write_None_value (t : Z) (out : list byte) :
  0 <= t < 2 ^ 32 ->
  (exists o, LongInteger PyNone t = Ok o /\
     write (mkState o out)
     = (Raise struct_error, mkState o (out ++ header t LONG_INTEGER 8))) /\
  (exists o, DateTime PyNone t = Ok o /\
     write (mkState o out)
     = (Raise struct_error, mkState o (out ++ header t DATE_TIME 8))) /\
  (exists o, BigInteger PyNone t = Ok o /\
     write (mkState o out) = (Raise TypeError, mkState o out)).
Proof.
  intros Ht. split; [|split]; (eexists; split; [vm_compute; reflexivity|]);
    unfold write, bind, get_self; mstep; cbn [cls].
  - unfold LongInteger_write, bind.
    rewrite (Base_write_ok _ out 8) by (reflexivity || (cbn; lia)). reflexivity.
  - unfold LongInteger_write, bind.
    rewrite (Base_write_ok _ out 8) by (reflexivity || (cbn; lia)). reflexivity.
  - reflexivity.
Qed.

(** ** Invariants of [read] and [write] *)

Section Keeps.

Variable R : state -> state -> Prop.
Hypothesis R_refl : forall st, R st st.
Hypothesis R_trans : forall a b c, R a b -> R b c -> R a c.

Lemma keeps_ret {A} (a : A) : keeps R (ret a).
Proof. intros st. apply R_refl. Qed.

Lemma keeps_raise {A} (e : exn) : keeps R (@raise A e).
Proof. intros st. apply R_refl. Qed.

Lemma keeps_lift {A} (r : result A) : keeps R (lift r).
Proof. intros st. apply R_refl. Qed.

Lemma keeps_get_self : keeps R get_self.
Proof. intros st. apply R_refl. Qed.

Lemma keeps_bind {A B} (m : M A) (k : A -> M B) :
  keeps R m -> (forall a, keeps R (k a)) -> keeps R (bind m k).
Proof.
  intros Hm Hk st. unfold bind. specialize (Hm st).
  destruct (m st) as [[a|e] st1]; cbn [snd] in *; [|assumption].
  eapply R_trans; [exact Hm|apply Hk].
Qed.

Lemma keeps_number (x : option Z) : keeps R (number x).
Proof. destruct x; [apply keeps_ret|apply keeps_raise]. Qed.

Lemma keeps_the_format (x : option format) : keeps R (the_format x).
Proof. destruct x; [apply keeps_ret|apply keeps_raise]. Qed.

Lemma keeps_for_times (n : nat) (body : M unit) :
  keeps R body -> keeps R (for_times n body).
Proof.
  intros Hb. induction n as [|n IH]; cbn [for_times];
    [apply keeps_ret|apply keeps_bind; auto].
Qed.

Lemma keeps_fold_times {A} (n : nat) (body : A -> M A) (acc : A) :
  (forall a, keeps R (body a)) -> keeps R (fold_times n body acc).
Proof.
  intros Hb. revert acc. induction n as [|n IH]; intros acc;
    cbn [fold_times]; [apply keeps_ret|apply keeps_bind; auto].
Qed.

Lemma keeps_for_each {A} (xs : list A) (body : A -> M unit) :
  (forall a, keeps R (body a)) -> keeps R (for_each xs body).
Proof.
  intros Hb. induction xs as [|x xs IH]; cbn [for_each];
    [apply keeps_ret|apply keeps_bind; auto].
Qed.

End Keeps.

Lemma reads_on_refl (st : state) : reads_on st st.
Proof. unfold reads_on. repeat split. now exists []. Qed.

Lemma reads_on_trans (a b c : state) :
  reads_on a b -> reads_on b c -> reads_on a c.
Proof.
  intros (H1 & H2 & H3 & H4 & H5 & u & Hu) (K1 & K2 & K3 & K4 & K5 & w & Hw).
  unfold reads_on. repeat split; try congruence.
  exists (u ++ w). rewrite Hu, Hw. now rewrite app_assoc.
Qed.

Lemma writes_on_refl (st : state) : writes_on st st.
Proof. unfold writes_on. split; [reflexivity|]. exists []. now rewrite app_nil_r. Qed.

Lemma writes_on_trans (a b c : state) :
  writes_on a b -> writes_on b c -> writes_on a c.
Proof.
  intros (H1 & u & Hu) (K1 & w & Hw). unfold writes_on. split; [congruence|].
  exists (u ++ w). rewrite Hw, Hu. now rewrite app_assoc.
Qed.

Lemma reads_on_istream_read (n : Z) : keeps reads_on (istream_read n).
Proof.
  intros st. unfold reads_on, istream_read. cbn [snd self stream].
  repeat split. exists (firstn (Z.to_nat n) (stream st)).
  now rewrite firstn_skipn.
Qed.

Lemma reads_on_update_self (f : Primitive -> Primitive) :
  (forall o, cls (f o) = cls o /\ ENUM_TYPE (f o) = ENUM_TYPE o /\
             tag (f o) = tag o /\ type (f o) = type o /\
             pack_string (f o) = pack_string o) ->
  keeps reads_on (update_self f).
Proof.
  intros Hf st. unfold reads_on, update_self. cbn [snd self stream].
  destruct (Hf (self st)) as (H1 & H2 & H3 & H4 & H5).
  repeat split; try assumption. now exists [].
Qed.

Lemma writes_on_ostream_write (bs : list byte) :
  keeps writes_on (ostream_write bs).
Proof.
  intros st. unfold writes_on, ostream_write. cbn [snd self stream].
  split; [reflexivity|]. now exists bs.
Qed.

Lemma writes_on_update_self (f : Primitive -> Primitive) :
  (forall o, set_length (f o) None = set_length o None) ->
  keeps writes_on (update_self f).
Proof.
  intros Hf st. unfold writes_on, update_self. cbn [snd self stream].
  split; [apply Hf|]. exists []. now rewrite app_nil_r.
Qed.

Ltac keeps_leaf Rrefl Rtrans :=
  first
    [ apply (keeps_ret _ Rrefl)
    | apply (keeps_raise _ Rrefl)
    | apply (keeps_lift _ Rrefl)
    | apply (keeps_get_self _ Rrefl)
    | apply (keeps_number _ Rrefl)
    | apply (keeps_the_format _ Rrefl)
    | apply reads_on_istream_read
    | apply writes_on_ostream_write
    | apply reads_on_update_self; intros o;
      try (unfold value_iadd; destruct (value o)); repeat split
    | apply writes_on_update_self; intros o; reflexivity ].

Ltac keeps_go Rrefl Rtrans :=
  repeat
    first
      [ keeps_leaf Rrefl Rtrans
      | apply (keeps_bind _ Rtrans); [|intros]
      | apply (keeps_for_times _ Rrefl Rtrans)
      | apply (keeps_fold_times _ Rrefl Rtrans); intros
      | apply (keeps_for_each _ Rrefl Rtrans); intros
      | match goal with
        | |- keeps _ (if ?b then _ else _) => destruct b
        | |- keeps _ (match ?x with _ => _ end) => destruct x
        | |- keeps _ (let '(_, _) := ?p in _) => destruct p
        end ].

Lemma reads_on_Base_read : keeps reads_on Base_read.
Proof.
  unfold Base_read, read_tag, read_type, read_length.
  keeps_go reads_on_refl reads_on_trans.
Qed.

Lemma reads_on_do_validate : keeps reads_on do_validate.
Proof. unfold do_validate. keeps_go reads_on_refl reads_on_trans. Qed.

Lemma reads_on_read_padding (p : Z) : keeps reads_on (read_padding p).
Proof.
  unfold read_padding, for_range, read_pad.
  keeps_go reads_on_refl reads_on_trans.
Qed.

Lemma reads_on_Integer_read : keeps reads_on Integer_read.
Proof.
  unfold Integer_read, Integer_read_value.
  apply (keeps_bind _ reads_on_trans);
    [apply reads_on_Base_read|intros].
  keeps_go reads_on_refl reads_on_trans.
Qed.

Lemma reads_on_LongInteger_read : keeps reads_on LongInteger_read.
Proof.
  unfold LongInteger_read, LongInteger_read_value.
  apply (keeps_bind _ reads_on_trans);
    [apply reads_on_Base_read|intros].
  keeps_go reads_on_refl reads_on_trans.
Qed.

Lemma reads_on_BigInteger_read : keeps reads_on BigInteger_read.
Proof.
  unfold BigInteger_read, BigInteger_read_byte.
  apply (keeps_bind _ reads_on_trans);
    [apply reads_on_Base_read|intros].
  keeps_go reads_on_refl reads_on_trans.
Qed.

Lemma reads_on_Enumeration_read : keeps reads_on Enumeration_read.
Proof.
  unfold Enumeration_read.
  apply (keeps_bind _ reads_on_trans);
    [apply reads_on_Integer_read|intros].
  keeps_go reads_on_refl reads_on_trans.
Qed.

Lemma reads_on_Boolean_read : keeps reads_on Boolean_read.
Proof.
  unfold Boolean_read, Boolean_read_value.
  apply (keeps_bind _ reads_on_trans);
    [apply reads_on_Base_read|intros].
  keeps_go reads_on_refl reads_on_trans.
Qed.

Lemma reads_on_TextString_read : keeps reads_on TextString_read.
Proof.
  unfold TextString_read, TextString_read_value, for_range,
    TextString_read_char.
  apply (keeps_bind _ reads_on_trans);
    [apply reads_on_Base_read|intros].
  keeps_go reads_on_refl reads_on_trans.
  apply reads_on_read_padding.
Qed.

Lemma reads_on_ByteString_read : keeps reads_on ByteString_read.
Proof.
  unfold ByteString_read, ByteString_read_value, ByteString_read_byte.
  apply (keeps_bind _ reads_on_trans);
    [apply reads_on_Base_read|intros].
  keeps_go reads_on_refl reads_on_trans.
  all: apply reads_on_read_padding.
Qed.

(** Whatever the stream holds and whether it returns or raises, [read] of
    any primitive consumes a prefix of the stream and nothing else of it,
    and leaves the class, [ENUM_TYPE], the tag, the type and the format of
    the object as they were: a failed read may have changed the length,
    the value, the padding length and the enum, nothing more. *)
Theorem read_consumes_a_prefix (st : state) : reads_on st (snd (read st)).
Proof.
  revert st. change (keeps reads_on read).
  unfold read. apply (keeps_bind _ reads_on_trans);
    [apply (keeps_get_self _ reads_on_refl)|intros o].
  destruct (cls o);
    auto using reads_on_Integer_read, reads_on_LongInteger_read,
      reads_on_BigInteger_read, reads_on_Enumeration_read,
      reads_on_Boolean_read, reads_on_TextString_read,
      reads_on_ByteString_read.
Qed.

Lemma writes_on_Base_write : keeps writes_on Base_write.
Proof.
  unfold Base_write, write_tag, write_type, write_length.
  keeps_go writes_on_refl writes_on_trans.
Qed.

Lemma writes_on_write_padding (p : Z) : keeps writes_on (write_padding p).
Proof.
  unfold write_padding, for_range, write_pad.
  keeps_go writes_on_refl writes_on_trans.
Qed.

Lemma writes_on_Integer_write : keeps writes_on Integer_write.
Proof.
  unfold Integer_write, Integer_write_value.
  apply (keeps_bind _ writes_on_trans); [apply writes_on_Base_write|intros].
  keeps_go writes_on_refl writes_on_trans.
Qed.

Lemma writes_on_LongInteger_write : keeps writes_on LongInteger_write.
Proof.
  unfold LongInteger_write, LongInteger_write_value.
  apply (keeps_bind _ writes_on_trans); [apply writes_on_Base_write|intros].
  keeps_go writes_on_refl writes_on_trans.
Qed.

Lemma writes_on_BigInteger_write : keeps writes_on BigInteger_write.
Proof.
  unfold BigInteger_write.
  apply (keeps_bind _ writes_on_trans);
    [apply (keeps_get_self _ writes_on_refl)|intros o].
  destruct (index_of (value o)); [|apply (keeps_raise _ writes_on_refl)].
  apply (keeps_bind _ writes_on_trans);
    [apply (keeps_lift _ writes_on_refl)|intros].
  apply (keeps_bind _ writes_on_trans);
    [apply writes_on_update_self; intros; reflexivity|intros].
  apply (keeps_bind _ writes_on_trans); [apply writes_on_Base_write|intros].
  apply writes_on_ostream_write.
Qed.

Lemma writes_on_Boolean_write : keeps writes_on Boolean_write.
Proof.
  unfold Boolean_write, Boolean_write_value.
  apply (keeps_bind _ writes_on_trans); [apply writes_on_Base_write|intros].
  keeps_go writes_on_refl writes_on_trans.
Qed.

Lemma writes_on_TextString_write : keeps writes_on TextString_write.
Proof.
  unfold TextString_write, TextString_write_value, TextString_write_char.
  apply (keeps_bind _ writes_on_trans); [apply writes_on_Base_write|intros].
  apply (keeps_bind _ writes_on_trans);
    [apply (keeps_get_self _ writes_on_refl)|intros o].
  destruct (value o); try apply (keeps_raise _ writes_on_refl).
  keeps_go writes_on_refl writes_on_trans; try apply writes_on_write_padding.
Qed.

Lemma writes_on_ByteString_write : keeps writes_on ByteString_write.
Proof.
  unfold ByteString_write, ByteString_write_value, ByteString_write_byte.
  apply (keeps_bind _ writes_on_trans); [apply writes_on_Base_write|intros].
  apply (keeps_bind _ writes_on_trans);
    [apply (keeps_get_self _ writes_on_refl)|intros o].
  destruct (value o); try apply (keeps_raise _ writes_on_refl).
  keeps_go writes_on_refl writes_on_trans; try apply writes_on_write_padding.
Qed.

(** Whatever the object holds and whether it returns or raises, [write]
    of any primitive only appends to the stream, and changes nothing of
    the object but its length, which [BigInteger.write] computes. *)
Theorem write_only_appends (st : state) : writes_on st (snd (write st)).
Proof.
  revert st. change (keeps writes_on write).
  unfold write. apply (keeps_bind _ writes_on_trans);
    [apply (keeps_get_self _ writes_on_refl)|intros o].
  unfold Enumeration_write.
  destruct (cls o);
    auto using writes_on_Integer_write, writes_on_LongInteger_write,
      writes_on_BigInteger_write, writes_on_Boolean_write,
      writes_on_TextString_write, writes_on_ByteString_write.
Qed.

(** ** The size of an encoding *)

Lemma pack_len (f : format) (v : pyval) (bs : list byte) :
  pack f v = Ok bs -> len bs = Z.of_nat (calcsize f).
Proof.
  unfold pack. destruct (index_of v); [|discriminate].
  destruct (_ && _); [|discriminate]. intros H. inversion H.
  apply len_be_encode.
Qed.

Section Adds.

Variable P : Primitive -> Prop.

Lemma adds_ret {A} (a : A) : adds P 0 (ret a).
Proof. intros st x st' HP H. inversion H. subst. split; [assumption|lia]. Qed.

Lemma adds_raise {A} (n : Z) (e : exn) : adds P n (@raise A e).
Proof. intros st x st' HP H. discriminate. Qed.

Lemma adds_ostream_write (bs : list byte) (n : Z) :
  len bs = n -> adds P n (ostream_write bs).
Proof.
  intros <- st x st' HP H. inversion H. cbn [stream self].
  split; [assumption|apply len_app].
Qed.

Lemma adds_update_self (f : Primitive -> Primitive) :
  (forall o, P o -> P (f o)) -> adds P 0 (update_self f).
Proof.
  intros Hf st x st' HP H. inversion H. cbn [stream self].
  split; [now apply Hf|lia].
Qed.

Lemma adds_bind {A B} (n k s : Z) (m : M A) (f : A -> M B) :
  adds P n m -> (forall a, adds P k (f a)) -> s = n + k ->
  adds P s (bind m f).
Proof.
  intros Hm Hf -> st b st' HP H. unfold bind in H.
  destruct (m st) as [[a|e] st1] eqn:E; [|discriminate].
  apply Hm in E as [HP1 L1]; [|assumption].
  apply Hf in H as [HP2 L2]; [|assumption]. split; [assumption|lia].
Qed.

Lemma adds_lift_bind {A B} (n : Z) (r : result A) (f : A -> M B) :
  (forall a, r = Ok a -> adds P n (f a)) -> adds P n (bind (lift r) f).
Proof.
  intros Hf st b st' HP H. unfold bind, lift in H.
  destruct r as [a|e]; [|discriminate]. now apply (Hf a eq_refl) in H.
Qed.

Lemma adds_ret_bind {A B} (n : Z) (a : A) (f : A -> M B) :
  adds P n (f a) -> adds P n (bind (ret a) f).
Proof. intros Hf st b st' HP H. now apply Hf in H. Qed.

Lemma adds_self_bind {B} (n : Z) (f : Primitive -> M B) :
  (forall o, P o -> adds P n (f o)) -> adds P n (bind get_self f).
Proof.
  intros Hf st b st' HP H. unfold bind, get_self in H.
  now apply (Hf (self st) HP) in H.
Qed.

Lemma adds_pack_write (f : format) (v : pyval) :
  adds P (Z.of_nat (calcsize f))
    (bind (lift (pack f v)) (fun bs => ostream_write bs)).
Proof.
  apply adds_lift_bind. intros bs H. apply adds_ostream_write.
  unfold pack in H. destruct (index_of v); [|discriminate].
  destruct (_ && _); [|discriminate]. inversion H. apply len_be_encode.
Qed.

Lemma adds_for_times (n : nat) (body : M unit) :
  adds P 1 body -> adds P (Z.of_nat n) (for_times n body).
Proof.
  intros Hb. induction n as [|n IH]; cbn [for_times].
  - apply adds_ret.
  - eapply adds_bind; [exact Hb|intros; exact IH|lia].
Qed.

Lemma adds_for_each {A} (xs : list A) (body : A -> M unit) :
  (forall x, adds P 1 (body x)) -> adds P (len xs) (for_each xs body).
Proof.
  intros Hb. induction xs as [|x xs IH]; cbn [for_each].
  - apply adds_ret.
  - eapply adds_bind; [apply Hb|intros; exact IH|].
    unfold len. cbn [List.length]. lia.
Qed.

Lemma adds_Base_write : adds P 8 Base_write.
Proof.
  unfold Base_write.
  apply (adds_bind 3 5); [|intros; apply (adds_bind 1 4); [|intros|]|];
    try reflexivity.
  - unfold write_tag. apply adds_self_bind. intros o _.
    apply adds_lift_bind. intros bs H. apply adds_ostream_write.
    unfold pack in H. cbn [index_of] in H.
    destruct (_ && _); [|discriminate]. inversion H.
    reflexivity.
  - unfold write_type. apply adds_self_bind. intros o _.
    apply (adds_pack_write fmt_B).
  - unfold write_length. apply adds_self_bind. intros o _.
    destruct (length o); [|apply adds_raise].
    destruct (_ >? _); [apply adds_raise|]. apply (adds_pack_write fmt_I).
Qed.

Lemma adds_write_padding (p : Z) : 0 <= p -> adds P p (write_padding p).
Proof.
  intros Hp. unfold write_padding, for_range.
  rewrite <- (Z2Nat.id p) at 1 by assumption.
  apply adds_for_times. unfold write_pad. apply (adds_pack_write fmt_B).
Qed.

End Adds.

Lemma adds_Integer_write (f : format) :
  calcsize f = 4%nat ->
  adds (fun o => pack_string o = Some f) 16 Integer_write.
Proof.
  intros Hc. unfold Integer_write.
  apply (adds_bind _ 8 8); [apply adds_Base_write|intros _|reflexivity].
  unfold Integer_write_value. apply adds_self_bind. intros o Hf.
  rewrite Hf. unfold the_format. apply adds_ret_bind.
  apply adds_lift_bind. intros bs H. apply pack_len in H.
  apply (adds_bind _ 4 4); [|intros _|reflexivity].
  - apply adds_ostream_write. rewrite H, Hc. reflexivity.
  - pose proof (adds_pack_write (fun o => pack_string o = Some f) f (PyInt 0))
      as K.
    rewrite Hc in K. exact K.
Qed.

Lemma adds_LongInteger_write : adds (fun _ => True) 16 LongInteger_write.
Proof.
  unfold LongInteger_write.
  apply (adds_bind _ 8 8); [apply adds_Base_write|intros _|reflexivity].
  unfold LongInteger_write_value. apply adds_self_bind. intros o _.
  apply (adds_pack_write _ fmt_q).
Qed.

Lemma adds_Boolean_write : adds (fun _ => True) 16 Boolean_write.
Proof.
  unfold Boolean_write.
  apply (adds_bind _ 8 8); [apply adds_Base_write|intros _|reflexivity].
  unfold Boolean_write_value. apply adds_self_bind. intros o _.
  apply (adds_pack_write _ fmt_Q).
Qed.

Lemma adds_BigInteger_write (v : Z) :
  adds (fun o => index_of (value o) = Some v) (8 + BigInteger_width v)
    BigInteger_write.
Proof.
  unfold BigInteger_write. apply adds_self_bind. intros o Hv. rewrite Hv.
  rewrite BigInteger_hexadecimal_spec.
  apply adds_lift_bind. intros h Hh. inversion Hh as [Hh']. clear Hh.
  pose proof (BigInteger_width_bounds v) as (H8 & _).
  apply (adds_bind _ 0 (8 + BigInteger_width v));
    [apply adds_update_self; intros o' Ho'; exact Ho'|intros _|reflexivity].
  apply (adds_bind _ 8 (BigInteger_width v));
    [apply adds_Base_write|intros _|reflexivity].
  apply adds_ostream_write. rewrite len_be_encode. lia.
Qed.

Lemma adds_TextString_write (s : str) (p : Z) :
  0 <= p ->
  adds (fun o => value o = PyStr s /\ padding_length o = Some p)
    (8 + (len s + p)) TextString_write.
Proof.
  intros Hp. unfold TextString_write.
  apply (adds_bind _ 8 (len s + p));
    [apply adds_Base_write|intros _|reflexivity].
  unfold TextString_write_value. apply adds_self_bind. intros o (Hv & Hpl).
  rewrite Hv, Hpl.
  apply (adds_bind _ (len s) p); [|intros _|reflexivity].
  - apply adds_for_each. intros c. unfold TextString_write_char.
    apply adds_lift_bind. intros e _. apply adds_lift_bind. intros bs Hb.
    apply adds_ostream_write. unfold pack_c in Hb.
    destruct e as [|b [|? ?]]; try discriminate. now inversion Hb.
  - unfold number. apply adds_ret_bind. now apply adds_write_padding.
Qed.

Lemma adds_ByteString_write (data : list byte) (p : Z) :
  0 <= p ->
  adds (fun o => value o = PyBytes data /\ padding_length o = Some p)
    (8 + (len data + p)) ByteString_write.
Proof.
  intros Hp. unfold ByteString_write.
  apply (adds_bind _ 8 (len data + p));
    [apply adds_Base_write|intros _|reflexivity].
  unfold ByteString_write_value. apply adds_self_bind. intros o (Hv & Hpl).
  rewrite Hv, Hpl.
  apply (adds_bind _ (len data) p); [|intros _|reflexivity].
  - apply adds_for_each. intros c. unfold ByteString_write_byte.
    apply (adds_pack_write _ fmt_B).
  - unfold number. apply adds_ret_bind. now apply adds_write_padding.
Qed.

Lemma Integer_init_fields (o0 o : Primitive) (v : pyval) (t : Z)
  (signed : bool) :
  Integer___init__ o0 v t signed = Ok o ->
  cls o = cls o0 /\ pack_string o = Some (if signed then fmt_i else fmt_I).
Proof.
  unfold Integer___init__. cbv zeta.
  match goal with
  | |- rbind (validate ?x) _ = _ -> _ => destruct (validate x)
  end; [|discriminate].
  cbn [rbind]. intros H. inversion H.
  destruct signed, (is_None _); split; reflexivity.
Qed.

Lemma LongInteger_init_fields (o0 o : Primitive) (v : pyval) (t : Z) :
  LongInteger___init__ o0 v t = Ok o -> cls o = cls o0.
Proof.
  unfold LongInteger___init__. cbv zeta.
  match goal with
  | |- rbind (validate ?x) _ = _ -> _ => destruct (validate x)
  end; [|discriminate].
  cbn [rbind]. intros H. inversion H. reflexivity.
Qed.

Lemma encode_size (W : M unit) (P : Primitive -> Prop) (n : Z)
  (o : Primitive) (bs : list byte) :
  write (mkState o []) = W (mkState o []) ->
  adds P n W -> P o -> encode o = Ok bs -> len bs = n.
Proof.
  intros HW Ha HP. unfold encode. rewrite HW.
  destruct (W (mkState o [])) as [[u|e] st] eqn:E; [|discriminate].
  intros H. inversion H. subst. apply Ha in E as [_ L]; [|exact HP].
  cbn [stream] in L. unfold len at 2 in L. cbn [List.length] in L. lia.
Qed.

Lemma write_of_class (o : Primitive) (s : list byte) :
  write (mkState o s)
  = match cls o with
    | CInteger | CInterval | CEnumeration => Integer_write
    | CLongInteger | CDateTime => LongInteger_write
    | CBigInteger => BigInteger_write
    | CBoolean => Boolean_write
    | CTextString => TextString_write
    | CByteString => ByteString_write
    end (mkState o s).
Proof.
  unfold write, bind, get_self. mstep. destruct (cls o); reflexivity.
Qed.

Lemma aligned_16 (n : Z) : n = 16 -> 8 <= n /\ n mod 8 = 0.
Proof. intros ->. split; [lia|reflexivity]. Qed.

Lemma aligned_string (n l : Z) :
  0 <= l -> n = 8 + (l + (8 - l mod 8) mod 8) -> 8 <= n /\ n mod 8 = 0.
Proof. intros Hl ->. split; Z.div_mod_to_equations; lia. Qed.

Lemma Integer_family_aligned (o : Primitive) (f : format) (bs : list byte) :
  cls o = CInteger \/ cls o = CInterval \/ cls o = CEnumeration ->
  pack_string o = Some f -> calcsize f = 4%nat ->
  encode o = Ok bs -> 8 <= len bs /\ len bs mod 8 = 0.
Proof.
  intros Hc Hf Hs He. apply aligned_16.
  apply (encode_size Integer_write (fun o => pack_string o = Some f) 16 o);
    try assumption.
  - rewrite write_of_class. destruct Hc as [-> | [-> | ->]]; reflexivity.
  - now apply adds_Integer_write.
Qed.

Lemma LongInteger_family_aligned (o : Primitive) (bs : list byte) :
  cls o = CLongInteger \/ cls o = CDateTime ->
  encode o = Ok bs -> 8 <= len bs /\ len bs mod 8 = 0.
Proof.
  intros Hc He. apply aligned_16.
  apply (encode_size LongInteger_write (fun _ => True) 16 o);
    try assumption; try exact I.
  - rewrite write_of_class. destruct Hc as [-> | ->]; reflexivity.
  - apply adds_LongInteger_write.
Qed.

(** Every encoding is a whole number of 8-octet words: whatever value a
    primitive was constructed with, if [write] returns, the octets it wrote
    are at least the eight of the header and a multiple of 8 in number. *)
Theorem encoding_is_aligned (o : Primitive) (bs : list byte) :
  constructed o -> encode o = Ok bs -> 8 <= len bs /\ len bs mod 8 = 0.
Proof.
  intros (v & t & H) He.
  destruct H as [(signed & H) | [H | [H | [(E & H) | [H | [H | [H | [H | H]]]]]]]].
  - apply Integer_init_fields in H as (Hc & Hf). cbn [cls new] in Hc.
    apply (Integer_family_aligned o _ bs (or_introl Hc) Hf);
      [destruct signed; reflexivity|assumption].
  - apply LongInteger_init_fields in H. cbn [cls new] in H.
    now apply (LongInteger_family_aligned o bs (or_introl H)).
  - assert (cls o = CBigInteger /\ value o = v) as (Hc & Hv).
    { unfold BigInteger, BigInteger___init__ in H. cbv zeta in H.
      match type of H with
      | rbind (validate ?x) _ = _ => destruct (validate x)
      end; [|discriminate].
      cbn [rbind] in H. inversion H. split; reflexivity. }
    destruct (index_of (value o)) as [z|] eqn:Ez.
    + pose proof (BigInteger_width_bounds z) as (H8 & Hm & _).
      assert (len bs = 8 + BigInteger_width z) as ->.
      { apply (encode_size BigInteger_write
                 (fun o => index_of (value o) = Some z) _ o);
          try assumption.
        - rewrite write_of_class, Hc. reflexivity.
        - apply adds_BigInteger_write. }
      split; [lia|]. Z.div_mod_to_equations. lia.
    + unfold encode in He. rewrite write_of_class, Hc in He.
      unfold BigInteger_write, bind, get_self in He. mstep.
      cbn [self] in He. rewrite Ez in He. discriminate.
  - unfold Enumeration, Enumeration___init__ in H. cbv zeta in H.
    match type of H with
    | rbind (validate ?x) _ = _ => destruct (validate x)
    end; [|discriminate].
    cbn [rbind] in H.
    match type of H with
    | rbind ?r _ = _ => destruct r as [o1|] eqn:E1
    end; [|discriminate].
    cbn [rbind] in H. inversion H. subst o.
    assert (cls o1 = CEnumeration /\ pack_string o1 = Some fmt_I)
      as (Hc & Hf).
    { destruct (is_None _); apply Integer_init_fields in E1 as (Hc & Hf);
        split; assumption. }
    apply (Integer_family_aligned (set_type o1 ENUMERATION) fmt_I bs);
      [right; right; exact Hc|exact Hf|reflexivity|assumption].
  - rewrite Boolean_construction in H.
    destruct (_ && _); [discriminate|]. inversion H. subst o.
    apply aligned_16.
    eapply (encode_size Boolean_write (fun _ => True) 16);
      try eassumption; try exact I.
    + apply write_of_class.
    + apply adds_Boolean_write.
  - rewrite TextString_construction in H.
    destruct v as [|b|z|s|data|n c]; try discriminate; inversion H; subst o.
    + apply (aligned_string _ 0); [lia|].
      eapply (encode_size TextString_write
                (fun o => value o = PyStr [] /\ padding_length o = Some 0));
        try eassumption.
      * apply write_of_class.
      * apply (adds_TextString_write [] 0). lia.
      * split; reflexivity.
    + pose proof (len_nonneg s) as Hn.
      apply (aligned_string _ (len s)); [lia|].
      eapply (encode_size TextString_write
                (fun o => value o = PyStr s /\
                          padding_length o = Some ((8 - len s mod 8) mod 8)));
        try eassumption.
      * apply write_of_class.
      * apply adds_TextString_write. Z.div_mod_to_equations. lia.
      * split; reflexivity.
  - assert (exists data,
              o = mkPrimitive CByteString None t BYTE_STRING (Some (len data))
                    (PyBytes data) (Some ((8 - len data mod 8) mod 8)) None
                    PyNone) as (data & ->).
    { rewrite ByteString_construction in H. cbv zeta in H.
      destruct v as [|b|z|s|data|n c]; try discriminate.
      - exists []. injection H as <-. reflexivity.
      - exists (repeat x00 (if b then 1 else 0)%nat). injection H as <-.
        reflexivity.
      - destruct (z <? 0); [discriminate|].
        exists (repeat x00 (Z.to_nat z)). injection H as <-. reflexivity.
      - exists data. injection H as <-. reflexivity. }
    pose proof (len_nonneg data) as Hn.
    apply (aligned_string _ (len data)); [lia|].
    eapply (encode_size ByteString_write
              (fun o => value o = PyBytes data /\
                        padding_length o = Some ((8 - len data mod 8) mod 8)));
      try eassumption.
    + apply write_of_class.
    + apply adds_ByteString_write. Z.div_mod_to_equations. lia.
    + split; reflexivity.
  - unfold DateTime in H.
    destruct (LongInteger___init__ _ v t) as [o1|] eqn:E1; [|discriminate].
    cbn [rbind] in H. inversion H. subst o.
    apply LongInteger_init_fields in E1. cbn [cls new] in E1.
    apply (LongInteger_family_aligned (set_type o1 DATE_TIME) bs);
      [right; exact E1|assumption].
  - unfold Interval in H.
    destruct (Integer___init__ _ v t true) as [o1|] eqn:E1; [|discriminate].
    cbn [rbind] in H. inversion H. subst o.
    apply Integer_init_fields in E1 as (Hc & Hf). cbn [cls new] in Hc.
    apply (Integer_family_aligned (set_type o1 INTERVAL) fmt_i bs);
      [right; left; exact Hc|exact Hf|reflexivity|assumption].
Qed.

(** ** The octets of the other classes *)

(** The wire encodings the claims do not state.  A [LongInteger] is the
    header with type 0x03 and length 8 and the value as 8 big-endian
    octets in two's complement, and a [DateTime] the same with type 0x09;
    a [Boolean] is 8 octets holding 0 or 1; an [Enumeration] is the value
    of its member as 4 unsigned octets and 4 zero octets; a [ByteString] is
    its octets, zero padded to a multiple of 8. *)
Theorem wire_encodings (t : Z) :
  0 <= t < 2 ^ 32 ->
  (forall v, - 2 ^ 63 <= v <= 2 ^ 63 - 1 ->
     exists o d,
       LongInteger (PyInt v) t = Ok o /\ DateTime (PyInt v) t = Ok d /\
       encode o = Ok (header t LONG_INTEGER 8 ++ be_encode 8 v) /\
       encode d = Ok (header t DATE_TIME 8 ++ be_encode 8 v)) /\
  (forall b : bool,
     exists o,
       Boolean (PyBool b) t = Ok o /\
       encode o = Ok (header t BOOLEAN 8 ++ be_encode 8 (Z_of_bool b))) /\
  (forall (E : EnumType) (name : string) (code : Z),
     0 <= code <= 2 ^ 32 - 1 ->
     exists o,
       Enumeration (Some E) (PyEnum name code) t = Ok o /\
       encode o
       = Ok (header t ENUMERATION 4 ++ be_encode 4 code ++ repeat x00 4)) /\
  (forall bs : list byte, len bs < 2 ^ 32 ->
     exists o,
       ByteString (PyBytes bs) t = Ok o /\
       encode o = Ok (header t BYTE_STRING (len bs) ++ bs ++ padding (len bs))).
Proof.
  intros Ht. split; [|split; [|split]].
  - intros v Hv. do 2 eexists. split; [|split; [|split]].
    + unfold LongInteger. rewrite LongInteger_init_ok by (now left).
      unfold LongInteger_MIN, LongInteger_MAX. zbool. cbn [andb]. reflexivity.
    + rewrite DateTime_init. unfold LongInteger_MIN, LongInteger_MAX. zbool.
      cbn [andb]. reflexivity.
    + unfold encode, write, bind, get_self. mstep. cbn [cls new].
      rewrite (LongInteger_write_ok _ _ v)
        by (reflexivity || (unfold LongInteger_MIN, LongInteger_MAX; cbn; lia)).
      reflexivity.
    + unfold encode, write, bind, get_self. mstep. cbn [cls].
      rewrite (LongInteger_write_ok _ _ v)
        by (reflexivity || (unfold LongInteger_MIN, LongInteger_MAX; cbn; lia)).
      reflexivity.
  - intros b. eexists. split; [destruct b; vm_compute; reflexivity|].
    unfold encode, write, bind, get_self. mstep.
    match goal with
    | |- context [cls ?o] =>
        replace (cls o) with CBoolean by (destruct b; reflexivity)
    end.
    rewrite (Boolean_write_ok _ _ b)
      by (destruct b; reflexivity || (cbn; lia)).
    destruct b; reflexivity.
  - intros E name code Hc. eexists. split; [apply Enumeration_init|].
    unfold encode, write, bind, get_self. mstep. cbn [cls].
    unfold Enumeration_write.
    rewrite (Integer_write_ok _ _ fmt_I code) by (reflexivity || (cbn; lia)).
    reflexivity.
  - intros bs Hl. eexists. split; [apply ByteString_init|].
    unfold encode, write, bind, get_self. mstep. cbn [cls].
    rewrite (ByteString_write_ok _ _ bs ((8 - len bs mod 8) mod 8))
      by (reflexivity || assumption || (cbn; lia)).
    reflexivity.
Qed.

Lemma TextString_read_chars_bad (pre post : list byte) (b : byte)
  (o : Primitive) (acc : str) (m : nat) :
  Forall (fun c => Z_of_byte c < 128) pre -> 128 <= Z_of_byte b ->
  value o = PyStr acc ->
  for_times (List.length pre + S m) TextString_read_char
    (mkState o (pre ++ b :: post))
  = (Raise UnicodeDecodeError,
     mkState (set_value o (PyStr (acc ++ map Byte.to_N pre))) post).
Proof.
  revert o acc. induction pre as [|a pre IH]; intros o acc Hs Hb Hv.
  - cbn [List.length Nat.add for_times app map]. rewrite app_nil_r.
    unfold bind at 1. unfold TextString_read_char at 1, bind.
    change (b :: post) with ([b] ++ post).
    rewrite istream_read_app by reflexivity. mstep.
    unfold lift. cbn [unpack_c]. mstep. unfold decode_byte.
    destruct (Z.ltb_spec (Z_of_byte b) 128); [lia|]. mstep.
    destruct o. cbn in Hv. subst. reflexivity.
  - inversion Hs as [|? ? Ha Hpre]; subst.
    cbn [List.length Nat.add for_times].
    unfold bind at 1. unfold TextString_read_char at 1, bind.
    change ((a :: pre) ++ b :: post) with ([a] ++ pre ++ b :: post).
    rewrite istream_read_app by reflexivity. mstep.
    unfold lift. cbn [unpack_c]. mstep. unfold decode_byte.
    destruct (Z.ltb_spec (Z_of_byte a) 128); [|lia]. mstep.
    unfold update_self, value_iadd. mstep. rewrite Hv.
    rewrite (IH _ (acc ++ [Byte.to_N a])) by (assumption || reflexivity).
    cbn [map]. rewrite <- app_assoc. destruct o; reflexivity.
Qed.

(** [TextString.read] decodes each octet on its own, so text holding an
    octet outside ASCII, as every UTF-8 sequence of more than one octet
    does, cannot be read: [read] raises [UnicodeDecodeError] at the first
    such octet, the stream stands right after it, and the object holds the
    characters read before it. *)
Theorem TextString_read_non_ascii (o : Primitive) (l : Z)
  (pre post : list byte) (b : byte) :
  In (tag o) Tags -> 0 <= tag o < 2 ^ 24 -> cls o = CTextString ->
  len pre < l < 2 ^ 32 ->
  Forall (fun c => Z_of_byte c < 128) pre -> 128 <= Z_of_byte b ->
  read (mkState o (header (tag o) (type o) l ++ pre ++ b :: post))
  = (Raise UnicodeDecodeError,
     mkState (set_value (set_length o (Some l)) (PyStr (map Byte.to_N pre)))
       post).
Proof.
  intros Hin Ht Hc Hl Ha Hb. pose proof (len_nonneg pre) as Hn.
  unfold read, bind, get_self. mstep. rewrite Hc.
  unfold TextString_read, bind.
  rewrite Base_read_ok by (reflexivity || assumption || lia). mstep.
  unfold TextString_read_value, bind, update_self at 1. mstep.
  unfold get_self at 1. mstep. cbn [length set_value set_length number].
  unfold ret at 1, for_range.
  destruct (short_split l pre (proj1 Hl)) as (m & ->).
  rewrite (TextString_read_chars_bad pre post b _ [])
    by (assumption || reflexivity).
  reflexivity.
Qed.

End Codec.


(** * The scenarios of the spec

    The encodings the spec lists for the tag 0x420020, octet for octet. *)

Example scenario_Integer_8 :
  rbind (Integer (PyInt 8) 4325408 true) encode
  = Ok [x42; x00; x20; x02; x00; x00; x00; x04;
        x00; x00; x00; x08; x00; x00; x00; x00].
Proof. vm_compute. reflexivity. Qed.

Example scenario_Integer_8_decoded :
  rbind (Integer PyNone 4325408 true)
    (fun o =>
       rbind
         (decode Tags_sample o
            [x42; x00; x20; x02; x00; x00; x00; x04;
             x00; x00; x00; x08; x00; x00; x00; x00])
         (fun r => Ok (value (fst r), snd r)))
  = Ok (PyInt 8, []).
Proof. vm_compute. reflexivity. Qed.

Example scenario_LongInteger_minus_1 :
  rbind (LongInteger (PyInt (-1)) 4325408) encode
  = Ok [x42; x00; x20; x03; x00; x00; x00; x08;
        xff; xff; xff; xff; xff; xff; xff; xff].
Proof. vm_compute. reflexivity. Qed.

Example scenario_BigInteger_1 :
  rbind (BigInteger (PyInt 1) 4325408) encode
  = Ok [x42; x00; x20; x04; x00; x00; x00; x08;
        x00; x00; x00; x00; x00; x00; x00; x01].
Proof. vm_compute. reflexivity. Qed.

Example scenario_BigInteger_minus_1 :
  rbind (BigInteger (PyInt (-1)) 4325408) encode
  = Ok [x42; x00; x20; x04; x00; x00; x00; x08;
        xff; xff; xff; xff; xff; xff; xff; xff].
Proof. vm_compute. reflexivity. Qed.

Example scenario_Boolean_true :
  rbind (Boolean (PyBool true) 4325408) encode
  = Ok [x42; x00; x20; x06; x00; x00; x00; x08;
        x00; x00; x00; x00; x00; x00; x00; x01].
Proof. vm_compute. reflexivity. Qed.

Example scenario_TextString_Hello_World :
  rbind (TextString (PyStr (text "Hello World")) 4325408) encode
  = Ok [x42; x00; x20; x07; x00; x00; x00; x0b;
        x48; x65; x6c; x6c; x6f; x20; x57; x6f;
        x72; x6c; x64; x00; x00; x00; x00; x00].
Proof. vm_compute. reflexivity. Qed.

Example scenario_Boolean_2_decoded :
  rbind (Boolean (PyBool true) 4325408)
    (fun o =>
       decode Tags_sample o
         [x42; x00; x20; x06; x00; x00; x00; x08;
          x00; x00; x00; x00; x00; x00; x00; x02])
  = Raise ValueError.
Proof. vm_compute. reflexivity. Qed.


(** * The claims at concrete primitives

    The theorems above applied to the primitives of the spec's scenarios
    (tag 0x420020), and the inputs at which a claim as the spec words it
    fails. *)

(** C1 at the values of the spec's scenarios. *)
Lemma decode_encode_round_trip_witness :
  round_trips Tags_sample (Integer (PyInt 8) 4325408 true)
    (Integer PyNone 4325408 true) (fun o' => value o' = PyInt 8) /\
  round_trips Tags_sample (LongInteger (PyInt (-1)) 4325408)
    (LongInteger (PyInt 0) 4325408) (fun o' => value o' = PyInt (-1)) /\
  round_trips Tags_sample (BigInteger (PyInt (-1)) 4325408)
    (BigInteger (PyInt 0) 4325408) (fun o' => value o' = PyInt (-1)) /\
  round_trips Tags_sample
    (Enumeration (Some [("AES"%string, 3)]) (PyEnum "AES" 3) 4325408)
    (Enumeration (Some [("AES"%string, 3)]) PyNone 4325408)
    (fun o' => enum o' = PyEnum "AES" 3 /\ value o' = PyInt 3) /\
  round_trips Tags_sample (Boolean (PyBool true) 4325408)
    (Boolean (PyBool true) 4325408) (fun o' => value o' = PyBool true) /\
  round_trips Tags_sample (TextString (PyStr (text "Hello World")) 4325408)
    (TextString PyNone 4325408)
    (fun o' => value o' = PyStr (text "Hello World")) /\
  round_trips Tags_sample (ByteString (PyBytes [x01; x02; x03]) 4325408)
    (ByteString PyNone 4325408)
    (fun o' => value o' = PyBytes [x01; x02; x03]) /\
  round_trips Tags_sample (DateTime (PyInt 1400000000) 4325408)
    (DateTime PyNone 4325408) (fun o' => value o' = PyInt 1400000000) /\
  round_trips Tags_sample (Interval (PyInt 60) 4325408)
    (Interval PyNone 4325408) (fun o' => value o' = PyInt 60).
Proof.
  destruct (decode_encode_round_trip Tags_sample 4325408)
    as (HI & HL & HB & HE & HBo & HT & HBy & HD & HIv).
  - simpl. auto.
  - lia.
  - split; [apply HI; lia|]. split; [apply HL; lia|].
    split; [apply HB; vm_compute; reflexivity|].
    split; [apply HE; [lia|reflexivity]|]. split; [apply HBo|].
    split; [apply HT; [reflexivity|vm_compute; reflexivity]|].
    split; [apply HBy; vm_compute; reflexivity|].
    split; [apply HD; lia|apply HIv; lia].
Defined.

(** C1 fails for a string outside ASCII: [TextString("é")] is constructed,
    and encoding it raises [struct.error], since ['é'.encode()] has two
    octets and ['!c'] packs one.  It fails as well at 2^31, a value of the
    unsigned 32-bit domain the spec gives [Interval]: the constructor raises
    [ValueError]. *)
Lemma decode_encode_counterexample :
  (exists o,
     TextString (PyStr [233%N]) 4325408 = Ok o /\
     encode o = Raise struct_error) /\
  ~ round_trips Tags_sample (TextString (PyStr [233%N]) 4325408)
      (TextString PyNone 4325408) (fun o' => value o' = PyStr [233%N]) /\
  Interval (PyInt 2147483648) 4325408 = Raise ValueError.
Proof.
  split; [eexists; split; [vm_compute; reflexivity|vm_compute; reflexivity]|].
  split; [|vm_compute; reflexivity].
  intros (o & bs & o0 & o' & Hmk & Henc & _).
  vm_compute in Hmk. injection Hmk as <-. vm_compute in Henc. discriminate.
Qed.

(** C2 at the encodings of the spec's scenarios. *)
Lemma encode_decode_reproduces_witness :
  reencodes Tags_sample (Integer PyNone 4325408 true)
    (header 4325408 INTEGER 4 ++ [x00; x00; x00; x08] ++ repeat x00 4) /\
  reencodes Tags_sample (LongInteger (PyInt 0) 4325408)
    (header 4325408 LONG_INTEGER 8 ++ repeat xff 8) /\
  reencodes Tags_sample (BigInteger (PyInt 0) 4325408)
    (header 4325408 BIG_INTEGER (len (repeat xff 8)) ++ repeat xff 8) /\
  reencodes Tags_sample (Enumeration (Some [("AES"%string, 3)]) PyNone 4325408)
    (header 4325408 ENUMERATION 4 ++ [x00; x00; x00; x03] ++ repeat x00 4) /\
  reencodes Tags_sample (Boolean (PyBool true) 4325408)
    (header 4325408 BOOLEAN 8 ++ be_encode 8 (Z_of_bool true)) /\
  reencodes Tags_sample (TextString PyNone 4325408)
    (header 4325408 TEXT_STRING (len (ascii_octets (text "Hello World")))
       ++ ascii_octets (text "Hello World")
       ++ padding (len (ascii_octets (text "Hello World")))) /\
  reencodes Tags_sample (ByteString PyNone 4325408)
    (header 4325408 BYTE_STRING (len [x01; x02; x03]) ++ [x01; x02; x03]
       ++ padding (len [x01; x02; x03])) /\
  reencodes Tags_sample (DateTime PyNone 4325408)
    (header 4325408 DATE_TIME 8 ++ repeat xff 8) /\
  reencodes Tags_sample (Interval PyNone 4325408)
    (header 4325408 INTERVAL 4 ++ [x00; x00; x00; x3c] ++ repeat x00 4).
Proof.
  destruct (encode_decode_reproduces Tags_sample 4325408)
    as (HI & HL & HB & HE & HBo & HT & HBy & HD & HIv).
  - simpl. auto.
  - lia.
  - split; [apply HI; reflexivity|]. split; [apply HL; reflexivity|].
    split; [apply HB; vm_compute; intuition congruence|].
    split; [apply (HE _ _ "AES"%string); reflexivity|]. split; [apply HBo|].
    split;
      [apply HT;
       [repeat constructor|vm_compute; reflexivity|vm_compute; discriminate]|].
    split; [apply HBy; vm_compute; reflexivity|].
    split; [apply HD; reflexivity|apply HIv; reflexivity].
Defined.

(** C2 fails for a [BigInteger] whose value field is longer than its value
    needs: the 16 octets [00 .. 00 01] with length 16 are a valid encoding,
    they decode to 1, and 1 is encoded with 8 octets and length 8. *)
Lemma encode_decode_counterexample :
  exists o0 o' b',
    BigInteger (PyInt 0) 4325408 = Ok o0 /\
    decode Tags_sample o0
      (header 4325408 BIG_INTEGER 16 ++ repeat x00 15 ++ [x01])
    = Ok (o', []) /\
    value o' = PyInt 1 /\
    encode o' = Ok b' /\
    b' = header 4325408 BIG_INTEGER 8 ++ repeat x00 7 ++ [x01] /\
    b' <> header 4325408 BIG_INTEGER 16 ++ repeat x00 15 ++ [x01].
Proof.
  do 3 eexists. split; [vm_compute; reflexivity|].
  split; [vm_compute; reflexivity|]. split; [reflexivity|].
  split; [vm_compute; reflexivity|]. split; [vm_compute; reflexivity|].
  vm_compute. discriminate.
Qed.


(** C3 at the BigInteger of the spec's scenario, -1. *)
Lemma BigInteger_encoding_sign_extended_witness :
  exists o w,
    BigInteger (PyInt (-1)) 4325408 = Ok o /\
    encode o = Ok (header 4325408 BIG_INTEGER w ++ sign_extended w (-1)) /\
    w = 8 * (bit_length (-1) / 64 + 1) /\ 8 <= w /\ w mod 8 = 0 /\
    (~ extra_word (-1) -> sign_extended w (-1) = spec_BigInteger (-1)) /\
    (extra_word (-1) ->
     sign_extended w (-1) = repeat xff 8 ++ spec_BigInteger (-1)) /\
    (-1 = 0 -> sign_extended w (-1) = repeat x00 8).
Proof.
  apply (BigInteger_encoding_sign_extended 4325408 (-1)).
  - lia.
  - vm_compute. reflexivity.
Defined.

(** C3 fails at [- 2 ^ 63]: its minimal two's-complement representation is
    the 8 octets [80 00 .. 00], already on an 8-octet boundary, and
    [BigInteger.write] writes 16 octets, eight 0xFF before them. *)
Lemma BigInteger_encoding_counterexample :
  spec_BigInteger (- 2 ^ 63) = x80 :: repeat x00 7 /\
  BigInteger_hexadecimal (- 2 ^ 63)
  = Ok (repeat xff 8 ++ x80 :: repeat x00 7) /\
  exists o,
    BigInteger (PyInt (- 2 ^ 63)) 4325408 = Ok o /\
    encode o
    = Ok (header 4325408 BIG_INTEGER 16 ++ repeat xff 8 ++ x80 :: repeat x00 7).
Proof.
  split; [vm_compute; reflexivity|]. split; [vm_compute; reflexivity|].
  eexists. split; [vm_compute; reflexivity|vm_compute; reflexivity].
Qed.

(** C4 at an interval of 60 (seconds). *)
Lemma Interval_wire_encoding_witness :
  (exists o i,
     Interval (PyInt 60) 4325408 = Ok o /\
     Integer (PyInt 60) 4325408 true = Ok i /\
     encode o = Ok (header 4325408 INTERVAL 4 ++ be_encode 4 60 ++ repeat x00 4) /\
     encode i = Ok (header 4325408 INTEGER 4 ++ be_encode 4 60 ++ repeat x00 4)) /\
  (forall v4 : list byte,
     List.length v4 = 4%nat ->
     exists o0 o',
       Interval PyNone 4325408 = Ok o0 /\
       decode Tags_sample o0 (header 4325408 INTERVAL 4 ++ v4 ++ repeat x00 4)
       = Ok (o', []) /\
       value o' = PyInt (be_signed v4)).
Proof.
  apply (Interval_wire_encoding Tags_sample 4325408 60).
  - simpl. auto.
  - lia.
  - lia.
Defined.

(** C4 fails at 2^31, a value of [0, 2^32 - 1]: constructing the
    [Interval] raises [ValueError]; and the value octets [FF FF FF FF]
    decode to -1, not to 2^32 - 1. *)
Lemma Interval_counterexample :
  Interval (PyInt 2147483648) 4325408 = Raise ValueError /\
  exists o0 o',
    Interval PyNone 4325408 = Ok o0 /\
    decode Tags_sample o0
      (header 4325408 INTERVAL 4 ++ repeat xff 4 ++ repeat x00 4)
    = Ok (o', []) /\
    value o' = PyInt (-1).
Proof.
  split; [vm_compute; reflexivity|].
  do 2 eexists. split; [vm_compute; reflexivity|].
  split; [vm_compute; reflexivity|reflexivity].
Qed.

(** C5 fails on both sides of the range: 2^31 lies in [0, 2^32 - 1] and
    is refused with [ValueError]; -1 lies outside and is accepted. *)
Lemma Integer_unsigned_counterexample :
  Integer (PyInt 2147483648) 4325408 false = Raise ValueError /\
  Integer (PyInt (-1)) 4325408 false
  = Ok (mkPrimitive CInteger None 4325408 INTEGER (Some 4) (PyInt (-1))
          (Some 4) (Some fmt_I) PyNone).
Proof. split; vm_compute; reflexivity. Qed.

(** C6 at the text of the spec's scenario: length 11, 5 pad octets. *)
Lemma TextString_length_and_padding_witness :
  exists o bs,
    TextString (PyStr (text "Hello World")) 4325408 = Ok o /\
    str_encode (text "Hello World") = Ok bs /\
    length o = Some (len bs) /\
    encode o
    = Ok (header 4325408 TEXT_STRING (len bs) ++ bs ++ padding (len bs)).
Proof.
  apply (TextString_length_and_padding 4325408 (text "Hello World")).
  - lia.
  - reflexivity.
  - vm_compute. reflexivity.
Defined.

(** C6 fails for ["é"]: its UTF-8 encoding has 2 octets, the header
    written carries the length 1, the number of characters, and no value
    octet follows it, as packing the character raises [struct.error]. *)
Lemma TextString_length_counterexample :
  exists o,
    TextString (PyStr [233%N]) 4325408 = Ok o /\
    str_encode [233%N] = Ok [xc3; xa9] /\
    length o = Some 1 /\
    write (mkState o [])
    = (Raise struct_error, mkState o (header 4325408 TEXT_STRING 1)).
Proof.
  eexists. split; [vm_compute; reflexivity|].
  split; [vm_compute; reflexivity|]. split; vm_compute; reflexivity.
Qed.

(** C7 at a header whose tag, 0x42007B, is not the expected 0x420020. *)
Lemma header_ReadValueError_cases_witness :
  fst (Base_read Tags_sample
         (mkState
            (mkPrimitive CInteger None 4325408 INTEGER (Some 4) (PyInt 0)
               (Some 4) (Some fmt_i) PyNone)
            [x42; x00; x7b; x02; x00; x00; x00; x04]))
  = Raise ReadValueError.
Proof.
  apply (proj2 (header_ReadValueError_cases Tags_sample _ x42 x00 x7b _)).
  left. split.
  - simpl. auto.
  - vm_compute. discriminate.
Defined.

(** C7 fails in both directions.  With fewer octets than the tag requires
    header decoding raises [struct.error], not [ReadValueError]; and a
    decoded tag that differs from the expected one, but is no member of
    [Tags], raises [ValueError]. *)
Lemma header_ReadValueError_counterexample :
  fst (Base_read Tags_sample
         (mkState
            (mkPrimitive CInteger None 4325408 INTEGER (Some 4) (PyInt 0)
               (Some 4) (Some fmt_i) PyNone)
            [x42; x00]))
  = Raise struct_error /\
  fst (Base_read Tags_sample
         (mkState
            (mkPrimitive CInteger None 4325408 INTEGER (Some 4) (PyInt 0)
               (Some 4) (Some fmt_i) PyNone)
            [x00; x00; x00; x02; x00; x00; x00; x04]))
  = Raise ValueError.
Proof. split; vm_compute; reflexivity. Qed.

(** C8 at a received BigInteger header of length zero. *)
Lemma BigInteger_read_zero_length_witness :
  BigInteger_read Tags_sample
    (mkState
       (mkPrimitive CBigInteger None 4325408 BIG_INTEGER None (PyInt 0) None
          None PyNone)
       (header 4325408 BIG_INTEGER 0 ++ []))
  = (Raise IndexError,
     mkState
       (mkPrimitive CBigInteger None 4325408 BIG_INTEGER (Some 0) (PyInt 0)
          None None PyNone)
       []).
Proof.
  apply (BigInteger_read_zero_length Tags_sample
           (mkPrimitive CBigInteger None 4325408 BIG_INTEGER None (PyInt 0)
              None None PyNone) []).
  - simpl. auto.
  - simpl. lia.
  - reflexivity.
Defined.

(** C10 at the tag octets [00 00 00] and at the type octet [FF]. *)
Lemma header_ValueError_outside_enum_witness :
  read_tag Tags_sample
    (mkState
       (mkPrimitive CInteger None 4325408 INTEGER (Some 4) (PyInt 0) (Some 4)
          (Some fmt_i) PyNone)
       [x00; x00; x00; x02])
  = (Raise ValueError,
     mkState
       (mkPrimitive CInteger None 4325408 INTEGER (Some 4) (PyInt 0) (Some 4)
          (Some fmt_i) PyNone)
       [x02]) /\
  fst (Base_read Tags_sample
         (mkState
            (mkPrimitive CInteger None 4325408 INTEGER (Some 4) (PyInt 0)
               (Some 4) (Some fmt_i) PyNone)
            [x42; x00; x20; xff; x00; x00; x00; x04]))
  = Raise ValueError.
Proof.
  destruct (header_ValueError_outside_enum Tags_sample) as (Htag & _ & Hty).
  split.
  - apply Htag. simpl. intros [H|[H|[]]]; discriminate.
  - apply Hty.
    + simpl. auto.
    + reflexivity.
    + intros ty. destruct ty; vm_compute; discriminate.
Defined.


(** [BigInteger.read] at a length of 4, and at a length of 8 followed by
    the octets of -1. *)
Lemma BigInteger_read_lengths_witness :
  BigInteger_read Tags_sample
    (mkState
       (mkPrimitive CBigInteger None 4325408 BIG_INTEGER None (PyInt 0) None
          None PyNone)
       (header 4325408 BIG_INTEGER 4 ++ [x01; x01; x01; x01]))
  = (Raise InvalidPrimitiveLength,
     mkState
       (mkPrimitive CBigInteger None 4325408 BIG_INTEGER (Some 4) (PyInt 0)
          None None PyNone)
       [x01; x01; x01; x01]) /\
  BigInteger_read Tags_sample
    (mkState
       (mkPrimitive CBigInteger None 4325408 BIG_INTEGER None (PyInt 0) None
          None PyNone)
       (header 4325408 BIG_INTEGER 8 ++ repeat xff 8 ++ []))
  = (Ok tt,
     mkState
       (mkPrimitive CBigInteger None 4325408 BIG_INTEGER (Some 8)
          (PyInt (be_signed (repeat xff 8))) None None PyNone)
       []).
Proof.
  split.
  - apply (BigInteger_read_lengths Tags_sample
             (mkPrimitive CBigInteger None 4325408 BIG_INTEGER None (PyInt 0)
                None None PyNone) 4 [] [x01; x01; x01; x01]).
    + simpl. auto.
    + simpl. lia.
    + reflexivity.
    + lia.
    + vm_compute. discriminate.
  - apply (BigInteger_read_lengths Tags_sample
             (mkPrimitive CBigInteger None 4325408 BIG_INTEGER None (PyInt 0)
                None None PyNone) 8 (repeat xff 8) []).
    + simpl. auto.
    + simpl. lia.
    + reflexivity.
    + lia.
    + reflexivity.
    + lia.
    + reflexivity.
Defined.

(** A decoded [TextString] of the 8 characters ["ABCDEFGH"]. *)
Lemma TextString_read_aligned_padding_witness :
  exists o0 o',
    TextString PyNone 4325408 = Ok o0 /\
    decode Tags_sample o0
      (header 4325408 TEXT_STRING (len (ascii_octets (text "ABCDEFGH")))
         ++ ascii_octets (text "ABCDEFGH"))
    = Ok (o', []) /\
    padding_length o' = Some 8 /\
    encode o'
    = Ok ((header 4325408 TEXT_STRING (len (ascii_octets (text "ABCDEFGH")))
            ++ ascii_octets (text "ABCDEFGH")) ++ repeat x00 8).
Proof.
  apply (TextString_read_aligned_padding Tags_sample 4325408
           (ascii_octets (text "ABCDEFGH"))).
  - simpl. auto.
  - lia.
  - repeat constructor.
  - vm_compute. reflexivity.
  - reflexivity.
Defined.

(** An [Enumeration] member with the value -1. *)
Lemma Enumeration_construction_witness :
  exists o,
    Enumeration (Some [("X"%string, -1)]) (PyEnum "X" (-1)) 4325408 = Ok o /\
    value o = PyInt (-1) /\ encode o = Raise struct_error.
Proof.
  destruct (Enumeration_construction [("X"%string, -1)] "X" (-1) 4325408)
    as (o & Hmk & Hv & Henc).
  exists o. split; [exact Hmk|]. split; [exact Hv|].
  apply Henc; lia.
Defined.


(** * The further properties at concrete primitives *)

(** The lookahead at the encoding of [Integer(8)]. *)
Lemma is_tag_next_predicts_read_tag_witness :
  exists b : bool,
    is_tag_next 4325408
      (mkState
         (mkPrimitive CInteger None 4325408 INTEGER (Some 4) (PyInt 0)
            (Some 4) (Some fmt_i) PyNone)
         (header 4325408 INTEGER 4 ++ be_encode 4 8 ++ repeat x00 4))
    = (Ok b,
       mkState
         (mkPrimitive CInteger None 4325408 INTEGER (Some 4) (PyInt 0)
            (Some 4) (Some fmt_i) PyNone)
         (header 4325408 INTEGER 4 ++ be_encode 4 8 ++ repeat x00 4)) /\
    (b = true <->
     read_tag Tags_sample
       (mkState
          (mkPrimitive CInteger None 4325408 INTEGER (Some 4) (PyInt 0)
             (Some 4) (Some fmt_i) PyNone)
          (header 4325408 INTEGER 4 ++ be_encode 4 8 ++ repeat x00 4))
     = (Ok tt,
        mkState
          (mkPrimitive CInteger None 4325408 INTEGER (Some 4) (PyInt 0)
             (Some 4) (Some fmt_i) PyNone)
          (skipn 3 (header 4325408 INTEGER 4 ++ be_encode 4 8
                      ++ repeat x00 4)))).
Proof.
  apply (is_tag_next_predicts_read_tag Tags_sample
           (mkPrimitive CInteger None 4325408 INTEGER (Some 4) (PyInt 0)
              (Some 4) (Some fmt_i) PyNone)).
  simpl. auto.
Defined.

(** The two lookahead predicates at a header of the type [LONG_INTEGER],
    asked for an [Integer]. *)
Lemma lookahead_predicts_header_witness :
  exists b_tag b_type : bool,
    is_tag_next 4325408
      (mkState
         (mkPrimitive CInteger None 4325408 INTEGER (Some 4) (PyInt 0)
            (Some 4) (Some fmt_i) PyNone)
         (header 4325408 LONG_INTEGER 8))
    = (Ok b_tag,
       mkState
         (mkPrimitive CInteger None 4325408 INTEGER (Some 4) (PyInt 0)
            (Some 4) (Some fmt_i) PyNone)
         (header 4325408 LONG_INTEGER 8)) /\
    is_type_next INTEGER
      (mkState
         (mkPrimitive CInteger None 4325408 INTEGER (Some 4) (PyInt 0)
            (Some 4) (Some fmt_i) PyNone)
         (header 4325408 LONG_INTEGER 8))
    = (Ok b_type,
       mkState
         (mkPrimitive CInteger None 4325408 INTEGER (Some 4) (PyInt 0)
            (Some 4) (Some fmt_i) PyNone)
         (header 4325408 LONG_INTEGER 8)) /\
    (fst (Base_read Tags_sample
            (mkState
               (mkPrimitive CInteger None 4325408 INTEGER (Some 4) (PyInt 0)
                  (Some 4) (Some fmt_i) PyNone)
               (header 4325408 LONG_INTEGER 8)))
     = Ok tt
     <-> b_tag = true /\ b_type = true /\
         (8 <= List.length (header 4325408 LONG_INTEGER 8))%nat).
Proof.
  apply (lookahead_predicts_header Tags_sample
           (mkPrimitive CInteger None 4325408 INTEGER (Some 4) (PyInt 0)
              (Some 4) (Some fmt_i) PyNone)).
  simpl. auto.
Defined.

(** An [Integer] and a [TextString] within a longer stream. *)
Lemma decode_leaves_what_follows_witness :
  frames Tags_sample (Integer (PyInt 8) 4325408 true)
    (Integer PyNone 4325408 true) (fun o' => value o' = PyInt 8) /\
  frames Tags_sample (TextString (PyStr (text "Hello World")) 4325408)
    (TextString PyNone 4325408)
    (fun o' => value o' = PyStr (text "Hello World")).
Proof.
  destruct (decode_leaves_what_follows Tags_sample 4325408)
    as (HI & _ & _ & _ & _ & HT & _).
  - simpl. auto.
  - lia.
  - split; [apply HI; lia|apply HT; [reflexivity|vm_compute; reflexivity]].
Defined.

(** [is_oversized] after decoding an [Interval]. *)
Lemma is_oversized_after_decode_witness :
  exists o bs o0 o',
    Interval (PyInt 60) 4325408 = Ok o /\ encode o = Ok bs /\
    Interval PyNone 4325408 = Ok o0 /\
    bind (read Tags_sample) (fun _ => is_oversized) (mkState o0 bs)
    = (Ok tt, mkState o' []) /\
    forall (b : byte) (rest : list byte),
      bind (read Tags_sample) (fun _ => is_oversized)
        (mkState o0 (bs ++ b :: rest))
      = (Raise StreamNotEmptyError, mkState o' (b :: rest)).
Proof.
  apply (is_oversized_after_decode Tags_sample (Interval (PyInt 60) 4325408)
           (Interval PyNone 4325408) (fun o' => value o' = PyInt 60)).
  apply Interval_frames.
  - simpl. auto.
  - lia.
  - unfold Integer_MIN, Integer_MAX. lia.
Defined.

(** An [Integer] handed a header that announces 8 octets. *)
Lemma read_checks_fixed_length_witness :
  read Tags_sample
    (mkState
       (mkPrimitive CInteger None 4325408 INTEGER (Some 4) (PyInt 0)
          (Some 4) (Some fmt_i) PyNone)
       (header 4325408 INTEGER 8 ++ be_encode 8 1))
  = (Raise ReadValueError,
     mkState
       (mkPrimitive CInteger None 4325408 INTEGER (Some 8) (PyInt 0)
          (Some 4) (Some fmt_i) PyNone)
       (be_encode 8 1)).
Proof.
  destruct (read_checks_fixed_length Tags_sample
              (mkPrimitive CInteger None 4325408 INTEGER (Some 4)
                 (PyInt 0) (Some 4) (Some fmt_i) PyNone)
              8 (be_encode 8 1)) as (H & _).
  - simpl. auto.
  - simpl. lia.
  - lia.
  - apply H; [left; reflexivity|lia].
Defined.

(** A [Boolean] whose header announces 4 octets: eight are read. *)
Lemma Boolean_read_ignores_length_witness :
  read Tags_sample
    (mkState
       (mkPrimitive CBoolean None 4325408 BOOLEAN (Some 8) (PyBool false)
          None None PyNone)
       (header 4325408 BOOLEAN 4 ++ be_encode 8 1 ++ []))
  = (Ok tt,
     mkState
       (mkPrimitive CBoolean None 4325408 BOOLEAN (Some 4) (PyBool true)
          None None PyNone)
       []).
Proof.
  refine (Boolean_read_ignores_length Tags_sample
            (mkPrimitive CBoolean None 4325408 BOOLEAN (Some 8) (PyBool false)
               None None PyNone)
            4 (be_encode 8 1) [] _ _ _ _ _).
  - simpl. auto.
  - simpl. lia.
  - reflexivity.
  - lia.
  - reflexivity.
Defined.

(** An [Integer] whose padding ends in the octet 1. *)
Lemma Integer_read_nonzero_padding_witness :
  exists v : Z,
    unpack fmt_i (be_encode 4 8) = Ok v /\
    read Tags_sample
      (mkState
         (mkPrimitive CInteger None 4325408 INTEGER (Some 4) (PyInt 0)
            (Some 4) (Some fmt_i) PyNone)
         (header 4325408 INTEGER 4 ++ be_encode 4 8 ++ [x00; x00; x00; x01]
            ++ []))
    = (Raise ReadValueError,
       mkState
         (mkPrimitive CInteger None 4325408 INTEGER (Some 4) (PyInt v)
            (Some 4) (Some fmt_i) PyNone)
         []).
Proof.
  apply (Integer_read_nonzero_padding Tags_sample
           (mkPrimitive CInteger None 4325408 INTEGER (Some 4) (PyInt 0)
              (Some 4) (Some fmt_i) PyNone)
           fmt_i (be_encode 4 8) [x00; x00; x00; x01] []).
  - simpl. auto.
  - simpl. lia.
  - left. reflexivity.
  - reflexivity.
  - reflexivity.
  - reflexivity.
  - reflexivity.
  - reflexivity.
  - discriminate.
Defined.

(** An unsigned [Integer] handed the octets of 2^32 - 1. *)
Lemma Integer_unsigned_read_witness :
  exists o0 : Primitive,
    Integer PyNone 4325408 false = Ok o0 /\
    read Tags_sample
      (mkState o0
         (header 4325408 INTEGER 4 ++ repeat xff 4 ++ repeat x00 4 ++ []))
    = (Raise ValueError,
       mkState (set_value (set_length o0 (Some 4)) (PyInt 4294967295)) []).
Proof.
  refine (Integer_unsigned_read Tags_sample 4325408 (repeat xff 4) [] _ _ _).
  - simpl. auto.
  - lia.
  - reflexivity.
Defined.

(** An [Enumeration] of the one member [AES = 3] handed the value 4, and
    the base class handed 3. *)
Lemma Enumeration_read_lookup_fails_witness :
  (exists o0 : Primitive,
     Enumeration (Some [("AES"%string, 3)]) PyNone 4325408 = Ok o0 /\
     read Tags_sample
       (mkState o0
          (header 4325408 ENUMERATION 4 ++ be_encode 4 4 ++ be_encode 4 0
             ++ []))
     = (Raise ValueError,
        mkState (set_value (set_length o0 (Some 4)) (PyInt 4)) [])) /\
  (exists o0 : Primitive,
     Enumeration None PyNone 4325408 = Ok o0 /\
     read Tags_sample
       (mkState o0
          (header 4325408 ENUMERATION 4 ++ be_encode 4 3 ++ be_encode 4 0
             ++ []))
     = (Raise TypeError,
        mkState (set_value (set_length o0 (Some 4)) (PyInt 3)) [])).
Proof.
  split.
  - apply (Enumeration_read_lookup_fails Tags_sample
             (Some [("AES"%string, 3)]) 4325408 4 []).
    + simpl. auto.
    + lia.
    + lia.
    + reflexivity.
  - apply (Enumeration_read_lookup_fails Tags_sample None 4325408 3 []).
    + simpl. auto.
    + lia.
    + lia.
    + exact I.
Defined.

(** The text ["abc"] followed by padding whose third octet is 1. *)
Lemma string_read_nonzero_padding_witness :
  read Tags_sample
    (mkState
       (mkPrimitive CTextString None 4325408 TEXT_STRING (Some 0) (PyStr [])
          (Some 0) None PyNone)
       (header 4325408 TEXT_STRING 3 ++ [x61; x62; x63] ++ repeat x00 2
          ++ x01 :: [x00; x00]))
  = (Raise ReadValueError,
     mkState
       (mkPrimitive CTextString None 4325408 TEXT_STRING (Some 3)
          (PyStr (text "abc")) (Some 5) None PyNone)
       [x00; x00]).
Proof.
  apply (string_read_nonzero_padding Tags_sample
           (mkPrimitive CTextString None 4325408 TEXT_STRING (Some 0)
              (PyStr []) (Some 0) None PyNone)
           [x61; x62; x63] [x00; x00] 2 x01).
  - simpl. auto.
  - simpl. lia.
  - left. split; [reflexivity|]. repeat constructor.
  - vm_compute. reflexivity.
  - vm_compute. discriminate.
  - vm_compute. reflexivity.
  - discriminate.
Defined.

(** An [Integer] whose stream ends after two octets of the value. *)
Lemma read_truncated_value_witness :
  exists o' : Primitive,
    read Tags_sample
      (mkState
         (mkPrimitive CInteger None 4325408 INTEGER (Some 4) (PyInt 0)
            (Some 4) (Some fmt_i) PyNone)
         (header 4325408 INTEGER 4 ++ [x00; x00]))
    = (Raise struct_error, mkState o' []).
Proof.
  apply (read_truncated_value Tags_sample
           (mkPrimitive CInteger None 4325408 INTEGER (Some 4) (PyInt 0)
              (Some 4) (Some fmt_i) PyNone)
           4 [x00; x00]).
  - simpl. auto.
  - simpl. lia.
  - lia.
  - simpl. split; [reflexivity|]. split; [vm_compute; reflexivity|].
    split; [reflexivity|]. exists fmt_i. split; reflexivity.
Defined.

(** A [Struct] of the tag 0x420020, as constructed and with the length
    16. *)
Lemma Struct_header_witness :
  Base_write
    (mkState (Struct___init__ (new CInteger None) 4325408) [])
  = (Raise TypeError,
     mkState (Struct___init__ (new CInteger None) 4325408)
       [x42; x00; x20; x01]) /\
  Base_write
    (mkState
       (set_length (Struct___init__ (new CInteger None) 4325408) (Some 16))
       [])
  = (Ok tt,
     mkState
       (set_length (Struct___init__ (new CInteger None) 4325408) (Some 16))
       ([] ++ header 4325408 STRUCTURE 16)) /\
  Base_read Tags_sample
    (mkState (Struct___init__ (new CInteger None) 4325408)
       (header 4325408 STRUCTURE 16 ++ []))
  = (Ok tt,
     mkState
       (set_length (Struct___init__ (new CInteger None) 4325408) (Some 16))
       []).
Proof.
  destruct (Struct_header Tags_sample (new CInteger None) 4325408 16 [] [])
    as (Hn & _ & Hl).
  - simpl. auto.
  - lia.
  - split; [exact Hn|]. apply Hl. lia.
Defined.

(** The text ["café"]. *)
Lemma TextString_write_non_ascii_witness :
  exists o : Primitive,
    TextString (PyStr (text "caf" ++ 233%N :: [])) 4325408 = Ok o /\
    write (mkState o [])
    = (Raise struct_error,
       mkState o
         ([] ++ header 4325408 TEXT_STRING 4 ++ ascii_octets (text "caf"))).
Proof.
  apply (TextString_write_non_ascii 4325408 (text "caf") [] 233 []).
  - lia.
  - reflexivity.
  - lia.
  - vm_compute. reflexivity.
Defined.

(** [DateTime()], whose value defaults to [None]. *)
Lemma write_None_value_witness :
  exists o,
    DateTime PyNone 4325408 = Ok o /\
    write (mkState o [])
    = (Raise struct_error, mkState o ([] ++ header 4325408 DATE_TIME 8)).
Proof.
  destruct (write_None_value 4325408 []) as (_ & H & _).
  - lia.
  - exact H.
Defined.

(** The encoding of the text ["Hello World"], 24 octets. *)
Lemma encoding_is_aligned_witness :
  8 <= len (header 4325408 TEXT_STRING 11 ++ ascii_octets (text "Hello World")
              ++ repeat x00 5)
  /\ len (header 4325408 TEXT_STRING 11 ++ ascii_octets (text "Hello World")
            ++ repeat x00 5) mod 8 = 0.
Proof.
  apply (encoding_is_aligned
           (mkPrimitive CTextString None 4325408 TEXT_STRING (Some 11)
              (PyStr (text "Hello World")) (Some 5) None PyNone)).
  - exists (PyStr (text "Hello World")), 4325408.
    do 5 right. left. vm_compute. reflexivity.
  - vm_compute. reflexivity.
Defined.

(** A [DateTime], a [Boolean] and a [ByteString] on the wire. *)
Lemma wire_encodings_witness :
  (exists o d,
     LongInteger (PyInt 1400000000) 4325408 = Ok o /\
     DateTime (PyInt 1400000000) 4325408 = Ok d /\
     encode o = Ok (header 4325408 LONG_INTEGER 8 ++ be_encode 8 1400000000) /\
     encode d = Ok (header 4325408 DATE_TIME 8 ++ be_encode 8 1400000000)) /\
  (exists o,
     ByteString (PyBytes [x01; x02; x03]) 4325408 = Ok o /\
     encode o
     = Ok (header 4325408 BYTE_STRING (len [x01; x02; x03])
             ++ [x01; x02; x03] ++ padding (len [x01; x02; x03]))).
Proof.
  destruct (wire_encodings 4325408) as (HL & _ & _ & HB).
  - lia.
  - split; [apply HL; lia|apply HB; vm_compute; reflexivity].
Defined.

(** A [TextString] handed the two UTF-8 octets of ["é"]. *)
Lemma TextString_read_non_ascii_witness :
  read Tags_sample
    (mkState
       (mkPrimitive CTextString None 4325408 TEXT_STRING (Some 0) (PyStr [])
          (Some 0) None PyNone)
       (header 4325408 TEXT_STRING 2 ++ [] ++ xc3 :: [xa9]))
  = (Raise UnicodeDecodeError,
     mkState
       (mkPrimitive CTextString None 4325408 TEXT_STRING (Some 2) (PyStr [])
          (Some 0) None PyNone)
       [xa9]).
Proof.
  apply (TextString_read_non_ascii Tags_sample
           (mkPrimitive CTextString None 4325408 TEXT_STRING (Some 0)
              (PyStr []) (Some 0) None PyNone)
           2 [] [xa9] xc3).
  - simpl. auto.
  - simpl. lia.
  - reflexivity.
  - vm_compute. split; reflexivity.
  - constructor.
  - vm_compute. discriminate.
Defined.
